(** * fashionDeck ML service: a shallow embedding of the core services

    The development follows [apps/ml-service/app]: the similarity and
    coherence engine ([services/similarity_service.py]), the retry
    decorator ([utils/retry.py]), nearest-aesthetic classification
    ([services/aesthetic_service.py]), the outfit planner
    ([services/plan_service.py]), the prompt parser
    ([services/parse_service.py]) and the outfit scorer
    ([services/score_service.py]).

    Numbers.  Python [float] and numpy [float64] values are modelled as
    exact real numbers extended with the IEEE special values (two
    infinities and NaN); rounding, overflow and signed zeros are not
    modelled.  Python [int] is [Z], without the interpreter's limit on the
    number of digits that [int(s)] converts.

    Text.  Python [str] is modelled as [string], read as ASCII text:
    [lower], [upper] and [strip] act on the ASCII letters and the ASCII
    white space and leave every other character alone.

    Failure.  A Python exception is a value of [exn]; code that can raise
    returns a [result]. *)

From Stdlib Require Import String Ascii.
From Stdlib Require Import Reals Lra Lia ZArith Bool List.
From Stdlib Require Import Permutation.
Import ListNotations.

Set Implicit Arguments.

(* ================================================================== *)
(** * Part I: the embedding *)
(* ================================================================== *)

(** ** Exceptions and results *)

Module Py.

Inductive exn : Type :=
| ValueError (msg : string)
| TypeError (msg : string)
| KeyError (msg : string)
| AttributeError (msg : string)
| ZeroDivisionError
| JSONDecodeError
| UpstreamError (msg : string).

Inductive result (A : Type) : Type :=
| Ok (a : A)
| Raise (e : exn).

Arguments Ok {A} a.
Arguments Raise {A} e.

Definition bind {A B} (m : result A) (k : A -> result B) : result B :=
  match m with
  | Ok a => k a
  | Raise e => Raise e
  end.

(** [try: body except Exception: handler] *)
Definition try_except {A} (body : result A) (handler : exn -> result A)
  : result A :=
  match body with
  | Ok a => Ok a
  | Raise e => handler e
  end.

(** [range(a, b)] over the naturals. *)
Definition range (a b : nat) : list nat := seq a (b - a).

(** A [for] loop whose body updates an accumulator and may raise. *)
Fixpoint for_each {A S} (xs : list A) (body : A -> S -> result S) (s : S)
  : result S :=
  match xs with
  | [] => Ok s
  | x :: xs' => bind (body x s) (for_each xs' body)
  end.

(** A list comprehension whose element expression may raise. *)
Fixpoint map_result {A B} (f : A -> result B) (xs : list A)
  : result (list B) :=
  match xs with
  | [] => Ok []
  | x :: xs' =>
      bind (f x) (fun y => bind (map_result f xs') (fun ys => Ok (y :: ys)))
  end.

End Py.

Declare Scope py_scope.
Delimit Scope py_scope with py.
Notation "x <- m ;; k" := (Py.bind m (fun x => k))
  (at level 61, m at next level, right associativity) : py_scope.

(** ** Floating-point values *)

Module PyFloat.

Local Open Scope R_scope.

Inductive pyfloat : Type :=
| Fin (x : R)
| PInf
| NInf
| NaN.

Definition Rltb (x y : R) : bool := if Rlt_dec x y then true else false.
Definition Reqb (x y : R) : bool := if Req_dec_T x y then true else false.

(** The infinity whose sign is that of [x]; zero counts as positive. *)
Definition inf_of_sign (x : R) : pyfloat := if Rltb x 0 then NInf else PInf.

Definition fneg (a : pyfloat) : pyfloat :=
  match a with
  | Fin x => Fin (- x)
  | PInf => NInf
  | NInf => PInf
  | NaN => NaN
  end.

Definition fadd (a b : pyfloat) : pyfloat :=
  match a, b with
  | NaN, _ | _, NaN => NaN
  | Fin x, Fin y => Fin (x + y)
  | PInf, NInf | NInf, PInf => NaN
  | PInf, _ | _, PInf => PInf
  | NInf, _ | _, NInf => NInf
  end.

Definition fmul (a b : pyfloat) : pyfloat :=
  match a, b with
  | NaN, _ | _, NaN => NaN
  | Fin x, Fin y => Fin (x * y)
  | Fin x, PInf | PInf, Fin x => if Reqb x 0 then NaN else inf_of_sign x
  | Fin x, NInf | NInf, Fin x => if Reqb x 0 then NaN else fneg (inf_of_sign x)
  | PInf, PInf | NInf, NInf => PInf
  | PInf, NInf | NInf, PInf => NInf
  end.

(** numpy division: a zero divisor gives NaN or an infinity, never an
    exception. *)
Definition fdiv (a b : pyfloat) : pyfloat :=
  match a, b with
  | NaN, _ | _, NaN => NaN
  | Fin x, Fin y =>
      if Reqb y 0 then (if Reqb x 0 then NaN else inf_of_sign x)
      else Fin (x / y)
  | Fin _, PInf | Fin _, NInf => Fin 0
  | PInf, Fin y => inf_of_sign y
  | NInf, Fin y => fneg (inf_of_sign y)
  | _, _ => NaN
  end.

Definition fsqrt (a : pyfloat) : pyfloat :=
  match a with
  | Fin x => if Rltb x 0 then NaN else Fin (sqrt x)
  | PInf => PInf
  | NInf => NaN
  | NaN => NaN
  end.

(** [a < b]; every comparison with NaN is false. *)
Definition flt (a b : pyfloat) : bool :=
  match a, b with
  | NaN, _ | _, NaN => false
  | Fin x, Fin y => Rltb x y
  | NInf, NInf => false
  | NInf, _ => true
  | _, NInf => false
  | PInf, _ => false
  | _, PInf => true
  end.

(** The builtins [min(a, b)] and [max(a, b)]: the first argument is kept
    unless the second is strictly smaller (greater). *)
Definition py_min (a b : pyfloat) : pyfloat := if flt b a then b else a.
Definition py_max (a b : pyfloat) : pyfloat := if flt a b then b else a.

Definition fsum (xs : list pyfloat) : pyfloat := fold_left fadd xs (Fin 0).

End PyFloat.

(** ** Python strings *)

Module PyStr.

Local Open Scope string_scope.

Definition code (c : ascii) : N := N_of_ascii c.

Definition is_upper (c : ascii) : bool :=
  (N.leb 65 (code c) && N.leb (code c) 90)%bool.

Definition is_lower (c : ascii) : bool :=
  (N.leb 97 (code c) && N.leb (code c) 122)%bool.

Definition is_digit (c : ascii) : bool :=
  (N.leb 48 (code c) && N.leb (code c) 57)%bool.

(** [str.isspace] on ASCII: tab, line feed, vertical tab, form feed,
    carriage return, the four separators 28 to 31, and the space. *)
Definition is_space (c : ascii) : bool :=
  ((N.leb 9 (code c) && N.leb (code c) 13)
   || (N.leb 28 (code c) && N.leb (code c) 32))%bool.

Definition lower_ascii (c : ascii) : ascii :=
  if is_upper c then ascii_of_N (code c + 32) else c.

Definition upper_ascii (c : ascii) : ascii :=
  if is_lower c then ascii_of_N (code c - 32) else c.

Fixpoint map_chars (f : ascii -> ascii) (s : string) : string :=
  match s with
  | "" => ""
  | String c s' => String (f c) (map_chars f s')
  end.

(** [s.lower()] and [s.upper()] *)
Definition lower (s : string) : string := map_chars lower_ascii s.
Definition upper (s : string) : string := map_chars upper_ascii s.

Fixpoint all_chars (p : ascii -> bool) (s : string) : bool :=
  match s with
  | "" => true
  | String c s' => (p c && all_chars p s')%bool
  end.

(** [s.lstrip()], [s.rstrip()] and [s.strip()] *)
Fixpoint lstrip (s : string) : string :=
  match s with
  | "" => ""
  | String c s' => if is_space c then lstrip s' else s
  end.

Fixpoint rstrip (s : string) : string :=
  match s with
  | "" => ""
  | String c s' =>
      match rstrip s' with
      | "" => if is_space c then "" else String c ""
      | r => String c r
      end
  end.

Definition strip (s : string) : string := rstrip (lstrip s).

(** [needle in hay] *)
Fixpoint contains (needle hay : string) : bool :=
  (prefix needle hay
   || match hay with
      | "" => false
      | String _ hay' => contains needle hay'
      end)%bool.

(** [x or d] for an optional string. *)
Definition or_else (x : option string) (d : string) : string :=
  match x with
  | Some s => if String.eqb s "" then d else s
  | None => d
  end.

(** [sep.join(parts)] *)
Fixpoint join (sep : string) (parts : list string) : string :=
  match parts with
  | [] => ""
  | [p] => p
  | p :: rest => p ++ sep ++ join sep rest
  end.

(** [sorted(xs)] for a list of strings: ascending in the lexicographic
    order of the character codes. *)
Fixpoint insert (x : string) (l : list string) : list string :=
  match l with
  | [] => [x]
  | y :: l' => if String.leb x y then x :: l else y :: insert x l'
  end.

Definition sorted (l : list string) : list string := fold_right insert [] l.

(** [re.search(r'(\d+)', s)]: the first maximal run of digits. *)
Fixpoint take_digits (s : string) : string :=
  match s with
  | "" => ""
  | String c s' => if is_digit c then String c (take_digits s') else ""
  end.

Fixpoint search_digits (s : string) : option string :=
  match s with
  | "" => None
  | String c s' =>
      if is_digit c then Some (String c (take_digits s'))
      else search_digits s'
  end.

(** [int(ds)] for a string of decimal digits. *)
Fixpoint int_of_digits_from (acc : Z) (ds : string) : Z :=
  match ds with
  | "" => acc
  | String c ds' =>
      int_of_digits_from (10 * acc + Z.of_N (code c - 48)) ds'
  end.

Definition int_of_digits (ds : string) : Z := int_of_digits_from 0 ds.

(** Two texts that differ only in the case of their letters. *)
Inductive case_variant : string -> string -> Prop :=
| cv_nil : case_variant "" ""
| cv_cons (c d : ascii) (s t : string) :
    d = c \/ d = upper_ascii c \/ d = lower_ascii c ->
    case_variant s t ->
    case_variant (String c s) (String d t).

(** A text made of white space only. *)
Definition blank (s : string) : Prop := all_chars is_space s = true.

End PyStr.

(** ** services/similarity_service.py *)

Module Similarity.

Import Py PyFloat.
Local Open Scope R_scope.
Local Open Scope py_scope.

Definition ndarray := list pyfloat.

(** [np.dot] on two one-dimensional arrays. *)
Definition np_dot (a b : ndarray) : result pyfloat :=
  if Nat.eqb (length a) (length b)
  then Ok (fsum (map (fun p => fmul (fst p) (snd p)) (combine a b)))
  else Raise (ValueError "shapes not aligned").

(** [np.linalg.norm] on a one-dimensional array. *)
Definition np_linalg_norm (e : ndarray) : pyfloat :=
  fsqrt (fsum (map (fun x => fmul x x) e)).

(** [e / s] for an array and a scalar. *)
Definition np_div_scalar (e : ndarray) (s : pyfloat) : ndarray :=
  map (fun x => fdiv x s) e.

(** [np.mean] of a list of scalars. *)
Definition np_mean (xs : list pyfloat) : pyfloat :=
  fdiv (fsum xs) (Fin (INR (length xs))).

(** The two nested loops of [calculate_coherence]. *)
Definition pairwise_similarities (embs : list ndarray)
  : result (list pyfloat) :=
  for_each (range 0 (length embs))
    (fun i sims =>
       for_each (range (i + 1) (length embs))
         (fun j sims =>
            sim <- np_dot (nth i embs []) (nth j embs []) ;;
            Ok (sims ++ [sim]))
         sims)
    [].

(** The body of the [try] block. *)
Definition coherence_body (embeddings : list (list pyfloat))
  : result pyfloat :=
  let embs := embeddings in
  let embs := map (fun e => np_div_scalar e (np_linalg_norm e)) embs in
  similarities <- pairwise_similarities embs ;;
  let avg_sim := np_mean similarities in
  let avg_sim :=
    if flt avg_sim (Fin (6/10))
    then fmul avg_sim (fdiv avg_sim (Fin (6/10)))
    else avg_sim in
  Ok (py_max (Fin 0) (py_min (Fin 1) avg_sim)).

Definition calculate_coherence (embeddings : list (list pyfloat))
  : result pyfloat :=
  if Nat.ltb (length embeddings) 2 then Ok (Fin 1)
  else try_except (coherence_body embeddings) (fun _ => Ok (Fin (5/10))).

(** The index pairs visited by the two loops, in order. *)
Definition index_pairs (n : nat) : list (nat * nat) :=
  flat_map (fun i => map (pair i) (range (i + 1) n)) (range 0 n).

(** *** The reference definition of coherence, over real vectors *)

Definition dotR (a b : list R) : R :=
  fold_right Rplus 0 (map (fun p => fst p * snd p) (combine a b)).

Definition normR (e : list R) : R := sqrt (dotR e e).

Definition normalizeR (e : list R) : list R := map (fun x => x / normR e) e.

(** All unordered pairs of a list, each taken once. *)
Fixpoint all_pairs {A} (xs : list A) : list (A * A) :=
  match xs with
  | [] => []
  | x :: xs' => map (pair x) xs' ++ all_pairs xs'
  end.

Definition sumR (xs : list R) : R := fold_right Rplus 0 xs.

Definition mean_pairwise (us : list (list R)) : R :=
  sumR (map (fun p => dotR (fst p) (snd p)) (all_pairs us))
  / INR (length us * (length us - 1) / 2).

Definition penalize (m : R) : R :=
  if Rlt_dec m (6/10) then m * (m / (6/10)) else m.

Definition clamp01 (x : R) : R := Rmax 0 (Rmin 1 x).

Definition coherence_ref (embs : list (list R)) : R :=
  if Nat.ltb (length embs) 2 then 1
  else clamp01 (penalize (mean_pairwise (map normalizeR embs))).

(** Embeddings of one common dimension, none of them the zero vector. *)
Definition well_formed (embs : list (list R)) : Prop :=
  (exists d, Forall (fun e => length e = d) embs) /\
  Forall (fun e => dotR e e <> 0) embs.

Definition lift (embs : list (list R)) : list (list pyfloat) :=
  map (map Fin) embs.

End Similarity.

(** ** utils/retry.py *)

Module Retry.

Import Py.
Local Open Scope R_scope.

Record RetryConfig : Type := {
  max_retries : Z;
  initial_delay : R;
  max_delay : R;
  backoff_multiplier : R;
  jitter_enabled : bool
}.

(** The builtins [min(a, b)] and [max(a, b)] on finite floats. *)
Definition py_minR (a b : R) : R := if Rlt_dec b a then b else a.
Definition py_maxR (a b : R) : R := if Rlt_dec a b then b else a.

(** [random.uniform(a, b)], given the number [u] that [random.random()]
    draws. *)
Definition uniform (a b u : R) : R := a + (b - a) * u.

Definition add_jitter (delay u : R) : R :=
  let jitter_range := delay * (25/100) in
  let jitter := uniform (- jitter_range) jitter_range u in
  py_maxR 0 (delay + jitter).

(** [min(delay * backoff_multiplier ** attempt, max_delay)] *)
Definition backoff_delay (config : RetryConfig) (attempt : Z) : R :=
  py_minR (initial_delay config
           * backoff_multiplier config ^ Z.to_nat attempt)
          (max_delay config).

(** [range(n)] over the integers. *)
Definition zrange (n : Z) : list Z := map Z.of_nat (seq 0 (Z.to_nat n)).

(** [raise last_exception]; raising [None] is a [TypeError]. *)
Definition raise_last {V} (last_exception : option exn) : result V :=
  match last_exception with
  | Some e => Raise e
  | None => Raise (TypeError "exceptions must derive from BaseException")
  end.

Section Wrapper.

(** The wrapped coroutine: one call takes the state of everything it
    depends on to an outcome and a new state. *)
Variables St V : Type.
Variable func : St -> result V * St.

(** The numbers drawn by [random.random()], in order. *)
Variable random : nat -> R.

(** What a run of the wrapper can observe and change. *)
Record world : Type := {
  fstate : St;        (* state seen by the wrapped function *)
  calls : nat;        (* number of invocations of the wrapped function *)
  draws : nat;        (* number of random numbers drawn *)
  slept : list R      (* the delays passed to [asyncio.sleep], in order *)
}.

Inductive flow : Type :=
| Returned (v : V)
| Broke
| Next.

(** One iteration of the [for] loop. *)
Definition attempt_body (config : RetryConfig) (attempt : Z)
           (last_exception : option exn) (w : world)
  : flow * option exn * world :=
  let (r, s') := func (fstate w) in
  let w := {| fstate := s'; calls := S (calls w);
              draws := draws w; slept := slept w |} in
  match r with
  | Ok v => (Returned v, last_exception, w)
  | Raise e =>
      let last_exception := Some e in
      if Z.eqb attempt (max_retries config) then (Broke, last_exception, w)
      else
        let backoff := backoff_delay config attempt in
        if jitter_enabled config then
          let final_delay := add_jitter backoff (random (draws w)) in
          (Next, last_exception,
           {| fstate := fstate w; calls := calls w;
              draws := S (draws w); slept := slept w ++ [final_delay] |})
        else
          let final_delay := backoff in
          (Next, last_exception,
           {| fstate := fstate w; calls := calls w;
              draws := draws w; slept := slept w ++ [final_delay] |})
  end.

Fixpoint run_attempts (config : RetryConfig) (attempts : list Z)
         (last_exception : option exn) (w : world) : result V * world :=
  match attempts with
  | [] => (raise_last last_exception, w)
  | attempt :: rest =>
      match attempt_body config attempt last_exception w with
      | (Returned v, _, w') => (Ok v, w')
      | (Broke, last_exception', w') => (raise_last last_exception', w')
      | (Next, last_exception', w') =>
          run_attempts config rest last_exception' w'
      end
  end.

(** The decorated function. *)
Definition wrapper (config : RetryConfig) (w : world) : result V * world :=
  run_attempts config (zrange (max_retries config + 1)) None w.

(** The state of the wrapped function before its [k]-th invocation
    (counting from 0), and the outcome of that invocation. *)
Fixpoint state_at (k : nat) (s : St) : St :=
  match k with
  | O => s
  | S k' => snd (func (state_at k' s))
  end.

Definition outcome_at (k : nat) (s : St) : result V :=
  fst (func (state_at k s)).

Definition fails_at (k : nat) (s : St) : Prop :=
  exists e, outcome_at k s = Raise e.

(** The delay slept after the failure of attempt [attempt], when [drawn]
    random numbers have been drawn before. *)
Definition final_delay (config : RetryConfig) (attempt drawn : nat) : R :=
  if jitter_enabled config
  then add_jitter (backoff_delay config (Z.of_nat attempt)) (random drawn)
  else backoff_delay config (Z.of_nat attempt).

(** The world after [n] failed attempts, numbered from [a], each followed
    by its sleep. *)
Definition after_failures (config : RetryConfig) (a : nat) (w : world)
           (n : nat) : world :=
  {| fstate := state_at n (fstate w);
     calls := calls w + n;
     draws := if jitter_enabled config then draws w + n else draws w;
     slept := slept w
              ++ map (fun j => final_delay config (a + j) (draws w + j))
                     (seq 0 n) |}.

End Wrapper.

Definition LLM_API : RetryConfig :=
  {| max_retries := 3; initial_delay := 1; max_delay := 10;
     backoff_multiplier := 2; jitter_enabled := true |}.

Definition DATABASE : RetryConfig :=
  {| max_retries := 5; initial_delay := 2; max_delay := 30;
     backoff_multiplier := 2; jitter_enabled := false |}.

Definition EXTERNAL_API : RetryConfig :=
  {| max_retries := 2; initial_delay := 5/10; max_delay := 5;
     backoff_multiplier := 2; jitter_enabled := true |}.

(** Two sample operations over a call counter: one that is unavailable on
    its first three calls and then answers, one that never answers. *)
Definition flaky (s : nat) : result nat * nat :=
  if Nat.ltb s 3
  then (Raise (UpstreamError "unavailable"), S s)
  else (Ok 42%nat, S s).

Definition always_failing (s : nat) : result nat * nat :=
  (Raise (UpstreamError (if Nat.eqb s 3 then "fourth failure" else "failure")),
   S s).

Definition fresh_world : world nat :=
  {| fstate := 0%nat; calls := 0%nat; draws := 0%nat; slept := [] |}.

End Retry.

(** ** services/similarity_service.py: search *)

Module SimilaritySearch.

Import Py PyFloat PyStr.
Local Open Scope string_scope.
Local Open Scope py_scope.

Record SimilaritySearchRequest : Type := {
  text : option string;
  image_url : option string;
  embedding : option (list pyfloat);
  category : option string;
  min_price : option pyfloat;
  max_price : option pyfloat;
  limit : Z
}.

Record ProductSimilarity : Type := {
  ps_id : string;
  ps_title : string;
  ps_price : pyfloat;
  ps_image_url : string;
  ps_similarity : pyfloat
}.

(** A value bound to a [%s] placeholder. *)
Inductive param : Type :=
| PStr (s : string)
| PFloat (x : pyfloat)
| PInt (n : Z).

(** A column value of a fetched row. *)
Inductive dbval : Type :=
| DStr (s : string)
| DNum (x : pyfloat)
| DNull.

(** A fetched row: [id, title, price, image_url, similarity]. *)
Definition row : Type := (dbval * string * dbval * string * dbval)%type.

(** Truth value of an optional string and of an optional list. *)
Definition truthy_str (o : option string) : bool :=
  match o with
  | Some s => negb (String.eqb s "")
  | None => false
  end.

Definition truthy_list {A} (o : option (list A)) : bool :=
  match o with
  | Some (_ :: _) => true
  | _ => false
  end.

Definition value_or {A} (o : option A) (d : A) : A :=
  match o with Some a => a | None => d end.

(** [float(v)] on a column value. *)
Definition py_float (v : dbval) : result pyfloat :=
  match v with
  | DNum x => Ok x
  | DStr _ => Raise (ValueError "could not convert string to float")
  | DNull => Raise (TypeError "float() argument must be a string or a real number")
  end.

Section Upstreams.

(** The encoder ([clip.encode_image], [clip.encode_text]). *)
Variable encode_image : string -> result (list pyfloat).
Variable encode_text : string -> result (list pyfloat).

(** The relational store: opening the connection
    ([db_service.connect()]) and running a parameterized query
    ([cursor.execute] followed by [cursor.fetchall]). *)
Variable connect : result unit.
Variable execute_fetchall : string -> list param -> result (list row).

(** [str(x)] for a list of floats and for a column value. *)
Variable str_of_floats : list pyfloat -> string.
Variable str_of_dbval : dbval -> string.

(** The query text, up to white space. *)
Definition query_text (where_clause : string) : string :=
  "SELECT id, title, price, image_url, (1 - (image_embedding <=> %s::vector)) as similarity FROM products "
  ++ where_clause
  ++ " ORDER BY image_embedding <=> %s::vector ASC LIMIT %s".

Definition to_product (r : row) : result ProductSimilarity :=
  let '(r0, r1, r2, r3, r4) := r in
  price <- py_float r2 ;;
  similarity <- py_float r4 ;;
  Ok {| ps_id := str_of_dbval r0; ps_title := r1; ps_price := price;
        ps_image_url := r3; ps_similarity := similarity |}.

(** Step 1: the embedding to search with. *)
Definition resolve_embedding (request : SimilaritySearchRequest)
  : result (list pyfloat) :=
  if truthy_list (embedding request) then Ok (value_or (embedding request) [])
  else if truthy_str (image_url request)
       then encode_image (value_or (image_url request) "")
  else if truthy_str (text request)
       then encode_text (value_or (text request) "")
  else Raise (ValueError "Must provide either text, image_url, or embedding").

(** Step 2, the body of the [try] block. *)
Definition run_query (request : SimilaritySearchRequest) (emb_str : string)
  : result (list ProductSimilarity) :=
  let filters : list string := [] in
  let params := [PStr emb_str] in
  let '(filters, params) :=
    if truthy_str (category request)
    then ((filters ++ ["category = %s"])%list,
          (params ++ [PStr (value_or (category request) "")])%list)
    else (filters, params) in
  let '(filters, params) :=
    match min_price request with
    | Some p => ((filters ++ ["price >= %s"])%list,
                 (params ++ [PFloat p])%list)
    | None => (filters, params)
    end in
  let '(filters, params) :=
    match max_price request with
    | Some p => ((filters ++ ["price <= %s"])%list,
                 (params ++ [PFloat p])%list)
    | None => (filters, params)
    end in
  let where_clause :=
    match filters with
    | [] => ""
    | _ => "WHERE " ++ join " AND " filters
    end in
  let query := query_text where_clause in
  let params := (params ++ [PStr emb_str; PInt (limit request)])%list in
  results <- execute_fetchall query params ;;
  map_result to_product results.

Definition search_similar (request : SimilaritySearchRequest)
  : result (list ProductSimilarity) :=
  target_embedding <- resolve_embedding request ;;
  let emb_str := str_of_floats target_embedding in
  _ <- connect ;;
  try_except (run_query request emb_str) (fun _ => Ok []).

End Upstreams.

(** A request that supplies its embedding, and a store whose connection
    opens but whose query fails. *)
Definition request_with_embedding : SimilaritySearchRequest :=
  {| text := None; image_url := None;
     embedding := Some [Fin 1; Fin 0]; category := Some "top";
     min_price := None; max_price := None; limit := 10 |}.

Definition store_down : exn := UpstreamError "connection reset by peer".

Definition failing_query (q : string) (ps : list param) : result (list row) :=
  Raise store_down.

Definition working_encoder (s : string) : result (list pyfloat) :=
  Ok [Fin 1; Fin 0].

(** A request by text, and an encoder whose model cannot be loaded. *)
Definition request_with_text : SimilaritySearchRequest :=
  {| text := Some "white sneakers"; image_url := None;
     embedding := None; category := None;
     min_price := None; max_price := None; limit := 10 |}.

Definition model_down : exn := UpstreamError "CLIP model initialization failed".

Definition failing_encoder (s : string) : result (list pyfloat) :=
  Raise model_down.

Definition no_rows (q : string) (ps : list param) : result (list row) :=
  Ok [].

End SimilaritySearch.

(** ** services/aesthetic_service.py *)

Module Aesthetic.

Import Py PyFloat.
Local Open Scope string_scope.
Local Open Scope py_scope.

(** The run-time values met in [find_nearest_aesthetic]: a Python list of
    floats, a numpy array, a float. *)
Inductive pyval : Type :=
| VList (xs : list pyfloat)
| VArray (xs : list pyfloat)
| VFloat (x : pyfloat).

(** The operator [/]: numpy divides an array by a scalar element by
    element; a Python list has no division. *)
Definition py_truediv (a b : pyval) : result pyval :=
  match a, b with
  | VArray xs, VFloat y => Ok (VArray (map (fun x => fdiv x y) xs))
  | VFloat x, VFloat y =>
      match y with
      | Fin r => if Reqb r 0 then Raise ZeroDivisionError
                 else Ok (VFloat (fdiv x y))
      | _ => Ok (VFloat (fdiv x y))
      end
  | VList _, _ =>
      Raise (TypeError "unsupported operand type(s) for /: 'list' and 'float'")
  | _, _ => Raise (TypeError "unsupported operand type(s) for /")
  end.

(** [np.array(v)] *)
Definition np_array (v : pyval) : list pyfloat :=
  match v with
  | VList xs | VArray xs => xs
  | VFloat x => [x]
  end.

Section Service.

(** [clip.encode_text], which returns a Python list ([List[float]], built
    with [tolist()]). *)
Variable encode_text : string -> result (list pyfloat).

(** The dictionary returned by [get_all_aesthetics], in iteration order;
    that method catches its own failures and then returns the empty
    dictionary. *)
Variable get_all_aesthetics : list (string * list pyfloat).

(** The loop over [aesthetics.items()]. *)
Definition scan (p_v : list pyfloat)
  : result (option string * pyfloat) :=
  for_each get_all_aesthetics
    (fun item st =>
       let '(name, vector) := item in
       let '(best_aesthetic, max_sim) := st in
       sim <- Similarity.np_dot p_v vector ;;
       if flt max_sim sim then Ok (Some name, sim)
       else Ok (best_aesthetic, max_sim))
    (None, Fin (-1)).

(** The body of the [try] block. *)
Definition find_nearest_body (prompt : string) : result (option string) :=
  prompt_emb <- encode_text prompt ;;
  let norm := fsqrt (fsum (map (fun x => fmul x x) prompt_emb)) in
  prompt_emb <- py_truediv (VList prompt_emb) (VFloat norm) ;;
  let aesthetics := get_all_aesthetics in
  match aesthetics with
  | [] => Ok None
  | _ =>
      let p_v := np_array prompt_emb in
      st <- scan p_v ;;
      Ok (fst st)
  end.

Definition find_nearest_aesthetic (prompt : string) : option string :=
  match find_nearest_body prompt with
  | Ok r => r
  | Raise _ => None
  end.

(** *** The behaviour described for nearest-aesthetic classification *)

Definition dotF (a b : list pyfloat) : pyfloat :=
  fsum (map (fun p => fmul (fst p) (snd p)) (combine a b)).

Definition normalizeF (e : list pyfloat) : list pyfloat :=
  map (fun x => fdiv x (fsqrt (dotF e e))) e.

(** The label with the highest score, the first one on ties. *)
Fixpoint argmax (scored : list (string * pyfloat)) : option string :=
  match scored with
  | [] => None
  | (name, s) :: rest =>
      if forallb (fun q => negb (flt s (snd q))) rest then Some name
      else argmax rest
  end.

Definition nearest_ref (prompt : string) : option string :=
  match encode_text prompt with
  | Ok e =>
      let p := normalizeF e in
      argmax (map (fun item => (fst item, dotF p (snd item)))
                  get_all_aesthetics)
  | Raise _ => None
  end.

End Service.

(** An encoder and two reference vectors, of dimension two. *)
Definition sample_encoder (s : string) : result (list pyfloat) :=
  Ok [Fin 1; Fin 0].

Definition sample_aesthetics : list (string * list pyfloat) :=
  [("Korean Minimal", [Fin 1; Fin 0]); ("Streetwear", [Fin 0; Fin 1])].

End Aesthetic.

(** ** models.py *)

Module Models.

Import Py.
Local Open Scope string_scope.

Record ParsedPrompt : Type := {
  aesthetic : string;
  budget : option Z;
  size : option string;
  gender : option string;
  occasion : option string;
  categories : list string
}.

Definition size_literals : list string := ["XS"; "S"; "M"; "L"; "XL"; "XXL"].
Definition gender_literals : list string := ["male"; "female"; "unisex"].
Definition category_literals : list string :=
  ["top"; "bottom"; "shoes"; "accessories"].

Definition mem (x : string) (l : list string) : bool :=
  existsb (String.eqb x) l.

Definition opt_ok {A} (p : A -> bool) (o : option A) : bool :=
  match o with Some a => p a | None => true end.

(** The field constraints of [ParsedPrompt]: [budget >= 0] and the three
    closed sets of literals. *)
Definition valid (p : ParsedPrompt) : bool :=
  (opt_ok (fun b => Z.leb 0 b) (budget p)
   && opt_ok (fun s => mem s size_literals) (size p)
   && opt_ok (fun g => mem g gender_literals) (gender p)
   && forallb (fun c => mem c category_literals) (categories p))%bool.

(** The constructor [ParsedPrompt(...)], which validates its fields. *)
Definition make_ParsedPrompt (aesthetic : string) (budget : option Z)
           (size gender occasion : option string) (categories : list string)
  : result ParsedPrompt :=
  let p := {| aesthetic := aesthetic; budget := budget; size := size;
              gender := gender; occasion := occasion;
              categories := categories |} in
  if valid p then Ok p else Raise (ValueError "validation error for ParsedPrompt").

End Models.

(** ** services/parse_service.py *)

Module ParseService.

Import Py PyStr Models.
Local Open Scope string_scope.

Section Hash.

(** [hashlib.md5(s.encode()).hexdigest()] *)
Variable md5_hexdigest : string -> string.

Definition _generate_cache_key (prompt : string) : string :=
  let prompt_hash := md5_hexdigest (strip (lower prompt)) in
  "parse:" ++ prompt_hash.

End Hash.

Definition size_tokens : list string := ["xs"; "s"; "m"; "l"; "xl"; "xxl"].

(** The test of the size loop for one token. *)
Definition size_matches (prompt_lower s : string) : bool :=
  (contains (" " ++ s ++ " ") (" " ++ prompt_lower ++ " ")
   || contains ("size " ++ s) prompt_lower)%bool.

(** The four extraction steps of [_create_fallback_parse], each on the
    lower-cased prompt. *)
Definition extract_budget (prompt_lower : string) : option Z :=
  match search_digits prompt_lower with
  | Some ds => Some (int_of_digits ds)
  | None => None
  end.

Definition extract_size (prompt_lower : string) : option string :=
  match find (size_matches prompt_lower) size_tokens with
  | Some s => Some (upper s)
  | None => None
  end.

Definition extract_gender (prompt_lower : string) : string :=
  if (contains "men" prompt_lower || contains "male" prompt_lower)%bool
  then "male"
  else if (contains "women" prompt_lower
           || contains "female" prompt_lower)%bool
  then "female"
  else "unisex".

Definition default_categories (prompt_lower : string) : list string :=
  let categories := ["top"; "bottom"] in
  let categories :=
    if contains "shoe" prompt_lower then (categories ++ ["shoes"])%list
    else categories in
  let categories :=
    if contains "accessor" prompt_lower
    then (categories ++ ["accessories"])%list
    else categories in
  categories.

Definition _create_fallback_parse (prompt : string) : result ParsedPrompt :=
  let prompt_lower := lower prompt in
  let budget := extract_budget prompt_lower in
  let size := extract_size prompt_lower in
  let gender := extract_gender prompt_lower in
  let categories := default_categories prompt_lower in
  make_ParsedPrompt prompt budget size (Some gender) None categories.

(** The first integer token of a text: the digits [ds] when the text is
    [pre ++ ds ++ rest] with no digit in [pre], [ds] a non-empty run of
    digits and [rest] not starting with a digit. *)
Definition starts_with_digit (s : string) : bool :=
  match s with
  | "" => false
  | String c _ => is_digit c
  end.

Definition first_integer_token (text ds : string) : Prop :=
  exists pre rest,
    text = pre ++ ds ++ rest /\
    all_chars (fun c => negb (is_digit c)) pre = true /\
    ds <> "" /\ all_chars is_digit ds = true /\
    starts_with_digit rest = false.

End ParseService.

(** ** Decoded JSON *)

Module Json.

Import Py PyFloat.
Local Open Scope string_scope.

#[warnings="-register-all"]
Inductive json : Type :=
| JNull
| JBool (b : bool)
| JNum (x : pyfloat)
| JStr (s : string)
| JArr (xs : list json)
| JObj (kvs : list (string * json)).

Fixpoint lookup (k : string) (kvs : list (string * json)) : option json :=
  match kvs with
  | [] => None
  | (k', v) :: rest => if String.eqb k k' then Some v else lookup k rest
  end.

(** [v[k]] *)
Definition getitem (v : json) (k : string) : result json :=
  match v with
  | JObj kvs =>
      match lookup k kvs with
      | Some x => Ok x
      | None => Raise (KeyError k)
      end
  | _ => Raise (TypeError "object is not subscriptable by a string key")
  end.

(** [v.get(k, d)] *)
Definition get (v : json) (k : string) (d : json) : result json :=
  match v with
  | JObj kvs =>
      match lookup k kvs with
      | Some x => Ok x
      | None => Ok d
      end
  | _ => Raise (AttributeError "object has no attribute 'get'")
  end.

(** [len(v)] *)
Definition py_len (v : json) : result nat :=
  match v with
  | JArr xs => Ok (length xs)
  | JStr s => Ok (String.length s)
  | JObj kvs => Ok (length kvs)
  | _ => Raise (TypeError "object has no len()")
  end.

Fixpoint chars (s : string) : list json :=
  match s with
  | "" => []
  | String c s' => JStr (String c "") :: chars s'
  end.

(** The elements met by [for s in v]. *)
Definition elements (v : json) : result (list json) :=
  match v with
  | JArr xs => Ok xs
  | JStr s => Ok (chars s)
  | JObj kvs => Ok (map (fun kv => JStr (fst kv)) kvs)
  | _ => Raise (TypeError "object is not iterable")
  end.

Definition of_option (o : option string) : json :=
  match o with
  | Some s => JStr s
  | None => JNull
  end.

End Json.

(** ** services/plan_service.py *)

Module PlanService.

Import Py PyStr Models Json.
Local Open Scope string_scope.
Local Open Scope py_scope.

(** What [plan_outfit] returns: [(items, reasoning, is_cached)]. *)
Definition plan : Type := (json * json * bool)%type.

(** The cache store: keys and serialized values, the latest first. *)
Definition redis : Type := list (string * string).

Fixpoint redis_get (k : string) (r : redis) : option string :=
  match r with
  | [] => None
  | (k', v) :: rest => if String.eqb k k' then Some v else redis_get k rest
  end.

Definition _create_fallback_plan (parsed_prompt : ParsedPrompt)
  : list string * string * bool :=
  let aesthetic_lower := lower (aesthetic parsed_prompt) in
  let '(items, reasoning) :=
    if (contains "korean" aesthetic_lower
        || contains "minimal" aesthetic_lower)%bool then
      (["oversized t-shirt"; "straight pants"; "white sneakers"],
       "Korean minimal aesthetic with clean lines and neutral colors")
    else if contains "street" aesthetic_lower then
      (["graphic hoodie"; "cargo pants"; "chunky sneakers"],
       "Streetwear with bold graphics and utility elements")
    else if contains "y2k" aesthetic_lower then
      (["crop top"; "low-rise jeans"; "platform shoes"],
       "Y2K aesthetic with 2000s-inspired pieces")
    else if contains "vintage" aesthetic_lower then
      (["vintage blouse"; "high-waisted skirt"],
       "Vintage style with classic silhouettes")
    else if (contains "athle" aesthetic_lower
             || contains "sport" aesthetic_lower)%bool then
      (["sports top"; "leggings"; "running shoes"],
       "Athleisure combining athletic and casual style")
    else if (contains "office" aesthetic_lower
             || contains "formal" aesthetic_lower)%bool then
      (["button-down shirt"; "chino pants"],
       "Office wear balancing professionalism and comfort")
    else
      (["casual top"; "comfortable pants"],
       "Casual outfit for " ++ aesthetic parsed_prompt ++ " aesthetic") in
  let items :=
    if (mem "shoes" (categories parsed_prompt)
        && Nat.eqb (length items) 2)%bool
    then (items ++ ["casual shoes"])%list
    else items in
  (firstn 4 items, reasoning, false).

(** The fallback plan, as the value handed to the caller. *)
Definition fallback_plan (parsed_prompt : ParsedPrompt) : plan :=
  let '(items, reasoning, is_cached) := _create_fallback_plan parsed_prompt in
  (JArr (map JStr items), JStr reasoning, is_cached).

Section Service.

(** [hashlib.md5(s.encode()).hexdigest()], [json.loads], [json.dumps] and
    the completion API (from the user message to the content of the first
    choice). *)
Variable md5_hexdigest : string -> string.
Variable json_loads : string -> result json.
Variable json_dumps : json -> string.
Variable create_completion : string -> result string.

Definition _generate_cache_key (parsed_prompt : ParsedPrompt) : string :=
  let key_parts :=
    [strip (lower (aesthetic parsed_prompt));
     or_else (gender parsed_prompt) "unisex";
     join "," (sorted (categories parsed_prompt));
     or_else (occasion parsed_prompt) ""] in
  let key_string := join "|" key_parts in
  let key_hash := md5_hexdigest key_string in
  "plan:" ++ key_hash.

Definition _get_cached (redis_client : option redis) (cache_key : string)
  : option (json * json) :=
  match redis_client with
  | None => None
  | Some r =>
      match redis_get cache_key r with
      | Some cached =>
          if String.eqb cached "" then None
          else
            match (data <- json_loads cached ;;
                   items <- getitem data "items" ;;
                   reasoning <- getitem data "reasoning" ;;
                   Ok (items, reasoning)) with
            | Ok t => Some t
            | Raise _ => None
            end
      | None => None
      end
  end.

Definition _set_cache (redis_client : option redis) (cache_key : string)
           (items reasoning : json) : option redis :=
  match redis_client with
  | None => None
  | Some r =>
      let data := JObj [("items", items); ("reasoning", reasoning)] in
      Some ((cache_key, json_dumps data) :: r)
  end.

Definition user_message (parsed_prompt : ParsedPrompt) : string :=
  json_dumps
    (JObj [("aesthetic", JStr (aesthetic parsed_prompt));
           ("gender", of_option (gender parsed_prompt));
           ("occasion", of_option (occasion parsed_prompt));
           ("categories", JArr (map JStr (categories parsed_prompt)))]).

(** The body of the [try] block: the plan and the cache it leaves. *)
Definition plan_from_api (redis_client : option redis) (cache_key : string)
           (parsed_prompt : ParsedPrompt) : result (plan * option redis) :=
  content <- create_completion (user_message parsed_prompt) ;;
  plan_data <- json_loads content ;;
  items <- getitem plan_data "items" ;;
  reasoning <- get plan_data "reasoning" (JStr "") ;;
  n <- py_len items ;;
  if negb (Nat.leb 2 n && Nat.leb n 4) then
    Ok (fallback_plan parsed_prompt, redis_client)
  else
    let redis_client := _set_cache redis_client cache_key items reasoning in
    Ok ((items, reasoning, false), redis_client).

Definition plan_outfit (redis_client : option redis)
           (parsed_prompt : ParsedPrompt) : plan * option redis :=
  let cache_key := _generate_cache_key parsed_prompt in
  match _get_cached redis_client cache_key with
  | Some (items, reasoning) => ((items, reasoning, true), redis_client)
  | None =>
      match plan_from_api redis_client cache_key parsed_prompt with
      | Ok r => r
      | Raise _ => (fallback_plan parsed_prompt, redis_client)
      end
  end.

End Service.

(** A completion whose plan has a single item. *)
Definition one_item_plan : json :=
  JObj [("items", JArr [JStr "bucket hat"]); ("reasoning", JStr "a hat")].

Definition vintage_prompt : ParsedPrompt :=
  {| aesthetic := "Vintage"; budget := None; size := None;
     gender := None; occasion := None; categories := ["top"; "shoes"] |}.

End PlanService.

(** ** services/score_service.py *)

Module ScoreService.

Import Py PyFloat Json.
Local Open Scope string_scope.
Local Open Scope py_scope.
Local Open Scope R_scope.

Record OutfitItem : Type := {
  title : string;
  category : string;
  price : pyfloat
}.

Record OutfitCandidate : Type := {
  items : list OutfitItem
}.

Record ScoreOutfitsRequest : Type := {
  aesthetic : string;
  outfits : list OutfitCandidate
}.

Section Service.

(** [json.loads], the completion API (from the prompt to the content of
    the first choice), the rendering of the prompt template, the
    description of one item and [float(s)] for a string [s]. *)
Variable json_loads : string -> result json.
Variable create_completion : string -> result string.
Variable render_prompt : string -> json -> string.
Variable describe_item : OutfitItem -> string.
Variable float_of_string : string -> result pyfloat.

(** [float(s)] for a decoded JSON value. *)
Definition py_float (s : json) : result pyfloat :=
  match s with
  | JNum x => Ok x
  | JBool b => Ok (Fin (if b then 1 else 0))
  | JStr t => float_of_string t
  | _ => Raise (TypeError "float() argument must be a string or a real number")
  end.

(** [enumerate(request.outfits)], turned into the data of the prompt. *)
Fixpoint outfits_data_from (i : nat) (outfits : list OutfitCandidate)
  : list json :=
  match outfits with
  | [] => []
  | outfit :: rest =>
      JObj [("id", JNum (Fin (INR (i + 1))));
            ("items", JArr (map (fun item => JStr (describe_item item))
                                (items outfit)))]
      :: outfits_data_from (S i) rest
  end.

Definition neutral (n : nat) : list pyfloat := repeat (Fin 5) n.

Definition bound_score (s : json) : result pyfloat :=
  x <- py_float s ;;
  Ok (py_max (Fin 1) (py_min (Fin 10) x)).

(** The body of the [try] block. *)
Definition score_body (request : ScoreOutfitsRequest)
  : result (list pyfloat) :=
  let num_outfits := length (outfits request) in
  let outfits_data := outfits_data_from 0 (outfits request) in
  let prompt := render_prompt (aesthetic request) (JArr outfits_data) in
  content <- create_completion prompt ;;
  result <- json_loads content ;;
  scores <- get result "scores" (JArr []) ;;
  n <- py_len scores ;;
  if negb (Nat.eqb n num_outfits) then Ok (neutral num_outfits)
  else
    elems <- elements scores ;;
    map_result bound_score elems.

Definition score_outfits (request : ScoreOutfitsRequest)
  : result (list pyfloat) :=
  try_except (score_body request)
             (fun _ => Ok (neutral (length (outfits request)))).

End Service.

(** A finite score between 1.0 and 10.0. *)
Definition in_range (s : pyfloat) : Prop :=
  exists x, s = Fin x /\ 1 <= x <= 10.

(** Two outfits to score, and an answer that scores only one of them. *)
Definition two_outfits : ScoreOutfitsRequest :=
  {| aesthetic := "streetwear";
     outfits :=
       [ {| items := [ {| title := "Oversized Hoodie"; category := "top";
                          price := Fin 1499 |} ] |};
         {| items := [ {| title := "Baggy Cargo Pants"; category := "bottom";
                          price := Fin 1999 |} ] |} ] |}.

Definition one_score : json := JObj [("scores", JArr [JNum (Fin 7)])].

End ScoreService.

(** * Part I, continued: the rest of the services *)

(** ** utils/retry.py: the whole run *)

Module RetryRun.

Import Py Retry.
Local Open Scope R_scope.

Section Run.

Variables St V : Type.
Variable func : St -> result V * St.
Variable random : nat -> R.

(** The world in which the wrapper stops when its last invocation is the
    one numbered [k]: [k] failures, each followed by a sleep, and one more
    call. *)
Definition stopped_after (config : RetryConfig) (w : world St) (k : nat)
  : world St :=
  let w' := after_failures func random config 0 w k in
  {| fstate := snd (func (fstate w'));
     calls := S (calls w');
     draws := draws w';
     slept := slept w' |}.

(** The first [k] attempts fail and attempt [k] succeeds. *)
Definition first_success (s : St) (k : nat) (v : V) : Prop :=
  (forall j, (j < k)%nat -> fails_at func j s) /\
  outcome_at func k s = Ok v.

End Run.

Definition total (ds : list R) : R := fold_right Rplus 0 ds.

End RetryRun.

(** ** Coherence: vectors derived from others *)

Module Vectors.

Local Open Scope R_scope.

(** [c * e] and [- e], component by component. *)
Definition scale (c : R) (e : list R) : list R := map (Rmult c) e.
Definition negate (e : list R) : list R := map Ropp e.

(** Every embedding multiplied by a positive factor of its own. *)
Definition rescaled (factors : list R) (embs : list (list R))
  : list (list R) :=
  map (fun p => scale (fst p) (snd p)) (combine factors embs).

(** The sum of the dot products over all pairs. *)
Definition pair_sum (us : list (list R)) : R :=
  Similarity.sumR
    (map (fun p => Similarity.dotR (fst p) (snd p)) (Similarity.all_pairs us)).

End Vectors.

(** ** Similarity search: the query that is sent *)

Module SearchQuery.

Import Py PyFloat PyStr SimilaritySearch.
Local Open Scope string_scope.

(** The number of occurrences of [needle] in [s]. *)
Fixpoint count_occurrences (needle s : string) : nat :=
  ((if prefix needle s then 1 else 0)
   + match s with
     | "" => 0
     | String _ s' => count_occurrences needle s'
     end)%nat.

(** The number of [%s] placeholders of a query. *)
Definition placeholders (query : string) : nat := count_occurrences "%s" query.

Definition is_some {A} (o : option A) : bool :=
  match o with Some _ => true | None => false end.

(** The [WHERE] clause for the filters that are present. *)
Definition where_for (has_category has_min has_max : bool) : string :=
  match
    ((if has_category then ["category = %s"] else [])
     ++ (if has_min then ["price >= %s"] else [])
     ++ (if has_max then ["price <= %s"] else []))%list
  with
  | [] => ""
  | filters => "WHERE " ++ join " AND " filters
  end.

(** The values bound to the placeholders of the filters. *)
Definition filter_params (request : SimilaritySearchRequest) : list param :=
  ((if truthy_str (category request)
    then [PStr (value_or (category request) "")] else [])
   ++ match min_price request with Some p => [PFloat p] | None => [] end
   ++ match max_price request with Some p => [PFloat p] | None => [] end)%list.

(** A fetched row whose price and similarity are numbers, and its
    conversion. *)
Definition numeric_row (r : row) : Prop :=
  let '(_, _, r2, _, r4) := r in
  (exists x, r2 = DNum x) /\ (exists y, r4 = DNum y).

Definition null_row (r : row) : Prop :=
  let '(_, _, r2, _, r4) := r in r2 = DNull \/ r4 = DNull.

Definition number_of (v : dbval) : pyfloat :=
  match v with DNum x => x | _ => NaN end.

Definition product_of (str_of_dbval : dbval -> string) (r : row)
  : ProductSimilarity :=
  let '(r0, r1, r2, r3, r4) := r in
  {| ps_id := str_of_dbval r0; ps_title := r1; ps_price := number_of r2;
     ps_image_url := r3; ps_similarity := number_of r4 |}.

(** A request without any search criterion, and one with every filter. *)
Definition empty_request : SimilaritySearchRequest :=
  {| text := Some ""; image_url := None; embedding := Some [];
     category := None; min_price := None; max_price := None; limit := 10 |}.

Definition filtered_request : SimilaritySearchRequest :=
  {| text := Some "linen shirt"; image_url := Some "https://cdn/shirt.jpg";
     embedding := Some [Fin 1; Fin 0]; category := Some "top";
     min_price := Some (Fin 500); max_price := Some (Fin 2000); limit := 5 |}.

Definition good_row : row :=
  (DStr "p1", "Linen shirt", DNum (Fin 1499), "https://cdn/shirt.jpg",
   DNum (Fin 1)).

Definition null_price_row : row :=
  (DStr "p2", "Denim jacket", DNull, "https://cdn/jacket.jpg", DNum (Fin 0)).

End SearchQuery.

(** ** Outfit scoring: samples *)

Module ScoreSamples.

Import Py PyFloat Json ScoreService.
Local Open Scope string_scope.
Local Open Scope R_scope.

(** [max(1.0, min(10.0, x))] *)
Definition bound (x : pyfloat) : pyfloat := py_max (Fin 1) (py_min (Fin 10) x).

(** An answer with one score per outfit of [two_outfits], and one whose
    second score is [null]. *)
Definition two_scores : json :=
  JObj [("scores", JArr (map JNum [Fin 8; Fin 3]))].

Definition null_score : json :=
  JObj [("scores", JArr [JNum (Fin 8); JNull])].

End ScoreSamples.

(** ** Outfit planning: samples *)

Module PlanSamples.

Import Py PyStr Models Json PlanService.
Local Open Scope string_scope.

(** The number of items of a plan. *)
Definition item_count (p : plan) : result nat := py_len (fst (fst p)).

(** An item that is footwear. *)
Definition is_footwear (item : string) : bool :=
  (contains "shoes" item || contains "sneakers" item)%bool.

(** A completion with three items, a prompt and the same prompt with its
    categories in another order. *)
Definition three_items : json :=
  JArr [JStr "linen shirt"; JStr "pleated trousers"; JStr "loafers"].

Definition three_item_plan : json :=
  JObj [("items", three_items); ("reasoning", JStr "relaxed tailoring")].

Definition office_prompt : ParsedPrompt :=
  {| aesthetic := "Office Wear"; budget := None; size := None;
     gender := None; occasion := None; categories := ["top"; "bottom"] |}.

Definition office_prompt_reordered : ParsedPrompt :=
  {| aesthetic := " office wear"; budget := Some 3000%Z; size := None;
     gender := None; occasion := None; categories := ["bottom"; "top"] |}.

(** A serializer and a parser that agree on [three_item_plan]. *)
Definition sample_dumps (v : json) : string := "{plan}".
Definition sample_loads (s : string) : result json := Ok three_item_plan.

End PlanSamples.

(** ** services/parse_service.py: the cached parser *)

Module ParsePrompt.

Import Py PyStr Models ParseService.
Local Open Scope string_scope.
Local Open Scope py_scope.

(** The cache store: for each key the time to live given to [setex] and
    the serialized value, the latest entry first.  Reads are taken while
    the entry lives; the clock is not modelled. *)
Definition redis : Type := list (string * (Z * string)).

Fixpoint redis_get (k : string) (r : redis) : option string :=
  match r with
  | [] => None
  | (k', (_, v)) :: rest => if String.eqb k k' then Some v else redis_get k rest
  end.

Section Service.

(** [hashlib.md5(s.encode()).hexdigest()]; the constructor of
    [ParsedPrompt] applied to the fields decoded by [json.loads(s)];
    [parsed.model_dump_json()]; the completion API (from the prompt to the
    content of the first choice); [settings.redis_ttl]. *)
Variable md5_hexdigest : string -> string.
Variable parsed_of_json : string -> result ParsedPrompt.
Variable model_dump_json : ParsedPrompt -> string.
Variable create_completion : string -> result string.
Variable redis_ttl : Z.

Definition _get_cached (redis_client : option redis) (cache_key : string)
  : option ParsedPrompt :=
  match redis_client with
  | None => None
  | Some r =>
      match redis_get cache_key r with
      | Some cached =>
          if String.eqb cached "" then None
          else
            match parsed_of_json cached with
            | Ok p => Some p
            | Raise _ => None
            end
      | None => None
      end
  end.

Definition _set_cache (redis_client : option redis) (cache_key : string)
           (parsed : ParsedPrompt) : option redis :=
  match redis_client with
  | None => None
  | Some r => Some ((cache_key, (redis_ttl, model_dump_json parsed)) :: r)
  end.

(** The body of the [try] block: the parsed prompt and the cache it
    leaves. *)
Definition parse_from_api (redis_client : option redis) (cache_key : string)
           (prompt : string) : result (ParsedPrompt * option redis) :=
  content <- create_completion prompt ;;
  parsed <- parsed_of_json content ;;
  let redis_client := _set_cache redis_client cache_key parsed in
  Ok (parsed, redis_client).

Definition parse_prompt (redis_client : option redis) (prompt : string)
  : result (ParsedPrompt * bool) * option redis :=
  let cache_key := _generate_cache_key md5_hexdigest prompt in
  match _get_cached redis_client cache_key with
  | Some cached => (Ok (cached, true), redis_client)
  | None =>
      match parse_from_api redis_client cache_key prompt with
      | Ok (parsed, redis_client') => (Ok (parsed, false), redis_client')
      | Raise _ =>
          (parsed <- _create_fallback_parse prompt ;; Ok (parsed, false),
           redis_client)
      end
  end.

End Service.

(** A parsed prompt as the API would give it, with a serializer and a
    parser that agree on it. *)
Definition minimalist : ParsedPrompt :=
  {| aesthetic := "minimalist"; budget := Some 1000%Z; size := Some "M";
     gender := Some "male"; occasion := None; categories := ["top"] |}.

Definition sample_dump (p : ParsedPrompt) : string := "{parsed}".
Definition sample_parse (s : string) : result ParsedPrompt := Ok minimalist.

End ParsePrompt.

(** ** services/aesthetic_service.py: the stored reference vectors *)

Module AestheticStore.

Import Py PyFloat PyStr.
Local Open Scope string_scope.

Definition COMMON_AESTHETICS : list string :=
  ["Korean Minimal"; "Streetwear"; "Y2K"; "Vintage"; "Athleisure";
   "Office Wear"; "Boho"; "Cottagecore"; "Dark Academia"; "Grunge";
   "Preppy"; "Cyberpunk"; "Techwear"; "Gorpcore"; "Old Money";
   "Quiet Luxury"; "E-Girl"; "E-Boy"; "Soft Girl"; "Indie Sleaze";
   "Normcore"; "Minimalism"; "Maximalism"; "Avant Garde"; "Harajuku";
   "Punk"; "Rocker"; "Western"; "Safari"; "Nautical"].

(** [s.replace(old, new)] for a non-empty [old]: the occurrences of [old]
    are replaced from the left, without overlap.  [skip] counts the
    characters of an occurrence still to be dropped. *)
Fixpoint replace_from (old new : string) (skip : nat) (s : string) : string :=
  match s with
  | "" => ""
  | String c s' =>
      match skip with
      | S k => replace_from old new k s'
      | O =>
          if prefix old s
          then new ++ replace_from old new (String.length old - 1) s'
          else String c (replace_from old new 0 s')
      end
  end.

Definition replace (old new s : string) : string := replace_from old new 0 s.

(** [s.title()] *)
Definition is_cased (c : ascii) : bool := (is_upper c || is_lower c)%bool.

Fixpoint title_from (previous_is_cased : bool) (s : string) : string :=
  match s with
  | "" => ""
  | String c s' =>
      String (if is_cased c
              then (if previous_is_cased then lower_ascii c else upper_ascii c)
              else c)
             (title_from (is_cased c) s')
  end.

Definition title (s : string) : string := title_from false s.

Definition key_prefix : string := "aesthetic:vector:".

(** The key under which [precompute_aesthetics] stores an aesthetic, and
    the name under which [get_all_aesthetics] lists a key. *)
Definition key_of (aesthetic : string) : string :=
  key_prefix ++ replace " " "_" (lower aesthetic).

Definition name_of (key : string) : string :=
  title (replace "_" " " (replace key_prefix "" key)).

(** The key-value store; [set] overwrites the value of a key in place and
    adds a new key at the end. *)
Definition redis : Type := list (string * string).

Fixpoint redis_get (k : string) (r : redis) : option string :=
  match r with
  | [] => None
  | (k', v) :: rest => if String.eqb k k' then Some v else redis_get k rest
  end.

Fixpoint redis_set (k v : string) (r : redis) : redis :=
  match r with
  | [] => [(k, v)]
  | (k', v') :: rest =>
      if String.eqb k k' then (k, v) :: rest else (k', v') :: redis_set k v rest
  end.

(** [keys("aesthetic:vector:*")], in the order of the store. *)
Definition redis_keys (r : redis) : list string :=
  filter (prefix key_prefix) (map fst r).

(** A Python dictionary from names to vectors, in insertion order. *)
Definition dict : Type := list (string * list pyfloat).

Fixpoint dict_get (k : string) (d : dict) : option (list pyfloat) :=
  match d with
  | [] => None
  | (k', v) :: rest => if String.eqb k k' then Some v else dict_get k rest
  end.

Fixpoint dict_set (k : string) (v : list pyfloat) (d : dict) : dict :=
  match d with
  | [] => [(k, v)]
  | (k', v') :: rest =>
      if String.eqb k k' then (k, v) :: rest else (k', v') :: dict_set k v rest
  end.

Section Service.

(** [clip.encode_text]; [json.dumps] and [json.loads] on a vector; the
    store that [initialize] connects to, if any. *)
Variable encode_text : string -> result (list pyfloat).
Variable json_dumps : list pyfloat -> string.
Variable json_loads : string -> result (list pyfloat).
Variable initialize : option redis.

(** [if not self.redis_client: await self.initialize()] *)
Definition ensure_client (redis_client : option redis) : option redis :=
  match redis_client with
  | Some r => Some r
  | None => initialize
  end.

(** The loop of [precompute_aesthetics] over a list of aesthetics: the
    number of successes and the store. *)
Fixpoint precompute_loop (aesthetics : list string) (count : nat) (r : redis)
  : nat * redis :=
  match aesthetics with
  | [] => (count, r)
  | aesthetic :: rest =>
      match encode_text aesthetic with
      | Ok embedding =>
          precompute_loop rest (S count)
                          (redis_set (key_of aesthetic) (json_dumps embedding) r)
      | Raise _ => precompute_loop rest count r
      end
  end.

Definition precompute_aesthetics (redis_client : option redis)
  : nat * option redis :=
  match ensure_client redis_client with
  | None => (0, None)
  | Some r =>
      let '(count, r') := precompute_loop COMMON_AESTHETICS 0 r in
      (count, Some r')
  end.

(** The loop of [get_all_aesthetics] over the keys found. *)
Fixpoint collect (r : redis) (keys : list string) (results : dict)
  : result dict :=
  match keys with
  | [] => Ok results
  | key :: rest =>
      let name := name_of key in
      match redis_get key r with
      | Some vector_json =>
          if String.eqb vector_json "" then collect r rest results
          else
            match json_loads vector_json with
            | Ok v => collect r rest (dict_set name v results)
            | Raise e => Raise e
            end
      | None => collect r rest results
      end
  end.

Definition get_all_aesthetics (redis_client : option redis) : dict :=
  match ensure_client redis_client with
  | None => []
  | Some r =>
      match collect r (redis_keys r) [] with
      | Ok results => results
      | Raise _ => []
      end
  end.

End Service.

(** The store entry and the dictionary entry of an aesthetic whose vector
    is [vector a]. *)
Definition stored (json_dumps : list pyfloat -> string)
           (vector : string -> list pyfloat) (a : string) : string * string :=
  (key_of a, json_dumps (vector a)).

Definition listed (vector : string -> list pyfloat) (a : string)
  : string * list pyfloat :=
  (a, vector a).

(** The aesthetics whose embedding can be computed. *)
Definition encodable (encode_text : string -> result (list pyfloat))
           (aesthetic : string) : bool :=
  match encode_text aesthetic with Ok _ => true | Raise _ => false end.

(** A list of strings without repetition. *)
Fixpoint distinct (l : list string) : bool :=
  match l with
  | [] => true
  | x :: l' => (negb (existsb (String.eqb x) l') && distinct l')%bool
  end.

(** A store of two vectors, the second one corrupted. *)
Definition corrupted_store : redis :=
  [(key_of "Boho", "[1.0, 0.0]"); (key_of "Punk", "[1.0, ")].

Definition sample_loads (s : string) : result (list pyfloat) :=
  if String.eqb s "[1.0, 0.0]" then Ok [Fin 1; Fin 0] else Raise JSONDecodeError.

End AestheticStore.

(** ** routes/similarity.py, routes/aesthetic.py, routes/score.py *)

Module Routes.

Import Py PyFloat PyStr.
Local Open Scope string_scope.

(** What a route handler produces: a response body, or an
    [HTTPException] with its status code and detail. *)
Inductive http (A : Type) : Type :=
| Response (body : A)
| HTTPException (status_code : Z) (detail : string).

Arguments Response {A} body.
Arguments HTTPException {A} status_code detail.

(** The exceptions caught by [except ValueError]: [ValueError] and its
    subclass [json.JSONDecodeError]. *)
Definition is_ValueError (e : exn) : bool :=
  match e with
  | ValueError _ | JSONDecodeError => true
  | _ => false
  end.

Section Handlers.

(** [str(e)] for an exception whose text the model does not carry. *)
Variable text_of_decode_error : string.

Definition str_of_exn (e : exn) : string :=
  match e with
  | ValueError m | TypeError m | AttributeError m | UpstreamError m => m
  | KeyError k => "'" ++ k ++ "'"
  | ZeroDivisionError => "float division by zero"
  | JSONDecodeError => text_of_decode_error
  end.

(** [POST /similarity/search] *)
Definition search_similar_products
           (search_similar : result (list SimilaritySearch.ProductSimilarity))
  : http (list SimilaritySearch.ProductSimilarity) :=
  match search_similar with
  | Ok results => Response results
  | Raise e =>
      if is_ValueError e then HTTPException 400 (str_of_exn e)
      else HTTPException 500 "Search failed"
  end.

(** [POST /similarity/coherence] *)
Definition calculate_coherence (embeddings : list (list pyfloat))
  : http pyfloat :=
  match Similarity.calculate_coherence embeddings with
  | Ok score => Response score
  | Raise _ => HTTPException 500 "Coherence calculation failed"
  end.

(** [GET /aesthetics/identify]: the response carries the prompt and the
    style identified. *)
Definition identify_style (find_nearest_aesthetic : string -> option string)
           (prompt : string) : http (string * string) :=
  match find_nearest_aesthetic prompt with
  | Some style =>
      if String.eqb style ""
      then HTTPException 404 "No aesthetic matches found"
      else Response (prompt, style)
  | None => HTTPException 404 "No aesthetic matches found"
  end.

(** [POST /score-outfits] *)
Definition score_outfits (score_outfits : result (list pyfloat))
  : http (list pyfloat) :=
  match score_outfits with
  | Ok scores => Response scores
  | Raise e => HTTPException 500 ("Failed to score outfits: " ++ str_of_exn e)
  end.

End Handlers.

End Routes.

(** ** embeddings/clip_service.py *)

Module ClipService.

Import Py PyFloat Similarity.
Local Open Scope string_scope.
Local Open Scope py_scope.

(** [features /= features.norm(dim=-1, keepdim=True)] on one row. *)
Definition normalize (features : list pyfloat) : list pyfloat :=
  np_div_scalar features (np_linalg_norm features).

(** Truth value of an optional list. *)
Definition given {A} (o : option (list A)) : list A :=
  match o with Some l => l | None => [] end.

Section Service.

(** A decoded and preprocessed image. *)
Variable Image : Type.

(** [load_model] when the model is not loaded yet; the text tower and the
    image tower of the model, applied to one row of a batch; the download
    and decoding of an image, given the timeout of the HTTP client. *)
Variable ensure_model : result unit.
Variable model_text : string -> result (list pyfloat).
Variable model_image : Image -> result (list pyfloat).
Variable fetch_image : Z -> string -> result Image.

Definition encode_text (text : string) : result (list pyfloat) :=
  _ <- ensure_model ;;
  text_features <- model_text text ;;
  Ok (normalize text_features).

Definition encode_image (image_url : string) : result (list pyfloat) :=
  _ <- ensure_model ;;
  image <- fetch_image 10 image_url ;;
  image_features <- model_image image ;;
  Ok (normalize image_features).

(** The download loop of [encode_batch]: an image that cannot be fetched
    is skipped. *)
Fixpoint fetch_all (image_urls : list string) : list Image :=
  match image_urls with
  | [] => []
  | url :: rest =>
      match fetch_image 20 url with
      | Ok img => img :: fetch_all rest
      | Raise _ => fetch_all rest
      end
  end.

Definition encode_rows {A} (model : A -> result (list pyfloat))
           (batch : list A) : result (list (list pyfloat)) :=
  rows <- map_result model batch ;;
  Ok (map normalize rows).

Definition encode_batch (texts image_urls : option (list string))
  : result (option (list (list pyfloat)) * option (list (list pyfloat))) :=
  _ <- ensure_model ;;
  text_embeddings <-
    match given texts with
    | [] => Ok None
    | ts => rows <- encode_rows model_text ts ;; Ok (Some rows)
    end ;;
  image_embeddings <-
    match given image_urls with
    | [] => Ok None
    | urls =>
        match fetch_all urls with
        | [] => Ok None
        | images => rows <- encode_rows model_image images ;; Ok (Some rows)
        end
    end ;;
  Ok (text_embeddings, image_embeddings).

(** The URLs of a batch that can be fetched. *)
Definition fetchable (url : string) : bool :=
  match fetch_image 20 url with Ok _ => true | Raise _ => false end.

End Service.

(** A model over images named by their URL: the text tower answers
    (3, 4), the image tower (0, 2), and only URLs starting with "https"
    can be fetched. *)
Definition sample_text_tower (s : string) : result (list pyfloat) :=
  Ok [Fin 3; Fin 4].

Definition sample_image_tower (img : string) : result (list pyfloat) :=
  Ok [Fin 0; Fin 2].

Definition sample_fetch (timeout : Z) (url : string) : result string :=
  if prefix "https" url then Ok url
  else Raise (UpstreamError "unsupported protocol").

End ClipService.

(** ** services/db_service.py *)

Module DBService.

Import Py PyFloat PyStr SimilaritySearch.
Local Open Scope string_scope.
Local Open Scope py_scope.

(** A statement sent to the store: [cursor.execute(query, params)] or
    [execute_values(cursor, query, rows)]. *)
Inductive statement : Type :=
| Execute (query : string) (params : list param)
| ExecuteValues (query : string) (rows : list (string * string * string)).

(** A pending product: [(id, title, image_url)]. *)
Definition pending_row : Type := (string * string * string)%type.

Definition batch_update_query : string :=
  "UPDATE products SET image_embedding = data.img_emb::vector, text_embedding = data.txt_emb::vector, updated_at = NOW() FROM (VALUES %s) AS data(img_emb, txt_emb, id) WHERE products.id = data.id::uuid".

Section Service.

(** Opening the connection; running a statement (it is applied or it
    raises); the rows that the query for pending products would return;
    [str(x)] for a list of floats. *)
Variable connect : result unit.
Variable run : statement -> result unit.
Variable fetch_pending : Z -> result (list pending_row).
Variable str_of_floats : list pyfloat -> string.

(** The statements applied so far. *)
Definition applied : Type := list statement.

Definition update_product_embeddings (product_id : string)
           (image_embedding text_embedding : option (list pyfloat))
           (db : applied) : result unit * applied :=
  match connect with
  | Raise e => (Raise e, db)
  | Ok _ =>
      let updates : list string := [] in
      let params : list param := [] in
      let '(updates, params) :=
        if truthy_list image_embedding
        then ((updates ++ ["image_embedding = %s"])%list,
              (params ++ [PStr (str_of_floats (value_or image_embedding []))])%list)
        else (updates, params) in
      let '(updates, params) :=
        if truthy_list text_embedding
        then ((updates ++ ["text_embedding = %s"])%list,
              (params ++ [PStr (str_of_floats (value_or text_embedding []))])%list)
        else (updates, params) in
      match updates with
      | [] => (Ok tt, db)
      | _ =>
          let params := (params ++ [PStr product_id])%list in
          let query :=
            "UPDATE products SET " ++ join ", " updates
            ++ ", updated_at = NOW() WHERE id = %s" in
          match run (Execute query params) with
          | Ok _ => (Ok tt, (db ++ [Execute query params])%list)
          | Raise e => (Raise e, db)
          end
      end
  end.

Definition get_pending_products (limit : Z) : result (list pending_row) :=
  _ <- connect ;;
  try_except (fetch_pending limit) (fun _ => Ok []).

Definition batch_update_embeddings
           (data : list (list pyfloat * list pyfloat * string))
           (db : applied) : result unit * applied :=
  match connect with
  | Raise e => (Raise e, db)
  | Ok _ =>
      let formatted_data :=
        map (fun d => let '(img, txt, pid) := d in
                      (str_of_floats img, str_of_floats txt, pid)) data in
      let stmt := ExecuteValues batch_update_query formatted_data in
      match run stmt with
      | Ok _ => (Ok tt, (db ++ [stmt])%list)
      | Raise e => (Raise e, db)
      end
  end.

End Service.

End DBService.

(** ** services/embed_service.py *)

Module EmbedService.

Import Py PyFloat PyStr ClipService DBService.
Local Open Scope string_scope.
Local Open Scope py_scope.

(** [enumerate(l)] *)
Definition enumerate {A} (l : list A) : list (nat * A) :=
  combine (seq 0 (length l)) l.

Definition truthy {A} (o : option (list A)) : bool :=
  match o with Some (_ :: _) => true | _ => false end.

(** The loop of [process_batch] that pairs embeddings with products. *)
Definition pair_up (product_ids : list string)
           (text_embs image_embs : option (list (list pyfloat)))
  : list (list pyfloat * list pyfloat * string) :=
  flat_map
    (fun ip =>
       let '(i, pid) := ip in
       if (truthy text_embs && truthy image_embs
           && Nat.ltb i (length (given text_embs))
           && Nat.ltb i (length (given image_embs)))%bool
       then [(nth i (given image_embs) [], nth i (given text_embs) [], pid)]
       else [])
    (enumerate product_ids).

Section Service.

Variable Image : Type.
Variable ensure_model : result unit.
Variable model_text : string -> result (list pyfloat).
Variable model_image : Image -> result (list pyfloat).
Variable fetch_image : Z -> string -> result Image.
Variable connect : result unit.
Variable run : statement -> result unit.
Variable fetch_pending : Z -> result (list pending_row).
Variable str_of_floats : list pyfloat -> string.

Definition process_product (product_id title image_url : string)
           (db : applied) : result unit * applied :=
  match encode_text ensure_model model_text title with
  | Raise e => (Raise e, db)
  | Ok text_embedding =>
      match encode_image ensure_model model_image fetch_image image_url with
      | Raise e => (Raise e, db)
      | Ok image_embedding =>
          update_product_embeddings connect run str_of_floats product_id
                                    (Some image_embedding)
                                    (Some text_embedding) db
      end
  end.

Definition process_batch (batch_size : Z) (db : applied)
  : result nat * applied :=
  match get_pending_products connect fetch_pending batch_size with
  | Raise e => (Raise e, db)
  | Ok [] => (Ok 0, db)
  | Ok pending =>
      let product_ids := map (fun p => fst (fst p)) pending in
      let titles := map (fun p => snd (fst p)) pending in
      let image_urls := map snd pending in
      match encode_batch ensure_model model_text model_image fetch_image
                         (Some titles) (Some image_urls) with
      | Raise e => (Raise e, db)
      | Ok (text_embs, image_embs) =>
          let update_data := pair_up product_ids text_embs image_embs in
          match update_data with
          | [] => (Ok (length update_data), db)
          | _ =>
              match batch_update_embeddings connect run str_of_floats
                                            update_data db with
              | (Ok _, db') => (Ok (length update_data), db')
              | (Raise e, db') => (Raise e, db')
              end
          end
      end
  end.

End Service.

(** Two pending products; the image of the first cannot be fetched. *)
Definition two_pending : list pending_row :=
  [("p1", "Linen shirt", "ftp://cdn/shirt.jpg");
   ("p2", "Denim jacket", "https://cdn/jacket.jpg")].

End EmbedService.

(** ** Embedding batches: derived notions *)

Module Batches.

Import Py PyFloat ClipService.

(** [None] for an empty list, as [encode_batch] returns it. *)
Definition wrap {A} (l : list A) : option (list A) :=
  match l with [] => None | _ => Some l end.

(** The Euclidean norm of a vector of finite floats is 1. *)
Definition unit_norm (v : list pyfloat) : Prop :=
  Similarity.np_linalg_norm v = Fin 1.

(** Embeddings, texts and ids taken position by position. *)
Definition zip3 (images texts : list (list pyfloat)) (ids : list string)
  : list (list pyfloat * list pyfloat * string) :=
  combine (combine images texts) ids.

(** The entry produced for the product at position [i], when both lists
    of embeddings are present. *)
Definition pair_at (images texts : list (list pyfloat)) (ip : nat * string)
  : list (list pyfloat * list pyfloat * string) :=
  let '(i, pid) := ip in
  if (Nat.ltb i (length texts) && Nat.ltb i (length images))%bool
  then [(nth i images [], nth i texts [], pid)]
  else [].

(** The row written for one entry of a batch update. *)
Definition formatted (str_of_floats : list pyfloat -> string)
           (d : list pyfloat * list pyfloat * string)
  : string * string * string :=
  let '(img, txt, pid) := d in (str_of_floats img, str_of_floats txt, pid).

End Batches.

(** ** The embedding pipeline: what a batch writes *)

Module Pipeline.

Import Py PyFloat ClipService DBService EmbedService Batches.

Section Data.

Variable Image : Type.
Variable fetch_image : Z -> string -> result Image.
Variable text_tower : string -> list pyfloat.
Variable image_tower : Image -> list pyfloat.

Definition ids_of (pending : list pending_row) : list string :=
  map (fun p => fst (fst p)) pending.

Definition titles_of (pending : list pending_row) : list string :=
  map (fun p => snd (fst p)) pending.

Definition urls_of (pending : list pending_row) : list string :=
  map snd pending.

(** The embeddings of the images that could be fetched, those of the
    titles, and the ids, taken position by position. *)
Definition batch_data (pending : list pending_row)
  : list (list pyfloat * list pyfloat * string) :=
  zip3 (map (fun i => normalize (image_tower i))
            (fetch_all fetch_image (urls_of pending)))
       (map (fun t => normalize (text_tower t)) (titles_of pending))
       (ids_of pending).

End Data.

End Pipeline.

(** ** routes/embed.py *)

Module EmbedRoute.

Import Py PyFloat PyStr ClipService DBService EmbedService Routes.
Local Open Scope string_scope.

Record EmbeddingRequest : Type := {
  text : option string;
  image_url : option string;
  product_id : option string
}.

Record EmbeddingResponse : Type := {
  text_embedding : option (list pyfloat);
  image_embedding : option (list pyfloat)
}.

(** A call of [embed_service.process_product] queued as a background
    task: [(product_id, title, image_url)]. *)
Definition task : Type := (string * string * string)%type.

Definition truthy_str (o : option string) : bool :=
  SimilaritySearch.truthy_str o.

Section Handler.

Variable Image : Type.
Variable ensure_model : result unit.
Variable model_text : string -> result (list pyfloat).
Variable model_image : Image -> result (list pyfloat).
Variable fetch_image : Z -> string -> result Image.
Variable connect : result unit.
Variable run : statement -> result unit.
Variable str_of_floats : list pyfloat -> string.
Variable text_of_decode_error : string.

(** The body of the [try] block of [generate_embedding]. *)
Definition embed_body (request : EmbeddingRequest) (tasks : list task)
  : result (EmbeddingResponse * list task) :=
  bind (if truthy_str (text request)
        then bind (encode_text ensure_model model_text
                               (or_else (text request) ""))
                  (fun e => Ok (Some e))
        else Ok None)
       (fun text_embedding =>
  bind (if truthy_str (image_url request)
        then bind (encode_image ensure_model model_image fetch_image
                                (or_else (image_url request) ""))
                  (fun e => Ok (Some e))
        else Ok None)
       (fun image_embedding =>
  let tasks :=
    if truthy_str (product_id request)
    then (tasks ++ [(or_else (product_id request) "",
                     or_else (text request) "unnamed",
                     or_else (image_url request) "")])%list
    else tasks in
  Ok ({| text_embedding := text_embedding;
         image_embedding := image_embedding |}, tasks))).

(** [POST /embed]: the answer and the background tasks queued. *)
Definition generate_embedding (request : EmbeddingRequest)
           (tasks : list task) : http EmbeddingResponse * list task :=
  if (negb (truthy_str (text request))
      && negb (truthy_str (image_url request)))%bool
  then (HTTPException 400 "Must provide either 'text' or 'image_url'", tasks)
  else
    match embed_body request tasks with
    | Ok (response, tasks') => (Response response, tasks')
    | Raise e =>
        (HTTPException 500 ("Embedding generation failed: "
                            ++ str_of_exn text_of_decode_error e), tasks)
    end.

End Handler.

(** A request with a text and a product id, but no image. *)
Definition text_only : EmbeddingRequest :=
  {| text := Some "Oversized White T-shirt"; image_url := None;
     product_id := Some "p1" |}.

End EmbedRoute.

(* ================================================================== *)
(** * Part II: the properties *)
(* ================================================================== *)

(** ** Similarity: coherence *)

Section CoherenceFacts.

Import Py PyFloat Similarity.
Local Open Scope R_scope.

Lemma Rltb_true (x y : R) : x < y -> Rltb x y = true.
Proof. intros H; unfold Rltb; destruct (Rlt_dec x y); [reflexivity | contradiction]. Qed.

Lemma Rltb_false (x y : R) : ~ x < y -> Rltb x y = false.
Proof. intros H; unfold Rltb; destruct (Rlt_dec x y); [contradiction | reflexivity]. Qed.

Lemma Reqb_false (x y : R) : x <> y -> Reqb x y = false.
Proof. intros H; unfold Reqb; destruct (Req_dec_T x y); [contradiction | reflexivity]. Qed.

Lemma Reqb_true (x y : R) : x = y -> Reqb x y = true.
Proof. intros H; unfold Reqb; destruct (Req_dec_T x y); [reflexivity | contradiction]. Qed.

Lemma py_clamp_finite (lo hi : R) (a : pyfloat) :
  lo <= hi ->
  exists x, py_max (Fin lo) (py_min (Fin hi) a) = Fin x /\ lo <= x <= hi.
Proof.
  intros Hle.
  destruct a as [x| | |]; unfold py_min, py_max; cbn [flt].
  - unfold Rltb. destruct (Rlt_dec x hi); cbn [flt]; unfold Rltb.
    + destruct (Rlt_dec lo x); eexists; split; try reflexivity; lra.
    + destruct (Rlt_dec lo hi); eexists; split; try reflexivity; lra.
  - unfold Rltb. destruct (Rlt_dec lo hi); eexists; split; try reflexivity; lra.
  - exists lo. split; [reflexivity | lra].
  - unfold Rltb. destruct (Rlt_dec lo hi); eexists; split; try reflexivity; lra.
Qed.

Lemma fold_left_fadd_Fin (xs : list R) (a : R) :
  fold_left fadd (map Fin xs) (Fin a) = Fin (a + sumR xs).
Proof.
  revert a; induction xs as [|x xs IH]; intros a; simpl.
  - f_equal; lra.
  - rewrite IH. f_equal. unfold sumR. lra.
Qed.

Lemma fsum_Fin (xs : list R) : fsum (map Fin xs) = Fin (sumR xs).
Proof. unfold fsum. rewrite fold_left_fadd_Fin. f_equal; lra. Qed.

Lemma combine_map_Fin (a b : list R) :
  map (fun p => fmul (fst p) (snd p)) (combine (map Fin a) (map Fin b))
  = map Fin (map (fun p => fst p * snd p) (combine a b)).
Proof.
  revert b; induction a as [|x a IH]; intros [|y b]; simpl; try reflexivity.
  now rewrite IH.
Qed.

Lemma np_dot_Fin (a b : list R) :
  length a = length b ->
  np_dot (map Fin a) (map Fin b) = Ok (Fin (dotR a b)).
Proof.
  intros H. unfold np_dot. rewrite !length_map, H, Nat.eqb_refl.
  now rewrite combine_map_Fin, fsum_Fin.
Qed.

Lemma np_dot_mismatch (a b : ndarray) :
  length a <> length b -> exists e, np_dot a b = Raise e.
Proof.
  intros H. unfold np_dot. apply Nat.eqb_neq in H. rewrite H. eauto.
Qed.

Lemma dotR_self_nonneg (e : list R) : 0 <= dotR e e.
Proof.
  unfold dotR. induction e as [|x e IH]; simpl; [lra | nra].
Qed.

Lemma np_linalg_norm_Fin (e : list R) :
  np_linalg_norm (map Fin e) = Fin (normR e).
Proof.
  unfold np_linalg_norm, normR.
  replace (map (fun x => fmul x x) (map Fin e))
    with (map (fun p => fmul (fst p) (snd p)) (combine (map Fin e) (map Fin e))).
  - rewrite combine_map_Fin, fsum_Fin. simpl.
    rewrite Rltb_false; [reflexivity|].
    pose proof (dotR_self_nonneg e). unfold dotR, sumR in *. lra.
  - induction (map Fin e) as [|x l IH]; simpl; [reflexivity | now rewrite IH].
Qed.

Lemma normR_nonzero (e : list R) : dotR e e <> 0 -> normR e <> 0.
Proof.
  intros H Hn. unfold normR in Hn.
  apply sqrt_eq_0 in Hn; [contradiction | apply dotR_self_nonneg].
Qed.

Lemma normalize_Fin (e : list R) :
  dotR e e <> 0 ->
  np_div_scalar (map Fin e) (np_linalg_norm (map Fin e))
  = map Fin (normalizeR e).
Proof.
  intros H. rewrite np_linalg_norm_Fin. unfold np_div_scalar, normalizeR.
  rewrite !map_map. apply map_ext. intros x. simpl.
  rewrite Reqb_false; [reflexivity | now apply normR_nonzero].
Qed.

Lemma normalize_lift (embs : list (list R)) :
  Forall (fun e => dotR e e <> 0) embs ->
  map (fun e => np_div_scalar e (np_linalg_norm e)) (lift embs)
  = lift (map normalizeR embs).
Proof.
  unfold lift. induction 1 as [|e l He Hl IH]; simpl; [reflexivity|].
  now rewrite normalize_Fin, IH.
Qed.

(** A loop whose body only appends to the accumulator. *)
Lemma for_each_append {A B} (xs : list A) (body : A -> list B -> result (list B))
      (g : A -> list B) :
  (forall x s, In x xs -> body x s = Ok (s ++ g x)) ->
  forall s, for_each xs body s = Ok (s ++ flat_map g xs).
Proof.
  induction xs as [|x xs IH]; intros Hb s; simpl.
  - now rewrite app_nil_r.
  - rewrite Hb by now left. simpl.
    rewrite IH by (intros; apply Hb; now right).
    now rewrite app_assoc.
Qed.

Lemma flat_map_seq_shift {B} (f : nat -> list B) (a n : nat) :
  flat_map f (seq (S a) n) = flat_map (fun i => f (S i)) (seq a n).
Proof.
  rewrite <- seq_shift. rewrite flat_map_concat_map, map_map.
  now rewrite <- flat_map_concat_map.
Qed.

Lemma flat_map_singleton {A B} (h : A -> B) (l : list A) :
  flat_map (fun x => [h x]) l = map h l.
Proof. induction l as [|x l IH]; simpl; [reflexivity | now rewrite IH]. Qed.

Lemma map_nth_seq {A} (xs : list A) (d : A) :
  map (fun j => nth j xs d) (seq 0 (length xs)) = xs.
Proof.
  induction xs as [|x xs IH]; simpl; [reflexivity|].
  f_equal. rewrite <- seq_shift, map_map. exact IH.
Qed.

Lemma index_pairs_all_pairs {A} (xs : list A) (d : A) :
  map (fun p => (nth (fst p) xs d, nth (snd p) xs d))
      (index_pairs (length xs))
  = all_pairs xs.
Proof.
  unfold index_pairs, range.
  induction xs as [|x xs IH]; [reflexivity|].
  cbn [length]. rewrite Nat.sub_0_r in *. cbn [seq flat_map].
  rewrite map_app. cbn [all_pairs]. f_equal.
  - replace (0 + 1)%nat with 1%nat by reflexivity.
    replace (S (length xs) - 1)%nat with (length xs) by lia.
    rewrite map_map. cbn [fst snd nth].
    rewrite <- seq_shift, map_map. cbn [nth].
    rewrite <- (map_nth_seq xs d) at 2. now rewrite map_map.
  - rewrite flat_map_seq_shift. rewrite <- IH.
    rewrite !flat_map_concat_map, !concat_map, !map_map.
    f_equal. apply map_ext. intros i.
    replace (S (length xs) - (S i + 1))%nat with (length xs - (i + 1))%nat by lia.
    replace (S i + 1)%nat with (S (i + 1)) by lia.
    rewrite <- seq_shift, !map_map. apply map_ext. intros j. reflexivity.
Qed.

Lemma all_pairs_length {A} (xs : list A) :
  length (all_pairs xs) = (length xs * (length xs - 1) / 2)%nat.
Proof.
  induction xs as [|x xs IH]; [reflexivity|].
  cbn [all_pairs length]. rewrite length_app, length_map, IH.
  replace (S (length xs) - 1)%nat with (length xs) by lia.
  destruct (length xs) as [|n]; [reflexivity|].
  replace (S n - 1)%nat with n by lia.
  replace (S (S n) * S n)%nat with (S n * n + S n * 2)%nat by lia.
  rewrite Nat.div_add by lia. lia.
Qed.

End CoherenceFacts.

Section CoherenceRefinement.

Import Py PyFloat Similarity.
Local Open Scope R_scope.

Lemma nth_lift (vs : list (list R)) (i : nat) :
  nth i (lift vs) [] = map Fin (nth i vs []).
Proof. unfold lift. now rewrite <- (map_nth (map Fin)). Qed.

Lemma pairwise_similarities_lift (vs : list (list R)) (d : nat) :
  Forall (fun e => length e = d) vs ->
  pairwise_similarities (lift vs)
  = Ok (map Fin (map (fun p => dotR (fst p) (snd p)) (all_pairs vs))).
Proof.
  intros Hd.
  assert (Hlen : forall i, (i < length vs)%nat -> length (nth i vs []) = d).
  { intros i Hi. rewrite Forall_forall in Hd. apply Hd, nth_In, Hi. }
  unfold pairwise_similarities, ndarray.
  assert (Hl : length (lift vs) = length vs) by (unfold lift; apply length_map).
  rewrite Hl.
  rewrite (for_each_append _ _
             (fun i => map (fun j => Fin (dotR (nth i vs []) (nth j vs [])))
                           (range (i + 1) (length vs)))).
  - cbn [app]. f_equal.
    rewrite <- (index_pairs_all_pairs vs []).
    unfold index_pairs. rewrite !map_map.
    rewrite !flat_map_concat_map, concat_map, !map_map.
    f_equal. apply map_ext. intros i. rewrite !map_map. reflexivity.
  - intros i s Hi. unfold range in Hi. apply in_seq in Hi.
    rewrite (for_each_append _ _
               (fun j => [Fin (dotR (nth i vs []) (nth j vs []))])).
    + now rewrite flat_map_singleton.
    + intros j s' Hj. unfold range in Hj. apply in_seq in Hj.
      rewrite !nth_lift, np_dot_Fin; [reflexivity|].
      rewrite !Hlen by lia. reflexivity.
Qed.

Lemma np_mean_Fin (xs : list R) :
  xs <> [] ->
  np_mean (map Fin xs) = Fin (sumR xs / INR (length xs)).
Proof.
  intros H. unfold np_mean. rewrite fsum_Fin, length_map. simpl.
  rewrite Reqb_false; [reflexivity|].
  apply not_0_INR. destruct xs; [contradiction | discriminate].
Qed.

Lemma penalty_clamp_Fin (m : R) :
  py_max (Fin 0)
    (py_min (Fin 1)
       (if flt (Fin m) (Fin (6/10))
        then fmul (Fin m) (fdiv (Fin m) (Fin (6/10)))
        else Fin m))
  = Fin (clamp01 (penalize m)).
Proof.
  unfold penalize, clamp01. cbn [flt].
  assert (E : fdiv (Fin m) (Fin (6/10)) = Fin (m / (6/10))).
  { cbn [fdiv]. rewrite Reqb_false by lra. reflexivity. }
  rewrite E. cbn [fmul].
  set (a := if Rlt_dec m (6/10) then m * (m / (6/10)) else m).
  replace (if Rltb m (6/10) then Fin (m * (m / (6/10))) else Fin m)
    with (Fin a).
  2:{ unfold a, Rltb. destruct (Rlt_dec m (6/10)); reflexivity. }
  unfold py_min, py_max, Rmin, Rmax. cbn [flt]. unfold Rltb.
  destruct (Rlt_dec a 1), (Rle_dec 1 a); try lra; cbn [flt]; unfold Rltb.
  - destruct (Rlt_dec 0 a), (Rle_dec 0 a); try lra; try reflexivity.
    f_equal; lra.
  - destruct (Rlt_dec 0 1), (Rle_dec 0 1); try lra; reflexivity.
Qed.

Lemma calculate_coherence_refines (embs : list (list R)) :
  well_formed embs ->
  calculate_coherence (lift embs) = Ok (Fin (coherence_ref embs)).
Proof.
  intros [[d Hd] Hnz].
  unfold calculate_coherence, coherence_ref.
  assert (Hl : length (lift embs) = length embs) by (unfold lift; apply length_map).
  rewrite Hl. destruct (Nat.ltb (length embs) 2) eqn:Hn; [reflexivity|].
  apply Nat.ltb_ge in Hn.
  unfold coherence_body. rewrite normalize_lift by assumption.
  assert (Hd' : Forall (fun e => length e = d) (map normalizeR embs)).
  { rewrite Forall_map. eapply Forall_impl; [|exact Hd].
    intros e He. unfold normalizeR. now rewrite length_map. }
  rewrite (pairwise_similarities_lift Hd'). cbn [bind try_except].
  set (vs := map normalizeR embs) in *.
  assert (Hne : map (fun p => dotR (fst p) (snd p)) (all_pairs vs) <> []).
  { intros E. apply (f_equal (@length R)) in E.
    rewrite length_map, all_pairs_length in E. cbn [length] in E.
    assert (Hv : length vs = length embs) by (unfold vs; apply length_map).
    rewrite Hv in E.
    assert (2 <= length embs * (length embs - 1))%nat by nia.
    pose proof (Nat.Div0.div_le_mono 2 (length embs * (length embs - 1)) 2).
    change (2 / 2)%nat with 1%nat in *. lia. }
  rewrite np_mean_Fin by assumption.
  rewrite penalty_clamp_Fin. do 3 f_equal.
  unfold mean_pairwise. now rewrite length_map, all_pairs_length.
Qed.

End CoherenceRefinement.

Section CoherenceClaims.

Import Py PyFloat Similarity.
Local Open Scope R_scope.

Lemma dotR_scale (a b : list R) (c1 c2 : R) :
  c1 <> 0 -> c2 <> 0 ->
  dotR (map (fun x => x / c1) a) (map (fun x => x / c2) b)
  = dotR a b / (c1 * c2).
Proof.
  intros H1 H2. unfold dotR.
  revert b; induction a as [|x a IH]; intros [|y b]; simpl;
    try (field; split; assumption).
  rewrite IH. field. split; assumption.
Qed.

Lemma dotR_normalize (u v : list R) :
  dotR u u <> 0 -> dotR v v <> 0 ->
  dotR (normalizeR u) (normalizeR v) = dotR u v / (normR u * normR v).
Proof.
  intros Hu Hv. unfold normalizeR.
  apply dotR_scale; now apply normR_nonzero.
Qed.

Lemma coherence_ref_two (u v : list R) :
  coherence_ref [u; v]
  = clamp01 (penalize (dotR (normalizeR u) (normalizeR v))).
Proof.
  unfold coherence_ref, mean_pairwise.
  cbn [length Nat.ltb Nat.leb map all_pairs app fst snd sumR fold_right].
  change (2 * (2 - 1) / 2)%nat with 1%nat. cbn [INR].
  do 2 f_equal. field.
Qed.

Lemma clamp01_bounds (x : R) : 0 <= clamp01 x <= 1.
Proof.
  unfold clamp01, Rmax, Rmin.
  destruct (Rle_dec 1 x); destruct (Rle_dec 0 _); lra.
Qed.

Lemma well_formed_two (u v : list R) :
  length u = length v -> dotR u u <> 0 -> dotR v v <> 0 ->
  well_formed [u; v].
Proof.
  intros Hl Hu Hv. split.
  - exists (length v). repeat constructor; assumption.
  - repeat constructor; assumption.
Qed.



(** A zero vector does not raise: its normalization is 0/0 = NaN in every
    component, the mean is NaN, and the two builtins [min] and [max] turn
    NaN into 1.0. *)
Remark calculate_coherence_zero_vector :
  calculate_coherence (lift [[0; 0]; [1; 0]]) = Ok (Fin 1).
Proof.
  unfold calculate_coherence, coherence_body.
  cbn [lift map length Nat.ltb Nat.leb].
  assert (Z0 : np_div_scalar [Fin 0; Fin 0] (np_linalg_norm [Fin 0; Fin 0])
               = [NaN; NaN]).
  { change [Fin 0; Fin 0] with (map Fin [0; 0]).
    rewrite np_linalg_norm_Fin. unfold np_div_scalar, normR, dotR.
    cbn [map combine fold_right fst snd].
    replace (0 * 0 + (0 * 0 + 0)) with 0 by lra. rewrite sqrt_0.
    cbn [fdiv]. now rewrite !Reqb_true by reflexivity. }
  rewrite Z0.
  set (s := np_linalg_norm [Fin 1; Fin 0]).
  unfold pairwise_similarities, np_div_scalar, np_dot.
  cbn [map length range seq Nat.sub Nat.add for_each nth Nat.eqb bind app
       combine fst snd fmul].
  unfold np_mean, fsum. cbn [fold_left fadd fdiv flt py_min py_max try_except length].
  unfold py_max. cbn [flt]. now rewrite Rltb_true by lra.
Qed.

(** C10. [calculate_coherence] never raises: whatever the vectors (zero
    vectors and vectors of different dimensions included) it returns a
    finite float in [0,1]; whenever the computation inside the [try] block
    raises, the value returned is the neutral 0.5, as for two vectors of
    dimensions two and three. *)
Theorem calculate_coherence_never_raises :
  (forall embeddings : list (list pyfloat),
      exists x, calculate_coherence embeddings = Ok (Fin x) /\ 0 <= x <= 1) /\
  (forall (embeddings : list (list pyfloat)) (e : exn),
      (2 <= length embeddings)%nat ->
      coherence_body embeddings = Raise e ->
      calculate_coherence embeddings = Ok (Fin (5/10))) /\
  (exists e, coherence_body (lift [[1; 0]; [1; 0; 0]]) = Raise e) /\
  calculate_coherence (lift [[1; 0]; [1; 0; 0]]) = Ok (Fin (5/10)) /\
  (exists x, calculate_coherence (lift [[0; 0]; [1; 0]]) = Ok (Fin x)).
Proof.
  assert (Total : forall embeddings : list (list pyfloat),
      exists x, calculate_coherence embeddings = Ok (Fin x) /\ 0 <= x <= 1).
  { intros embeddings. unfold calculate_coherence.
    destruct (Nat.ltb (length embeddings) 2).
    - exists 1. split; [reflexivity | lra].
    - unfold coherence_body.
      destruct (pairwise_similarities _) as [sims|e]; cbn [bind try_except].
      + destruct (@py_clamp_finite 0 1
                    (if flt (np_mean sims) (Fin (6/10))
                     then fmul (np_mean sims) (fdiv (np_mean sims) (Fin (6/10)))
                     else np_mean sims) ltac:(lra)) as [x [E B]].
        exists x. now rewrite E.
      + exists (5/10). split; [reflexivity | lra]. }
  assert (Caught : forall (embeddings : list (list pyfloat)) (e : exn),
      (2 <= length embeddings)%nat ->
      coherence_body embeddings = Raise e ->
      calculate_coherence embeddings = Ok (Fin (5/10))).
  { intros embeddings e Hn Hb. unfold calculate_coherence.
    apply Nat.ltb_ge in Hn. rewrite Hn, Hb. reflexivity. }
  assert (Mis : exists e, coherence_body (lift [[1; 0]; [1; 0; 0]]) = Raise e).
  { unfold coherence_body, pairwise_similarities. cbn [lift map length range seq Nat.sub Nat.add for_each nth].
    unfold np_dot, np_div_scalar. rewrite !length_map. cbn. eauto. }
  split; [exact Total|]. split; [exact Caught|]. split; [exact Mis|]. split.
  - destruct Mis as [e He]. apply (Caught _ e); [cbn; lia | exact He].
  - destruct (Total (lift [[0; 0]; [1; 0]])) as [x [E _]]. eauto.
Qed.

Lemma calculate_coherence_never_raises_witness :
  exists e : exn,
    coherence_body (lift [[1; 0]; [1; 0; 0]]) = Raise e /\
    calculate_coherence (lift [[1; 0]; [1; 0; 0]]) = Ok (Fin (5/10)).
Proof.
  destruct (proj1 (proj2 (proj2 calculate_coherence_never_raises))) as [e He].
  exists e. split; [exact He|].
  apply (proj1 (proj2 calculate_coherence_never_raises) _ e); [cbn; lia | exact He].
Defined.

End CoherenceClaims.

(** ** Retry executor *)

Section RetryFacts.

Import Py Retry.
Local Open Scope R_scope.

Variables St V : Type.
Variable func : St -> result V * St.
Variable random : nat -> R.

Set Warnings "-notation-for-abbreviation".
Notation world := (world St).
Notation run_attempts := (run_attempts func random).
Notation wrapper := (wrapper func random).
Notation after_failures := (after_failures func random).
Notation state_at := (state_at func).
Notation outcome_at := (outcome_at func).
Notation fails_at := (fails_at func).

Lemma state_at_shift (n : nat) (s : St) :
  state_at (S n) s = state_at n (snd (func s)).
Proof.
  induction n as [|n IH]; [reflexivity|].
  change (state_at (S (S n)) s) with (snd (func (state_at (S n) s))).
  now rewrite IH.
Qed.

Lemma outcome_at_shift (n : nat) (s : St) :
  outcome_at (S n) s = outcome_at n (snd (func s)).
Proof. unfold Retry.outcome_at. now rewrite state_at_shift. Qed.

Lemma zrange_succ (n : Z) :
  (0 <= n)%Z ->
  zrange (n + 1) = map Z.of_nat (seq 0 (Z.to_nat n)) ++ [n].
Proof.
  intros H. unfold zrange.
  replace (Z.to_nat (n + 1)) with (Z.to_nat n + 1)%nat by lia.
  rewrite seq_app, map_app. cbn [seq map Nat.add].
  now rewrite Z2Nat.id.
Qed.

(** The error kept in [last_exception] after [n] failed attempts. *)
Lemma run_failed_prefix (config : RetryConfig) (n : nat) :
  forall (a : nat) (last : option exn) (w : world) (rest : list Z),
    (forall k, (k < n)%nat -> fails_at k (fstate w)) ->
    (Z.of_nat (a + n) <= max_retries config)%Z ->
    exists last',
      run_attempts config (map Z.of_nat (seq a n) ++ rest) last w
      = run_attempts config rest last' (after_failures config a w n)
      /\ (n = 0%nat -> last' = last)
      /\ (forall m, n = S m -> outcome_at m (fstate w) = raise_last last').
Proof.
  induction n as [|n IH]; intros a last w rest Hf Hle.
  - exists last. split; [|split; [reflexivity | discriminate]].
    cbn [seq map app]. f_equal.
    destruct w as [s c d sl]. unfold Retry.after_failures.
    cbn [fstate calls draws slept Retry.state_at seq map].
    rewrite app_nil_r, !Nat.add_0_r. now destruct (jitter_enabled config).
  - destruct (Hf 0%nat (Nat.lt_0_succ n)) as [e0 He0].
    unfold Retry.outcome_at in He0. cbn [Retry.state_at] in He0.
    cbn [seq map app run_attempts Retry.run_attempts].
    unfold attempt_body.
    destruct (func (fstate w)) as [r s'] eqn:Ef. cbn [fst] in He0. subst r.
    assert (Hne : Z.eqb (Z.of_nat a) (max_retries config) = false)
      by (apply Z.eqb_neq; lia).
    rewrite Hne. cbn [fstate calls draws slept].
    set (w1 := if jitter_enabled config
               then {| fstate := s'; calls := S (calls w);
                       draws := S (draws w);
                       slept := slept w ++
                         [add_jitter (backoff_delay config (Z.of_nat a))
                                     (random (draws w))] |}
               else {| fstate := s'; calls := S (calls w);
                       draws := draws w;
                       slept := slept w ++
                         [backoff_delay config (Z.of_nat a)] |}).
    assert (Hstep :
      (if jitter_enabled config
       then (Next V, Some e0,
             {| fstate := s'; calls := S (calls w); draws := S (draws w);
                slept := slept w ++
                  [add_jitter (backoff_delay config (Z.of_nat a))
                              (random (draws w))] |})
       else (Next V, Some e0,
             {| fstate := s'; calls := S (calls w); draws := draws w;
                slept := slept w ++ [backoff_delay config (Z.of_nat a)] |}))
      = (Next V, Some e0, w1)).
    { unfold w1. now destruct (jitter_enabled config). }
    rewrite Hstep. clear Hstep.
    assert (Hs1 : fstate w1 = s')
      by (unfold w1; now destruct (jitter_enabled config)).
    assert (Hs' : s' = snd (func (fstate w))) by now rewrite Ef.
    destruct (IH (S a) (Some e0) w1 rest) as [last' [Hrun [H0 Hm]]].
    + intros k Hk. rewrite Hs1, Hs'. unfold Retry.fails_at.
      rewrite <- outcome_at_shift. apply Hf. lia.
    + lia.
    + exists last'. split; [|split; [discriminate|]].
      * rewrite Hrun. f_equal.
        unfold Retry.after_failures. rewrite Hs1, Hs'.
        rewrite <- state_at_shift.
        unfold w1, final_delay.
        destruct (jitter_enabled config); cbn [fstate calls draws slept];
          f_equal; try lia;
          rewrite <- app_assoc; f_equal;
          cbn [seq map app]; rewrite <- (seq_shift n 0), map_map;
          rewrite !Nat.add_0_r; f_equal;
          apply map_ext; intros j;
          replace (S a + j)%nat with (a + S j)%nat by lia;
          try replace (S (draws w) + j)%nat with (draws w + S j)%nat by lia;
          reflexivity.
      * intros m Hm'. injection Hm' as <-.
        destruct n as [|n'].
        -- rewrite (H0 eq_refl). unfold Retry.outcome_at.
           cbn [Retry.state_at]. now rewrite Ef.
        -- rewrite outcome_at_shift, <- Hs', <- Hs1. now apply Hm.
Qed.

Lemma run_attempts_extends (config : RetryConfig) (attempts : list Z) :
  forall (last : option exn) (w : world),
  exists extra,
    slept (snd (run_attempts config attempts last w)) = slept w ++ extra.
Proof.
  induction attempts as [|a rest IH]; intros last w.
  - exists []. cbn. now rewrite app_nil_r.
  - cbn [Retry.run_attempts]. unfold attempt_body.
    destruct (func (fstate w)) as [[v|e] s'].
    + exists []. cbn. now rewrite app_nil_r.
    + destruct (Z.eqb a (max_retries config)).
      * exists []. cbn. now rewrite app_nil_r.
      * cbn [fstate calls draws slept].
        destruct (jitter_enabled config);
          match goal with
          | |- context [run_attempts config rest ?l ?w'] =>
              destruct (IH l w') as [extra Hx]; rewrite Hx;
              cbn [slept]; rewrite <- app_assoc; eauto
          end.
Qed.

Lemma nth_map_seq {A} (f : nat -> A) (n k : nat) (d : A) :
  (k < n)%nat -> nth k (map f (seq 0 n)) d = f k.
Proof.
  intros H. rewrite (nth_indep _ d (f 0%nat)) by (rewrite length_map, length_seq; lia).
  rewrite map_nth, seq_nth by lia. reflexivity.
Qed.

Lemma py_minR_Rmin (a b : R) : py_minR a b = Rmin a b.
Proof.
  unfold py_minR, Rmin. destruct (Rlt_dec b a), (Rle_dec a b); lra.
Qed.

Lemma py_maxR_Rmax (a b : R) : py_maxR a b = Rmax a b.
Proof.
  unfold py_maxR, Rmax. destruct (Rlt_dec a b), (Rle_dec a b); lra.
Qed.


(** A negative retry count is outside the scope of the claims: the loop
    runs no attempt and [raise last_exception] raises a [TypeError]. *)
Remark wrapper_negative_retries (config : RetryConfig) (w : world) :
  (max_retries config < 0)%Z ->
  wrapper config w
  = (Raise (TypeError "exceptions must derive from BaseException"), w).
Proof.
  intros H. unfold Retry.wrapper, zrange.
  replace (Z.to_nat (max_retries config + 1)) with 0%nat by lia.
  reflexivity.
Qed.


End RetryFacts.

Section RetryWitnesses.

Import Py Retry.
Local Open Scope R_scope.



End RetryWitnesses.

(** ** Similarity search: which failures reach the caller *)

Section SearchClaims.

Import Py PyFloat SimilaritySearch.
Local Open Scope string_scope.

Variable encode_image : string -> result (list pyfloat).
Variable encode_text : string -> result (list pyfloat).
Variable connect : result unit.
Variable execute_fetchall : string -> list param -> result (list row).
Variable str_of_floats : list pyfloat -> string.
Variable str_of_dbval : dbval -> string.

Notation search_similar :=
  (search_similar encode_image encode_text connect execute_fetchall
                  str_of_floats str_of_dbval).
Notation resolve_embedding := (resolve_embedding encode_image encode_text).
Notation run_query := (run_query execute_fetchall str_of_dbval).

Lemma resolve_embedding_image (request : SimilaritySearchRequest) (url : string) :
  truthy_list (embedding request) = false ->
  image_url request = Some url -> url <> "" ->
  resolve_embedding request = encode_image url.
Proof.
  intros He Hu Hne. unfold SimilaritySearch.resolve_embedding. rewrite He, Hu.
  cbn [truthy_str value_or].
  apply String.eqb_neq in Hne. now rewrite Hne.
Qed.

Lemma resolve_embedding_text (request : SimilaritySearchRequest) (t : string) :
  truthy_list (embedding request) = false ->
  truthy_str (image_url request) = false ->
  text request = Some t -> t <> "" ->
  resolve_embedding request = encode_text t.
Proof.
  intros He Hi Ht Hne. unfold SimilaritySearch.resolve_embedding. rewrite He, Hi, Ht.
  cbn [truthy_str value_or].
  apply String.eqb_neq in Hne. now rewrite Hne.
Qed.

(** C4 (amended). A failure of embedding generation reaches the caller of
    [search_similar] unchanged, and so does a failure to open the store
    connection; a failure of the query itself (or of reading its rows) is
    caught inside [search_similar], which then returns the empty list. *)
Theorem search_similar_failure_paths (request : SimilaritySearchRequest) :
  (forall url e,
      truthy_list (embedding request) = false ->
      image_url request = Some url -> url <> "" ->
      encode_image url = Raise e ->
      search_similar request = Raise e) /\
  (forall t e,
      truthy_list (embedding request) = false ->
      truthy_str (image_url request) = false ->
      text request = Some t -> t <> "" ->
      encode_text t = Raise e ->
      search_similar request = Raise e) /\
  (forall emb e,
      resolve_embedding request = Ok emb ->
      connect = Raise e ->
      search_similar request = Raise e) /\
  (forall emb e,
      resolve_embedding request = Ok emb ->
      connect = Ok tt ->
      run_query request (str_of_floats emb) = Raise e ->
      search_similar request = Ok []).
Proof.
  repeat split.
  - intros url e He Hu Hne Hf. unfold SimilaritySearch.search_similar.
    now rewrite (resolve_embedding_image request He Hu Hne), Hf.
  - intros t e He Hi Ht Hne Hf. unfold SimilaritySearch.search_similar.
    now rewrite (resolve_embedding_text request He Hi Ht Hne), Hf.
  - intros emb e Hr Hc. unfold SimilaritySearch.search_similar.
    now rewrite Hr, Hc.
  - intros emb e Hr Hc Hq. unfold SimilaritySearch.search_similar.
    rewrite Hr, Hc. cbn [bind]. now rewrite Hq.
Qed.

End SearchClaims.

Section SearchWitnesses.

Import Py PyFloat SimilaritySearch.
Local Open Scope string_scope.

(** A search by text whose encoder fails: the encoder's error is what the
    caller sees. *)
Lemma search_similar_failure_paths_witness :
  search_similar failing_encoder failing_encoder (Ok tt) no_rows
                 (fun _ => "[]") (fun _ => "") request_with_text
  = Raise model_down.
Proof.
  refine (proj1 (proj2 (@search_similar_failure_paths
                          failing_encoder failing_encoder (Ok tt) no_rows
                          (fun _ => "[]") (fun _ => "") request_with_text))
                "white sneakers" model_down _ _ _ _ _).
  - reflexivity.
  - reflexivity.
  - reflexivity.
  - discriminate.
  - reflexivity.
Defined.

(** C4 as stated fails: the embedding is supplied, the connection opens,
    the query raises, and [search_similar] returns the empty list instead
    of raising the store's error. *)
Lemma search_similar_swallows_query_failure :
  (forall q ps, failing_query q ps = Raise store_down) /\
  search_similar working_encoder working_encoder (Ok tt) failing_query
                 (fun _ => "[1.0, 0.0]") (fun _ => "")
                 request_with_embedding
  = Ok [] /\
  search_similar working_encoder working_encoder (Ok tt) failing_query
                 (fun _ => "[1.0, 0.0]") (fun _ => "")
                 request_with_embedding
  <> Raise store_down.
Proof.
  split; [reflexivity|]. split; [reflexivity | discriminate].
Qed.

End SearchWitnesses.

(** ** Nearest aesthetic *)

Section AestheticClaims.

Import Py PyFloat Aesthetic.
Local Open Scope string_scope.
Local Open Scope R_scope.

Lemma find_nearest_body_raises
      (encode_text : string -> result (list pyfloat))
      (aesthetics : list (string * list pyfloat)) (prompt : string) :
  exists e, find_nearest_body encode_text aesthetics prompt = Raise e.
Proof.
  unfold find_nearest_body.
  destruct (encode_text prompt) as [emb|e]; cbn [bind py_truediv]; eauto.
Qed.

Lemma nearest_ref_sample :
  nearest_ref sample_encoder sample_aesthetics "korean minimal outfit"
  = Some "Korean Minimal".
Proof.
  unfold nearest_ref, sample_encoder, sample_aesthetics, normalizeF, dotF, fsum.
  cbn [map combine fold_left fst snd fmul fadd fsqrt].
  rewrite Rltb_false by lra.
  replace (0 + 1 * 1 + 0 * 0) with 1 by lra. rewrite sqrt_1.
  cbn [fdiv]. rewrite !Reqb_false by lra.
  cbn [map combine fold_left fst snd fmul fadd argmax forallb flt negb].
  rewrite Rltb_false by lra. reflexivity.
Qed.

(** C5 (what the code does).  [find_nearest_aesthetic] divides the Python
    list returned by the encoder by a float; that raises [TypeError]
    inside the [try] block, so the method answers [None] for every prompt,
    every encoder and every set of reference vectors.  For the prompt
    "korean minimal outfit", encoded as (1, 0), and the reference vectors
    Korean Minimal = (1, 0) and Streetwear = (0, 1), the code answers
    [None] where the described behaviour is the label Korean Minimal. *)
Theorem find_nearest_aesthetic_always_absent :
  (forall (encode_text : string -> result (list pyfloat))
          (aesthetics : list (string * list pyfloat)) (prompt : string),
      find_nearest_aesthetic encode_text aesthetics prompt = None) /\
  find_nearest_aesthetic sample_encoder sample_aesthetics
                         "korean minimal outfit" = None /\
  nearest_ref sample_encoder sample_aesthetics "korean minimal outfit"
  = Some "Korean Minimal".
Proof.
  assert (G : forall (encode_text : string -> result (list pyfloat))
                     (aesthetics : list (string * list pyfloat))
                     (prompt : string),
             find_nearest_aesthetic encode_text aesthetics prompt = None).
  { intros encode_text aesthetics prompt. unfold find_nearest_aesthetic.
    destruct (find_nearest_body_raises encode_text aesthetics prompt) as [e He].
    now rewrite He. }
  split; [exact G|]. split; [apply G | exact nearest_ref_sample].
Qed.

End AestheticClaims.

(** ** Python strings: facts *)

Section StringFacts.

Import PyStr.
Local Open Scope string_scope.

Ltac by_cases_on_char c :=
  destruct c as [[] [] [] [] [] [] [] []]; reflexivity.

Lemma lower_ascii_digit (c : ascii) : is_digit (lower_ascii c) = is_digit c.
Proof. by_cases_on_char c. Qed.

Lemma lower_ascii_space (c : ascii) : is_space c = true -> lower_ascii c = c.
Proof. destruct c as [[] [] [] [] [] [] [] []]; intros H; try reflexivity; discriminate H. Qed.

Lemma lower_ascii_idem (c : ascii) : lower_ascii (lower_ascii c) = lower_ascii c.
Proof. by_cases_on_char c. Qed.

Lemma lower_upper_ascii (c : ascii) : lower_ascii (upper_ascii c) = lower_ascii c.
Proof. by_cases_on_char c. Qed.

Lemma lower_ascii_keeps_digit (c : ascii) : is_digit c = true -> lower_ascii c = c.
Proof. destruct c as [[] [] [] [] [] [] [] []]; intros H; try reflexivity; discriminate H. Qed.

Lemma map_chars_app (f : ascii -> ascii) (a b : string) :
  map_chars f (a ++ b) = map_chars f a ++ map_chars f b.
Proof. induction a as [|c a IH]; simpl; [reflexivity | now rewrite IH]. Qed.

Lemma lower_app (a b : string) : lower (a ++ b) = lower a ++ lower b.
Proof. apply map_chars_app. Qed.

Lemma lower_digits (ds : string) : all_chars is_digit ds = true -> lower ds = ds.
Proof.
  induction ds as [|c ds IH]; simpl; [reflexivity|].
  intros H. apply andb_prop in H as [Hc Hd].
  unfold lower in *. simpl. now rewrite lower_ascii_keeps_digit, IH.
Qed.

Lemma lower_blank (ws : string) : blank ws -> lower ws = ws.
Proof.
  unfold blank. induction ws as [|c ws IH]; simpl; [reflexivity|].
  intros H. apply andb_prop in H as [Hc Hd].
  unfold lower in *. simpl. now rewrite lower_ascii_space, IH.
Qed.

Lemma lower_no_digit (s : string) :
  all_chars (fun c => negb (is_digit c)) (lower s)
  = all_chars (fun c => negb (is_digit c)) s.
Proof.
  unfold lower. induction s as [|c s IH]; simpl; [reflexivity|].
  now rewrite lower_ascii_digit, IH.
Qed.

Lemma lower_starts_with_digit (s : string) :
  ParseService.starts_with_digit (lower s) = ParseService.starts_with_digit s.
Proof. destruct s as [|c s]; simpl; [reflexivity | apply lower_ascii_digit]. Qed.

Lemma case_variant_lower (p q : string) : case_variant p q -> lower p = lower q.
Proof.
  induction 1 as [|c d s t Hcd Hst IH]; [reflexivity|].
  unfold lower in *. simpl. rewrite IH. f_equal.
  destruct Hcd as [-> | [-> | ->]];
    [reflexivity | now rewrite lower_upper_ascii | now rewrite lower_ascii_idem].
Qed.

Lemma take_digits_app (ds rest : string) :
  all_chars is_digit ds = true ->
  ParseService.starts_with_digit rest = false ->
  take_digits (ds ++ rest) = ds.
Proof.
  intros Hd Hr. induction ds as [|c ds IH]; simpl in *.
  - destruct rest as [|c r]; [reflexivity|]. simpl in *. now rewrite Hr.
  - apply andb_prop in Hd as [Hc Hd]. now rewrite Hc, IH.
Qed.

Lemma search_digits_token (pre ds rest : string) :
  all_chars (fun c => negb (is_digit c)) pre = true ->
  ds <> "" -> all_chars is_digit ds = true ->
  ParseService.starts_with_digit rest = false ->
  search_digits (pre ++ ds ++ rest) = Some ds.
Proof.
  intros Hp Hne Hd Hr. induction pre as [|c pre IH]; simpl in *.
  - destruct ds as [|c ds]; [contradiction|]. simpl in *.
    apply andb_prop in Hd as [Hc Hd]. rewrite Hc.
    now rewrite take_digits_app.
  - apply andb_prop in Hp as [Hc Hp].
    apply negb_true_iff in Hc. rewrite Hc. now apply IH.
Qed.

Lemma search_digits_none (s : string) :
  all_chars (fun c => negb (is_digit c)) s = true ->
  search_digits s = None.
Proof.
  induction s as [|c s IH]; simpl; [reflexivity|].
  intros H. apply andb_prop in H as [Hc Hs].
  apply negb_true_iff in Hc. rewrite Hc. now apply IH.
Qed.

Lemma int_of_digits_from_nonneg (ds : string) (acc : Z) :
  (0 <= acc)%Z -> (0 <= int_of_digits_from acc ds)%Z.
Proof.
  revert acc; induction ds as [|c ds IH]; intros acc H;
    cbn [int_of_digits_from]; [exact H|].
  apply IH. pose proof (N2Z.is_nonneg (code c - 48)). lia.
Qed.

(** [needle in hay] holds exactly when [hay] is [a ++ needle ++ b]. *)
Lemma prefix_app (needle rest : string) : prefix needle (needle ++ rest) = true.
Proof.
  induction needle as [|c n IH]; simpl.
  - now destruct rest.
  - destruct (ascii_dec c c); [exact IH | contradiction].
Qed.

Lemma prefix_split (needle hay : string) :
  prefix needle hay = true -> exists rest, hay = needle ++ rest.
Proof.
  revert hay; induction needle as [|c n IH]; intros hay H.
  - exists hay. reflexivity.
  - destruct hay as [|d h]; simpl in H; [discriminate|].
    destruct (ascii_dec c d) as [->|]; [|discriminate].
    destruct (IH h H) as [rest ->]. now exists rest.
Qed.

Lemma contains_iff (needle hay : string) :
  contains needle hay = true <-> exists a b, hay = a ++ needle ++ b.
Proof.
  split.
  - induction hay as [|d h IH]; cbn [contains]; intros H.
    + rewrite orb_false_r in H. destruct (prefix_split _ _ H) as [rest E].
      exists "", rest. exact E.
    + apply orb_prop in H as [H|H].
      * destruct (prefix_split _ _ H) as [rest E]. exists "", rest. exact E.
      * destruct (IH H) as [a [b E]]. exists (String d a), b.
        cbn [append]. now rewrite E.
  - intros [a [b ->]]. induction a as [|d a IH]; cbn [append].
    + destruct (needle ++ b) eqn:E; cbn [contains]; rewrite <- E, prefix_app;
        reflexivity.
    + cbn [contains]. rewrite IH. apply orb_true_r.
Qed.

Lemma append_assoc (a b c : string) : (a ++ b) ++ c = a ++ (b ++ c).
Proof. induction a as [|x a IH]; simpl; [reflexivity | now rewrite IH]. Qed.

(** A text that contains [a ++ b] contains [b]. *)
Lemma contains_suffix_of_needle (a b hay : string) :
  contains (a ++ b) hay = true -> contains b hay = true.
Proof.
  intros H. apply contains_iff in H as [x [y ->]].
  apply contains_iff. exists (x ++ a), y.
  now rewrite !append_assoc.
Qed.

End StringFacts.

(** ** Prompt parsing: the fallback extractor *)

Section FallbackParse.

Import Py PyStr Models ParseService.
Local Open Scope string_scope.

Lemma extract_budget_valid (l : string) :
  opt_ok (fun b => Z.leb 0 b) (extract_budget l) = true.
Proof.
  unfold extract_budget. destruct (search_digits l) as [ds|]; [|reflexivity].
  cbn [opt_ok]. apply Z.leb_le. apply int_of_digits_from_nonneg. lia.
Qed.

Lemma extract_size_valid (l : string) :
  opt_ok (fun s => mem s size_literals) (extract_size l) = true.
Proof.
  unfold extract_size.
  destruct (find (size_matches l) size_tokens) as [s|] eqn:E; [|reflexivity].
  apply find_some in E as [Hin _]. cbn [opt_ok].
  unfold size_tokens in Hin. cbn [In] in Hin.
  repeat (destruct Hin as [<-|Hin]; [reflexivity|]). contradiction.
Qed.

Lemma extract_gender_valid (l : string) :
  mem (extract_gender l) gender_literals = true.
Proof.
  unfold extract_gender.
  destruct (_ || _)%bool; [reflexivity|].
  destruct (_ || _)%bool; reflexivity.
Qed.

Lemma default_categories_valid (l : string) :
  forallb (fun c => mem c category_literals) (default_categories l) = true.
Proof.
  unfold default_categories.
  destruct (contains "shoe" l), (contains "accessor" l); reflexivity.
Qed.

Lemma create_fallback_parse_ok (prompt : string) :
  _create_fallback_parse prompt
  = Ok {| aesthetic := prompt;
          budget := extract_budget (lower prompt);
          size := extract_size (lower prompt);
          gender := Some (extract_gender (lower prompt));
          occasion := None;
          categories := default_categories (lower prompt) |}.
Proof.
  unfold _create_fallback_parse, make_ParsedPrompt, valid.
  cbn [budget size gender categories opt_ok].
  now rewrite extract_budget_valid, extract_size_valid,
    extract_gender_valid, default_categories_valid.
Qed.

(** The branch for "women" and "female" is shadowed: a text containing
    either also contains "men" or "male". *)
Lemma extract_gender_two_values (l : string) :
  extract_gender l
  = if (contains "men" l || contains "male" l)%bool then "male" else "unisex".
Proof.
  unfold extract_gender.
  destruct (contains "men" l) eqn:E1; [reflexivity|].
  destruct (contains "male" l) eqn:E2; [reflexivity|].
  cbn [orb].
  destruct (contains "women" l) eqn:E3.
  { apply (contains_suffix_of_needle "wo" "men") in E3. congruence. }
  destruct (contains "female" l) eqn:E4.
  { apply (contains_suffix_of_needle "fe" "male") in E4. congruence. }
  reflexivity.
Qed.

Lemma extract_budget_token (prompt ds : string) :
  first_integer_token prompt ds ->
  extract_budget (lower prompt) = Some (int_of_digits ds).
Proof.
  intros [pre [rest [-> [Hp [Hne [Hd Hr]]]]]].
  unfold extract_budget. rewrite !lower_app, (lower_digits _ Hd).
  rewrite search_digits_token; try assumption; [reflexivity | |].
  - now rewrite lower_no_digit.
  - now rewrite lower_starts_with_digit.
Qed.



End FallbackParse.

(** ** Cache keys *)

Section CacheKeys.

Import Py PyStr Models.
Local Open Scope string_scope.

Lemma lstrip_blank (ws : string) : blank ws -> lstrip ws = "".
Proof.
  unfold blank. induction ws as [|c ws IH]; simpl; [reflexivity|].
  intros H. apply andb_prop in H as [Hc Hw]. rewrite Hc. now apply IH.
Qed.

Lemma rstrip_blank (ws : string) : blank ws -> rstrip ws = "".
Proof.
  unfold blank. induction ws as [|c ws IH]; simpl; [reflexivity|].
  intros H. apply andb_prop in H as [Hc Hw]. rewrite (IH Hw). now rewrite Hc.
Qed.

Lemma lstrip_blank_app (ws s : string) : blank ws -> lstrip (ws ++ s) = lstrip s.
Proof.
  unfold blank. induction ws as [|c ws IH]; simpl; [reflexivity|].
  intros H. apply andb_prop in H as [Hc Hw]. rewrite Hc. now apply IH.
Qed.

Lemma rstrip_app_blank (s ws : string) : blank ws -> rstrip (s ++ ws) = rstrip s.
Proof.
  intros H. induction s as [|c s IH]; simpl.
  - now apply rstrip_blank.
  - now rewrite IH.
Qed.

Lemma strip_app_blank (s ws : string) : blank ws -> strip (s ++ ws) = strip s.
Proof.
  intros H. unfold strip. induction s as [|c s IH].
  - cbn [append]. now rewrite lstrip_blank.
  - cbn [append lstrip]. destruct (is_space c); [exact IH|].
    exact (rstrip_app_blank (String c s) H).
Qed.

Lemma strip_surrounded (a s b : string) :
  blank a -> blank b -> strip (a ++ s ++ b) = strip s.
Proof.
  intros Ha Hb. unfold strip. rewrite lstrip_blank_app by assumption.
  now apply strip_app_blank.
Qed.

Lemma normalize_surrounded (a s b : string) :
  blank a -> blank b -> strip (lower (a ++ s ++ b)) = strip (lower s).
Proof.
  intros Ha Hb. rewrite !lower_app, (lower_blank Ha), (lower_blank Hb).
  now apply strip_surrounded.
Qed.

(** *** Sorting *)

Lemma ascii_compare_trans (a b c : ascii) (o : comparison) :
  Ascii.compare a b = o -> Ascii.compare b c = o -> Ascii.compare a c = o.
Proof.
  unfold Ascii.compare. destruct o; intros H1 H2.
  - apply N.compare_eq_iff in H1, H2. apply N.compare_eq_iff. congruence.
  - rewrite N.compare_lt_iff in *. lia.
  - rewrite N.compare_gt_iff in *. lia.
Qed.

Lemma string_compare_lt_trans (a : string) :
  forall b c,
    String.compare a b = Lt -> String.compare b c = Lt ->
    String.compare a c = Lt.
Proof.
  induction a as [|x a IH]; intros [|y b] [|z c]; simpl; try congruence.
  destruct (Ascii.compare x y) eqn:Exy; try discriminate;
    destruct (Ascii.compare y z) eqn:Eyz; try discriminate; intros H1 H2.
  - rewrite (ascii_compare_trans _ _ _ Exy Eyz). eauto.
  - apply Ascii.compare_eq_iff in Exy. subst. now rewrite Eyz.
  - apply Ascii.compare_eq_iff in Eyz. subst. now rewrite Exy.
  - now rewrite (ascii_compare_trans _ _ _ Exy Eyz).
Qed.

Lemma string_leb_trans (a b c : string) :
  String.leb a b = true -> String.leb b c = true -> String.leb a c = true.
Proof.
  unfold String.leb.
  destruct (String.compare a b) eqn:Eab; try discriminate;
    destruct (String.compare b c) eqn:Ebc; try discriminate; intros _ _.
  - pose proof (String.compare_eq_iff _ _ Eab). subst. now rewrite Ebc.
  - apply String.compare_eq_iff in Eab. subst. now rewrite Ebc.
  - apply String.compare_eq_iff in Ebc. subst. now rewrite Eab.
  - now rewrite (string_compare_lt_trans _ _ _ Eab Ebc).
Qed.

Lemma string_leb_false (a b : string) :
  String.leb a b = false -> String.leb b a = true.
Proof.
  intros H. destruct (String.leb_total a b) as [E|E]; congruence.
Qed.

Lemma insert_insert (a b : string) (l : list string) :
  insert a (insert b l) = insert b (insert a l).
Proof.
  induction l as [|y l IH]; cbn [insert].
  - destruct (String.leb a b) eqn:Eab, (String.leb b a) eqn:Eba;
      try reflexivity.
    + now rewrite (String.leb_antisym _ _ Eab Eba).
    + apply string_leb_false in Eab. congruence.
  - destruct (String.leb b y) eqn:Eby, (String.leb a y) eqn:Eay;
      cbn [insert]; rewrite ?Eby, ?Eay.
    + destruct (String.leb a b) eqn:Eab, (String.leb b a) eqn:Eba;
        rewrite ?Eby, ?Eay; try reflexivity.
      * now rewrite (String.leb_antisym _ _ Eab Eba).
      * apply string_leb_false in Eab. congruence.
    + destruct (String.leb a b) eqn:Eab.
      * rewrite (string_leb_trans _ _ _ Eab Eby) in Eay. discriminate.
      * reflexivity.
    + destruct (String.leb b a) eqn:Eba.
      * rewrite (string_leb_trans _ _ _ Eba Eay) in Eby. discriminate.
      * reflexivity.
    + now rewrite IH.
Qed.

Lemma sorted_permutation (l1 l2 : list string) :
  Permutation l1 l2 -> sorted l1 = sorted l2.
Proof.
  unfold sorted. induction 1; cbn [fold_right].
  - reflexivity.
  - now f_equal.
  - apply insert_insert.
  - congruence.
Qed.

Variable md5_hexdigest : string -> string.

(** C8. The cache keys are functions of the normalized input.  Two prompts
    that differ only in the case of their letters and in surrounding white
    space have the same parse key, as "Korean Minimal " and
    "korean minimal" do; two parsed prompts that differ only in the order
    of their categories have the same plan key. *)
Theorem cache_keys_normalization_invariant :
  (forall p q a1 a2 b1 b2 : string,
      case_variant p q ->
      blank a1 -> blank a2 -> blank b1 -> blank b2 ->
      ParseService._generate_cache_key md5_hexdigest (a1 ++ p ++ a2)
      = ParseService._generate_cache_key md5_hexdigest (b1 ++ q ++ b2)) /\
  ParseService._generate_cache_key md5_hexdigest "Korean Minimal "
  = ParseService._generate_cache_key md5_hexdigest "korean minimal" /\
  (forall pp1 pp2 : ParsedPrompt,
      aesthetic pp1 = aesthetic pp2 ->
      gender pp1 = gender pp2 ->
      occasion pp1 = occasion pp2 ->
      Permutation (categories pp1) (categories pp2) ->
      PlanService._generate_cache_key md5_hexdigest pp1
      = PlanService._generate_cache_key md5_hexdigest pp2).
Proof.
  split; [|split].
  - intros p q a1 a2 b1 b2 Hpq Ha1 Ha2 Hb1 Hb2.
    unfold ParseService._generate_cache_key.
    rewrite !normalize_surrounded by assumption.
    now rewrite (case_variant_lower Hpq).
  - reflexivity.
  - intros pp1 pp2 Ha Hg Ho Hc.
    unfold PlanService._generate_cache_key.
    now rewrite Ha, Hg, Ho, (sorted_permutation Hc).
Qed.

End CacheKeys.

Section CacheKeyWitness.

Import PyStr Models.
Local Open Scope string_scope.

(** The prompt of the specification in two spellings, and one parsed
    prompt with its categories in two orders; the hash is replaced by the
    identity, which keeps the whole normalized text visible. *)
Lemma cache_keys_normalization_invariant_witness :
  ParseService._generate_cache_key (fun s => s) ("" ++ "Korean Minimal" ++ " ")
  = ParseService._generate_cache_key (fun s => s) ("" ++ "korean minimal" ++ "")
  /\
  PlanService._generate_cache_key (fun s => s)
    {| aesthetic := "Y2K"; budget := None; size := None; gender := None;
       occasion := Some "party"; categories := ["top"; "shoes"; "bottom"] |}
  = PlanService._generate_cache_key (fun s => s)
    {| aesthetic := "Y2K"; budget := Some 1500%Z; size := None; gender := None;
       occasion := Some "party"; categories := ["shoes"; "bottom"; "top"] |}.
Proof.
  split.
  - apply (proj1 (cache_keys_normalization_invariant (fun s => s)));
      try reflexivity.
    repeat (constructor;
            [ first [ left; reflexivity | right; right; reflexivity ] | ]).
    constructor.
  - apply (proj2 (proj2 (cache_keys_normalization_invariant (fun s => s))));
      try reflexivity.
    cbn [categories].
    apply perm_trans with (l' := ["shoes"; "top"; "bottom"]).
    + apply perm_swap.
    + apply perm_skip. apply perm_swap.
Defined.

End CacheKeyWitness.

(** ** Outfit planning *)

Section PlanClaims.

Import Py PyStr Models Json PlanService.
Local Open Scope string_scope.

Variable md5_hexdigest : string -> string.
Variable json_loads : string -> result json.
Variable json_dumps : json -> string.
Variable create_completion : string -> result string.

Notation plan_outfit :=
  (plan_outfit md5_hexdigest json_loads json_dumps create_completion).
Notation cache_key := (_generate_cache_key md5_hexdigest).

Lemma fallback_plan_size (parsed_prompt : ParsedPrompt) :
  2 <= length (fst (fst (_create_fallback_plan parsed_prompt))) <= 4.
Proof.
  unfold _create_fallback_plan.
  repeat match goal with
         | |- context [if ?b then _ else _] => destruct b
         end; cbn; lia.
Qed.

Lemma getitem_get (v x d : json) (k k' : string) :
  getitem v k = Ok x -> exists y, get v k' d = Ok y.
Proof.
  destruct v; cbn; try discriminate. intros _.
  destruct (lookup k' kvs); eauto.
Qed.

(** C6. On a cache miss, an upstream plan whose item count is outside
    [2,4] is dropped and the fallback plan is returned, the cache being
    left as it was (a count inside [2,4] is returned as it is); and the
    fallback plan has between 2 and 4 items for every parsed prompt. *)
Theorem plan_outfit_validates_item_count :
  (forall (redis_client : option redis) (parsed_prompt : ParsedPrompt)
          (content : string) (plan_data items : json) (n : nat),
      _get_cached json_loads redis_client (cache_key parsed_prompt) = None ->
      create_completion (user_message json_dumps parsed_prompt) = Ok content ->
      json_loads content = Ok plan_data ->
      getitem plan_data "items" = Ok items ->
      py_len items = Ok n ->
      (n < 2 \/ 4 < n) ->
      plan_outfit redis_client parsed_prompt
      = (fallback_plan parsed_prompt, redis_client)) /\
  (forall (redis_client : option redis) (parsed_prompt : ParsedPrompt)
          (content : string) (plan_data items : json) (n : nat),
      _get_cached json_loads redis_client (cache_key parsed_prompt) = None ->
      create_completion (user_message json_dumps parsed_prompt) = Ok content ->
      json_loads content = Ok plan_data ->
      getitem plan_data "items" = Ok items ->
      py_len items = Ok n ->
      2 <= n <= 4 ->
      exists reasoning,
        fst (plan_outfit redis_client parsed_prompt)
        = (items, reasoning, false)) /\
  (forall parsed_prompt : ParsedPrompt,
      2 <= length (fst (fst (_create_fallback_plan parsed_prompt))) <= 4).
Proof.
  split; [|split].
  - intros redis_client parsed_prompt content plan_data items n
           Hmiss Hc Hj Hi Hn Hout.
    unfold PlanService.plan_outfit. rewrite Hmiss.
    unfold plan_from_api. rewrite Hc. cbn [bind]. rewrite Hj. cbn [bind].
    rewrite Hi. cbn [bind].
    destruct (@getitem_get plan_data items (JStr "") "items" "reasoning" Hi)
      as [r Hr].
    rewrite Hr. cbn [bind]. rewrite Hn. cbn [bind].
    replace (Nat.leb 2 n && Nat.leb n 4)%bool with false; [reflexivity|].
    symmetry. apply andb_false_iff.
    destruct Hout; [left; apply Nat.leb_gt | right; apply Nat.leb_gt]; lia.
  - intros redis_client parsed_prompt content plan_data items n
           Hmiss Hc Hj Hi Hn Hin.
    unfold PlanService.plan_outfit. rewrite Hmiss.
    unfold plan_from_api. rewrite Hc. cbn [bind]. rewrite Hj. cbn [bind].
    rewrite Hi. cbn [bind].
    destruct (@getitem_get plan_data items (JStr "") "items" "reasoning" Hi)
      as [r Hr].
    rewrite Hr. cbn [bind]. rewrite Hn. cbn [bind].
    replace (Nat.leb 2 n && Nat.leb n 4)%bool with true.
    + exists r. reflexivity.
    + symmetry. apply andb_true_iff. split; apply Nat.leb_le; lia.
  - exact fallback_plan_size.
Qed.

End PlanClaims.

Section PlanWitness.

Import Py PyStr Models Json PlanService.
Local Open Scope string_scope.

(** No cache, and a completion that plans a single item for a vintage
    outfit with shoes: the caller gets the three items of the fallback. *)
Lemma plan_outfit_validates_item_count_witness :
  plan_outfit (fun s => s) (fun _ => Ok one_item_plan) (fun _ => "{}")
              (fun _ => Ok "{}") None vintage_prompt
  = ((JArr [JStr "vintage blouse"; JStr "high-waisted skirt";
            JStr "casual shoes"],
      JStr "Vintage style with classic silhouettes", false), None).
Proof.
  refine (proj1 (@plan_outfit_validates_item_count
                   (fun s => s) (fun _ => Ok one_item_plan) (fun _ => "{}")
                   (fun _ => Ok "{}"))
                None vintage_prompt "{}" one_item_plan
                (JArr [JStr "bucket hat"]) 1 _ _ _ _ _ _);
    try reflexivity.
  left. lia.
Defined.

End PlanWitness.

(** ** Outfit scoring *)

Section ScoreClaims.

Import Py PyFloat Json ScoreService.
Local Open Scope string_scope.
Local Open Scope R_scope.

Variable json_loads : string -> result json.
Variable create_completion : string -> result string.
Variable render_prompt : string -> json -> string.
Variable describe_item : OutfitItem -> string.
Variable float_of_string : string -> result pyfloat.

Notation score_outfits :=
  (score_outfits json_loads create_completion render_prompt describe_item
                 float_of_string).
Notation score_body :=
  (score_body json_loads create_completion render_prompt describe_item
              float_of_string).
Notation bound_score := (bound_score float_of_string).

(** The prompt sent for a request. *)
Notation prompt_of request :=
  (render_prompt (aesthetic request)
                 (JArr (outfits_data_from describe_item 0 (outfits request)))).

Lemma bound_score_in_range (s : json) (y : pyfloat) :
  bound_score s = Ok y -> in_range y.
Proof.
  unfold ScoreService.bound_score.
  destruct (py_float float_of_string s) as [x|e]; cbn [bind]; [|discriminate].
  intros H. injection H as <-.
  apply py_clamp_finite. lra.
Qed.

Lemma map_result_ok {A B} (f : A -> result B) (P : B -> Prop) (xs : list A) :
  (forall x y, f x = Ok y -> P y) ->
  forall ys, map_result f xs = Ok ys ->
             length ys = length xs /\ Forall P ys.
Proof.
  intros Hf. induction xs as [|x xs IH]; cbn [map_result]; intros ys H.
  - injection H as <-. split; [reflexivity | constructor].
  - destruct (f x) as [y|e] eqn:Efx; cbn [bind] in H; [|discriminate].
    destruct (map_result f xs) as [ys'|e]; cbn [bind] in H; [|discriminate].
    injection H as <-. destruct (IH ys' eq_refl) as [Hl HP].
    split; [cbn; now rewrite Hl | constructor; eauto].
Qed.

Lemma elements_length (v : json) (n : nat) (es : list json) :
  py_len v = Ok n -> elements v = Ok es -> length es = n.
Proof.
  destruct v; cbn; try discriminate; intros H1 H2;
    injection H1 as <-; injection H2 as <-.
  - induction s as [|c s IH]; cbn; [reflexivity | now rewrite IH].
  - reflexivity.
  - apply length_map.
Qed.

Lemma neutral_in_range (n : nat) :
  length (neutral n) = n /\ Forall in_range (neutral n).
Proof.
  unfold neutral. split; [apply repeat_length|].
  apply Forall_forall. intros s Hs. apply repeat_spec in Hs. subst.
  exists 5. split; [reflexivity | lra].
Qed.

Lemma score_body_ok (request : ScoreOutfitsRequest) (scores : list pyfloat) :
  score_body request = Ok scores ->
  length scores = length (outfits request) /\ Forall in_range scores.
Proof.
  unfold ScoreService.score_body.
  destruct (create_completion _) as [content|e]; cbn [bind]; [|discriminate].
  destruct (json_loads content) as [result|e]; cbn [bind]; [|discriminate].
  destruct (get result "scores" (JArr [])) as [sc|e]; cbn [bind]; [|discriminate].
  destruct (py_len sc) as [n|e] eqn:En; cbn [bind]; [|discriminate].
  destruct (Nat.eqb n (length (outfits request))) eqn:E; cbn [negb].
  - apply Nat.eqb_eq in E.
    destruct (elements sc) as [es|e] eqn:Ee; cbn [bind]; [|discriminate].
    intros H.
    destruct (@map_result_ok _ _ bound_score in_range es
                bound_score_in_range scores H) as [Hl HP].
    split; [|exact HP]. rewrite Hl, <- E. now apply (elements_length sc).
  - intros H. injection H as <-. apply neutral_in_range.
Qed.


End ScoreClaims.

Section ScoreWitness.

Import Py PyFloat Json ScoreService.
Local Open Scope string_scope.


End ScoreWitness.

(* ================================================================== *)
(** * Part II, continued: further properties of the code *)
(* ================================================================== *)

(** ** Retry executor: the shape of every run *)

Section RetryRuns.

Import Py Retry RetryRun.
Local Open Scope R_scope.

Variables St V : Type.
Variable func : St -> result V * St.
Variable random : nat -> R.

Notation world := (world St).
Notation wrapper := (wrapper func random).
Notation run_attempts := (run_attempts func random).
Notation after_failures := (after_failures func random).
Notation stopped_after := (stopped_after func random).
Notation state_at := (state_at func).
Notation outcome_at := (outcome_at func).
Notation fails_at := (fails_at func).
Notation first_success := (first_success func).

Lemma all_fail_or_first_success (s : St) (n : nat) :
  (forall k, (k <= n)%nat -> fails_at k s) \/
  (exists k v, (k <= n)%nat /\ first_success s k v).
Proof.
  induction n as [|n IH].
  - destruct (outcome_at 0 s) as [v|e] eqn:E.
    + right. exists 0%nat, v. split; [lia|]. split; [intros j Hj; lia | exact E].
    + left. intros k Hk. replace k with 0%nat by lia. now exists e.
  - destruct IH as [Hall | [k [v [Hk Hs]]]].
    + destruct (outcome_at (S n) s) as [v|e] eqn:E.
      * right. exists (S n), v. split; [lia|]. split; [|exact E].
        intros j Hj. apply Hall. lia.
      * left. intros k Hk. destruct (Nat.eq_dec k (S n)) as [->|Hne].
        -- now exists e.
        -- apply Hall. lia.
    + right. exists k, v. split; [lia | exact Hs].
Qed.

Lemma wrapper_all_fail (config : RetryConfig) (w : world) :
  (0 <= max_retries config)%Z ->
  (forall k, (Z.of_nat k <= max_retries config)%Z -> fails_at k (fstate w)) ->
  snd (wrapper config w)
  = stopped_after config w (Z.to_nat (max_retries config)).
Proof.
  intros Hpos Hall. set (N := Z.to_nat (max_retries config)).
  destruct (Hall N ltac:(lia)) as [e He].
  unfold Retry.wrapper. rewrite zrange_succ by assumption. fold N.
  destruct (@run_failed_prefix _ _ func random config N 0%nat None w
              [max_retries config]) as [last' [Hrun _]].
  - intros k Hk. apply Hall. lia.
  - cbn [Nat.add]. lia.
  - rewrite Hrun. cbn [Retry.run_attempts]. unfold attempt_body.
    unfold RetryRun.stopped_after.
    unfold Retry.outcome_at in He.
    change (fstate (after_failures config 0 w N)) with (state_at N (fstate w)).
    destruct (func (state_at N (fstate w))) as [r s'] eqn:Ef.
    cbn [fst] in He. subst r.
    rewrite Z.eqb_refl. reflexivity.
Qed.

Lemma wrapper_first_success (config : RetryConfig) (w : world)
      (k : nat) (v : V) :
  (Z.of_nat k <= max_retries config)%Z ->
  first_success (fstate w) k v ->
  wrapper config w = (Ok v, stopped_after config w k).
Proof.
  intros Hk [Hfail Hok]. set (N := Z.to_nat (max_retries config)).
  unfold Retry.wrapper, zrange.
  replace (Z.to_nat (max_retries config + 1)) with (k + (S (N - k)))%nat
    by (unfold N; lia).
  rewrite seq_app, map_app. cbn [Nat.add seq map].
  destruct (@run_failed_prefix _ _ func random config k 0%nat None w
              (Z.of_nat k :: map Z.of_nat (seq (S k) (N - k))))
    as [last' [Hrun _]].
  - exact Hfail.
  - cbn [Nat.add]. lia.
  - rewrite Hrun. cbn [Retry.run_attempts]. unfold attempt_body.
    unfold RetryRun.stopped_after.
    unfold Retry.outcome_at in Hok.
    change (fstate (after_failures config 0 w k)) with (state_at k (fstate w)).
    destruct (func (state_at k (fstate w))) as [r s'] eqn:Ef.
    cbn [fst] in Hok. subst r. reflexivity.
Qed.

(** Every run stops after some invocation numbered [k <= max_retries]. *)
Lemma wrapper_stops (config : RetryConfig) (w : world) :
  (0 <= max_retries config)%Z ->
  exists k, (Z.of_nat k <= max_retries config)%Z /\
            snd (wrapper config w) = stopped_after config w k.
Proof.
  intros Hpos. set (N := Z.to_nat (max_retries config)).
  destruct (all_fail_or_first_success (fstate w) N) as [Hall | [k [v [Hk Hs]]]].
  - exists N. split; [unfold N; lia|].
    apply wrapper_all_fail; [assumption|].
    intros k Hk. apply Hall. unfold N. lia.
  - exists k. split; [unfold N in Hk; lia|].
    rewrite (@wrapper_first_success config w k v); [reflexivity | | exact Hs].
    unfold N in Hk. lia.
Qed.

(** X1. For a non-negative retry count and any operation, the wrapper
    invokes the operation at least once and at most [max_retries + 1]
    times, and it sleeps exactly once between two consecutive invocations:
    the number of sleeps is the number of invocations minus one (no sleep
    follows the last attempt). *)
Theorem wrapper_sleeps_between_calls (config : RetryConfig) (w : world) :
  (0 <= max_retries config)%Z ->
  let w' := snd (wrapper config w) in
  (calls w + 1 <= calls w')%nat /\
  (Z.of_nat (calls w') <= Z.of_nat (calls w) + (max_retries config + 1))%Z /\
  (length (slept w') - length (slept w) + 1 = calls w' - calls w)%nat.
Proof.
  intros Hpos w'. unfold w'.
  destruct (wrapper_stops config w Hpos) as [k [Hk ->]].
  unfold RetryRun.stopped_after, Retry.after_failures.
  cbn [calls slept]. rewrite length_app, length_map, length_seq.
  repeat split; lia.
Qed.

Lemma py_maxR_0_nonneg (x : R) : 0 <= py_maxR 0 x.
Proof. rewrite py_maxR_Rmax. apply Rmax_l. Qed.

Lemma backoff_delay_le_max (config : RetryConfig) (a : Z) :
  backoff_delay config a <= max_delay config.
Proof. unfold backoff_delay. rewrite py_minR_Rmin. apply Rmin_r. Qed.

Lemma backoff_delay_nonneg (config : RetryConfig) (a : Z) :
  0 <= initial_delay config -> 0 <= backoff_multiplier config ->
  0 <= max_delay config ->
  0 <= backoff_delay config a.
Proof.
  intros Hi Hm Hd. unfold backoff_delay. rewrite py_minR_Rmin.
  apply Rmin_glb; [|assumption].
  apply Rmult_le_pos; [assumption | now apply pow_le].
Qed.

Lemma add_jitter_bounds (d u : R) :
  0 <= d -> 0 <= u < 1 ->
  75/100 * d <= add_jitter d u <= 125/100 * d.
Proof.
  intros Hd Hu. unfold add_jitter, uniform. rewrite py_maxR_Rmax.
  assert (E : d + (- (d * (25/100)) + (d * (25/100) - - (d * (25/100))) * u)
              = d * (75/100 + 50/100 * u)) by lra.
  rewrite E. unfold Rmax.
  destruct (Rle_dec 0 (d * (75/100 + 50/100 * u))); nra.
Qed.

Lemma final_delay_bounds (config : RetryConfig) (a d : nat) :
  0 <= initial_delay config -> 0 <= backoff_multiplier config ->
  0 <= max_delay config -> (forall k, 0 <= random k < 1) ->
  0 <= final_delay random config a d <= 125/100 * max_delay config.
Proof.
  intros Hi Hm Hd Hr. unfold final_delay.
  pose proof (backoff_delay_nonneg config (Z.of_nat a) Hi Hm Hd) as H0.
  pose proof (backoff_delay_le_max config (Z.of_nat a)) as H1.
  destruct (jitter_enabled config).
  - pose proof (@add_jitter_bounds (backoff_delay config (Z.of_nat a))
                                   (random d) H0 (Hr d)). lra.
  - lra.
Qed.

Lemma total_bound (ds : list R) (b : R) :
  Forall (fun d => 0 <= d <= b) ds ->
  0 <= total ds <= INR (length ds) * b.
Proof.
  unfold total. induction 1 as [|d ds Hd Hds IH].
  - cbn. lra.
  - cbn [fold_right length]. rewrite S_INR. lra.
Qed.

(** X2. With non-negative delays in the policy and random numbers in
    [0,1), whatever the operation does: each delay the wrapper sleeps lies
    between 0 and 1.25 * max_delay, there are at most [max_retries] of
    them, and the time slept in one run is at most
    max_retries * 1.25 * max_delay. *)
Theorem wrapper_total_sleep_bounded (config : RetryConfig) (w : world) :
  (0 <= max_retries config)%Z ->
  0 <= initial_delay config -> 0 <= backoff_multiplier config ->
  0 <= max_delay config -> (forall k, 0 <= random k < 1) ->
  exists delays,
    slept (snd (wrapper config w)) = slept w ++ delays /\
    (Z.of_nat (length delays) <= max_retries config)%Z /\
    Forall (fun d => 0 <= d <= 125/100 * max_delay config) delays /\
    0 <= total delays
      <= IZR (max_retries config) * (125/100 * max_delay config).
Proof.
  intros Hpos Hi Hm Hd Hr.
  destruct (wrapper_stops config w Hpos) as [k [Hk ->]].
  unfold RetryRun.stopped_after, Retry.after_failures. cbn [slept].
  eexists. split; [reflexivity|].
  assert (HF : Forall (fun d => 0 <= d <= 125/100 * max_delay config)
                 (map (fun j => final_delay random config (0 + j) (draws w + j))
                      (seq 0 k))).
  { apply Forall_forall. intros d Hin. apply in_map_iff in Hin as [j [<- _]].
    now apply final_delay_bounds. }
  rewrite length_map, length_seq.
  split; [exact Hk|]. split; [exact HF|].
  pose proof (total_bound HF) as [T0 T1].
  rewrite length_map, length_seq in T1.
  split; [exact T0|].
  eapply Rle_trans; [exact T1|].
  apply Rmult_le_compat_r; [lra|].
  rewrite INR_IZR_INZ. now apply IZR_le.
Qed.

(** X3. With a non-negative initial delay and a multiplier of at least 1
    the backoff never shrinks from one attempt to the next, and it never
    exceeds [max_delay]. *)
Theorem backoff_delay_monotone (config : RetryConfig) (n : nat) :
  0 <= initial_delay config -> 1 <= backoff_multiplier config ->
  backoff_delay config (Z.of_nat n) <= backoff_delay config (Z.of_nat (S n))
  /\ backoff_delay config (Z.of_nat (S n)) <= max_delay config.
Proof.
  intros Hi Hm. split; [|apply backoff_delay_le_max].
  unfold backoff_delay. rewrite !py_minR_Rmin, !Nat2Z.id.
  apply Rle_min_compat_r. cbn [pow].
  assert (H : 0 <= backoff_multiplier config ^ n) by (apply pow_le; lra).
  apply Rmult_le_compat_l; [assumption|]. nra.
Qed.

End RetryRuns.

Section RetryRunWitnesses.

Import Py Retry RetryRun.
Local Open Scope R_scope.

(** The completion-API policy around an operation that answers on its
    fourth call. *)
Lemma wrapper_sleeps_between_calls_witness :
  let w' := snd (wrapper flaky (fun _ => 1/2) LLM_API fresh_world) in
  (calls fresh_world + 1 <= calls w')%nat /\
  (Z.of_nat (calls w')
   <= Z.of_nat (calls fresh_world) + (max_retries LLM_API + 1))%Z /\
  (length (slept w') - length (slept fresh_world) + 1
   = calls w' - calls fresh_world)%nat.
Proof.
  apply (@wrapper_sleeps_between_calls nat nat flaky (fun _ => 1/2)
           LLM_API fresh_world).
  cbn. lia.
Defined.

(** The datastore policy around an operation that never answers: at most
    5 sleeps of at most 37.5 seconds each. *)
Lemma wrapper_total_sleep_bounded_witness :
  exists delays,
    slept (snd (wrapper always_failing (fun _ => 1/2) DATABASE fresh_world))
    = slept fresh_world ++ delays /\
    (Z.of_nat (length delays) <= max_retries DATABASE)%Z /\
    Forall (fun d => 0 <= d <= 125/100 * max_delay DATABASE) delays /\
    0 <= total delays
      <= IZR (max_retries DATABASE) * (125/100 * max_delay DATABASE).
Proof.
  apply (@wrapper_total_sleep_bounded nat nat always_failing (fun _ => 1/2)
           DATABASE fresh_world); cbn; try lra; try lia.
  intros _. lra.
Defined.

(** The datastore policy: the delay after the fourth failure is at most
    the delay after the fifth. *)
Lemma backoff_delay_monotone_witness :
  backoff_delay DATABASE (Z.of_nat 3) <= backoff_delay DATABASE (Z.of_nat 4)
  /\ backoff_delay DATABASE (Z.of_nat 4) <= max_delay DATABASE.
Proof.
  apply (backoff_delay_monotone DATABASE 3); cbn; lra.
Defined.

End RetryRunWitnesses.

(** ** Coherence: symmetries and edge cases *)

Section CoherenceSymmetries.

Import Py PyFloat Similarity Vectors.
Local Open Scope R_scope.

Lemma dotR_comm (a b : list R) : dotR a b = dotR b a.
Proof.
  unfold dotR. revert b; induction a as [|x a IH]; intros [|y b]; simpl;
    try reflexivity.
  rewrite IH. lra.
Qed.

Lemma sumR_app (l1 l2 : list R) : sumR (l1 ++ l2) = sumR l1 + sumR l2.
Proof.
  unfold sumR. induction l1 as [|x l1 IH]; simpl; [lra | rewrite IH; lra].
Qed.

Lemma sumR_map_perm {A} (f : A -> R) (l l' : list A) :
  Permutation l l' -> sumR (map f l) = sumR (map f l').
Proof.
  unfold sumR. induction 1; simpl; lra.
Qed.

Lemma pair_sum_cons (x : list R) (l : list (list R)) :
  pair_sum (x :: l) = sumR (map (dotR x) l) + pair_sum l.
Proof.
  unfold pair_sum. cbn [all_pairs]. rewrite map_app, sumR_app, map_map.
  reflexivity.
Qed.

Lemma pair_sum_perm (l l' : list (list R)) :
  Permutation l l' -> pair_sum l = pair_sum l'.
Proof.
  induction 1 as [|x l l' Hp IH|x y l|l l' l'' H1 IH1 H2 IH2].
  - reflexivity.
  - rewrite !pair_sum_cons, IH, (sumR_map_perm (dotR x) Hp). reflexivity.
  - rewrite !pair_sum_cons. cbn [map]. unfold sumR at 1 3. cbn [fold_right].
    fold (sumR (map (dotR y) l)). fold (sumR (map (dotR x) l)).
    rewrite (dotR_comm y x). lra.
  - congruence.
Qed.

Lemma mean_pairwise_perm (l l' : list (list R)) :
  Permutation l l' -> mean_pairwise l = mean_pairwise l'.
Proof.
  intros H. unfold mean_pairwise. fold (pair_sum l). fold (pair_sum l').
  now rewrite (pair_sum_perm H), (Permutation_length H).
Qed.

Lemma coherence_ref_perm (embs embs' : list (list R)) :
  Permutation embs embs' -> coherence_ref embs = coherence_ref embs'.
Proof.
  intros H. unfold coherence_ref. rewrite (Permutation_length H).
  destruct (Nat.ltb (length embs') 2); [reflexivity|].
  now rewrite (mean_pairwise_perm (Permutation_map normalizeR H)).
Qed.

Lemma well_formed_perm (embs embs' : list (list R)) :
  Permutation embs embs' -> well_formed embs -> well_formed embs'.
Proof.
  intros H [[d Hd] Hnz]. split.
  - exists d. eapply Permutation_Forall; eassumption.
  - eapply Permutation_Forall; eassumption.
Qed.


Lemma dotR_scale_l (c : R) (a b : list R) :
  dotR (scale c a) b = c * dotR a b.
Proof.
  unfold dotR, scale. revert b; induction a as [|x a IH]; intros [|y b];
    simpl; try lra.
  rewrite IH. lra.
Qed.

Lemma dotR_scale_both (c : R) (e : list R) :
  dotR (scale c e) (scale c e) = (c * c) * dotR e e.
Proof.
  rewrite dotR_scale_l, dotR_comm, dotR_scale_l. lra.
Qed.

Lemma normR_scale (c : R) (e : list R) :
  0 < c -> normR (scale c e) = c * normR e.
Proof.
  intros Hc. unfold normR. rewrite dotR_scale_both.
  rewrite sqrt_mult by (try apply dotR_self_nonneg; nra).
  now rewrite sqrt_square by lra.
Qed.

Lemma normalizeR_scale (c : R) (e : list R) :
  0 < c -> dotR e e <> 0 -> normalizeR (scale c e) = normalizeR e.
Proof.
  intros Hc He. unfold normalizeR. rewrite normR_scale by assumption.
  unfold scale. rewrite map_map. apply map_ext. intros x.
  field. split; [now apply normR_nonzero | lra].
Qed.

Lemma rescaled_facts (factors : list R) (embs : list (list R)) (d : nat) :
  length factors = length embs ->
  Forall (fun c => 0 < c) factors ->
  Forall (fun e => length e = d) embs ->
  Forall (fun e => dotR e e <> 0) embs ->
  Forall (fun e => length e = d) (rescaled factors embs) /\
  Forall (fun e => dotR e e <> 0) (rescaled factors embs) /\
  length (rescaled factors embs) = length embs /\
  map normalizeR (rescaled factors embs) = map normalizeR embs.
Proof.
  intros Hl Hc. unfold rescaled. revert embs Hl.
  induction Hc as [|c cs Hc0 Hcs IH]; intros [|e embs] Hl Hd Hnz;
    try discriminate.
  - repeat split; constructor.
  - cbn [combine map fst snd length].
    inversion Hd as [|? ? Hde Hd']; subst.
    inversion Hnz as [|? ? Hne Hnz']; subst.
    injection Hl as Hl.
    destruct (IH embs Hl Hd' Hnz') as [Hd'' [Hnz'' [Hlen Hmap]]].
    split; [|split; [|split]].
    + constructor; [unfold scale; apply length_map | exact Hd''].
    + constructor; [|exact Hnz'']. rewrite dotR_scale_both.
      apply Rmult_integral_contrapositive_currified; [nra | assumption].
    + now rewrite Hlen.
    + now rewrite normalizeR_scale, Hmap.
Qed.


Lemma dotR_negate_r (a b : list R) : dotR a (negate b) = - dotR a b.
Proof.
  unfold dotR, negate. revert b; induction a as [|x a IH]; intros [|y b];
    simpl; try lra.
  rewrite IH. lra.
Qed.

Lemma dotR_negate_both (e : list R) : dotR (negate e) (negate e) = dotR e e.
Proof. rewrite dotR_negate_r, dotR_comm, dotR_negate_r. lra. Qed.


Lemma penalize_clamp_monotone (m1 m2 : R) :
  0 <= m1 <= m2 -> clamp01 (penalize m1) <= clamp01 (penalize m2).
Proof.
  intros H. unfold clamp01, penalize.
  assert (P : (if Rlt_dec m1 (6/10) then m1 * (m1 / (6/10)) else m1)
              <= (if Rlt_dec m2 (6/10) then m2 * (m2 / (6/10)) else m2)).
  { destruct (Rlt_dec m1 (6/10)), (Rlt_dec m2 (6/10)); try lra; nra. }
  apply Rle_max_compat_l. now apply Rle_min_compat_l.
Qed.


End CoherenceSymmetries.

Section CoherenceSymmetryWitnesses.

Import Py PyFloat Similarity Vectors.
Local Open Scope R_scope.

Lemma well_formed_axes : well_formed [[1; 0; 0]; [0; 1; 0]].
Proof. apply well_formed_two; [reflexivity | |]; unfold dotR; simpl; lra. Qed.

Lemma mean_pairwise_two (a b : list R) : mean_pairwise [a; b] = dotR a b.
Proof.
  unfold mean_pairwise.
  cbn [length map all_pairs app fst snd sumR fold_right].
  change (2 * (2 - 1) / 2)%nat with 1%nat. cbn [INR]. field.
Qed.





End CoherenceSymmetryWitnesses.

(** ** Similarity search: criteria, query and rows *)

Section SearchExtras.

Import Py PyFloat PyStr SimilaritySearch SearchQuery.
Local Open Scope string_scope.

Variable encode_image : string -> result (list pyfloat).
Variable encode_text : string -> result (list pyfloat).
Variable connect : result unit.
Variable execute_fetchall : string -> list param -> result (list row).
Variable str_of_floats : list pyfloat -> string.
Variable str_of_dbval : dbval -> string.

Notation search_similar :=
  (search_similar encode_image encode_text connect execute_fetchall
                  str_of_floats str_of_dbval).
Notation resolve_embedding := (resolve_embedding encode_image encode_text).
Notation run_query := (run_query execute_fetchall str_of_dbval).
Notation to_product := (to_product str_of_dbval).

(** Without a usable criterion (no embedding or an empty one, no
    image URL or an empty one, no text or an empty one) [search_similar]
    raises [ValueError] before it touches the store, whatever the state of
    the connection. *)
Theorem search_similar_requires_criterion (request : SimilaritySearchRequest) :
  truthy_list (embedding request) = false ->
  truthy_str (image_url request) = false ->
  truthy_str (text request) = false ->
  search_similar request
  = Raise (ValueError "Must provide either text, image_url, or embedding").
Proof.
  intros He Hi Ht. unfold SimilaritySearch.search_similar,
    SimilaritySearch.resolve_embedding.
  now rewrite He, Hi, Ht.
Qed.

Lemma run_query_shape (request : SimilaritySearchRequest) (emb_str : string) :
  run_query request emb_str
  = bind (execute_fetchall
            (query_text (where_for (truthy_str (category request))
                                   (is_some (min_price request))
                                   (is_some (max_price request))))
            ([PStr emb_str] ++ filter_params request
             ++ [PStr emb_str; PInt (limit request)]))
         (map_result to_product).
Proof.
  unfold SimilaritySearch.run_query, filter_params, where_for.
  destruct (truthy_str (category request)), (min_price request),
    (max_price request); reflexivity.
Qed.

Lemma placeholders_where (c mn mx : bool) :
  placeholders (query_text (where_for c mn mx))
  = (3 + (if c then 1 else 0) + (if mn then 1 else 0)
       + (if mx then 1 else 0))%nat.
Proof. destruct c, mn, mx; reflexivity. Qed.

Lemma filter_params_length (request : SimilaritySearchRequest) :
  length (filter_params request)
  = ((if truthy_str (category request) then 1 else 0)
     + (if is_some (min_price request) then 1 else 0)
     + (if is_some (max_price request) then 1 else 0))%nat.
Proof.
  unfold filter_params.
  destruct (truthy_str (category request)), (min_price request),
    (max_price request); reflexivity.
Qed.

(** X8. The query sent to the store is one of eight fixed texts, chosen
    by which filters are present and never by their values (the category
    and the prices are bound as parameters); and it has exactly as many
    [%s] placeholders as parameters are bound. *)
Theorem run_query_binds_every_placeholder
        (request : SimilaritySearchRequest) (emb_str : string) :
  exists query params,
    run_query request emb_str
    = bind (execute_fetchall query params) (map_result to_product) /\
    query = query_text (where_for (truthy_str (category request))
                                  (is_some (min_price request))
                                  (is_some (max_price request))) /\
    params = ([PStr emb_str] ++ filter_params request
              ++ [PStr emb_str; PInt (limit request)])%list /\
    placeholders query = length params.
Proof.
  eexists _, _. split; [apply run_query_shape|].
  split; [reflexivity|]. split; [reflexivity|].
  rewrite placeholders_where.
  rewrite !length_app, filter_params_length. cbn [length]. lia.
Qed.

Lemma to_product_numeric (r : row) :
  numeric_row r -> to_product r = Ok (product_of str_of_dbval r).
Proof.
  destruct r as [[[[r0 r1] r2] r3] r4]. intros [[x ->] [y ->]]. reflexivity.
Qed.

Lemma to_product_null (r : row) :
  null_row r -> exists e, to_product r = Raise e.
Proof.
  destruct r as [[[[r0 r1] r2] r3] r4]. intros [-> | ->]; cbn.
  - eauto.
  - destruct (py_float r2); cbn; eauto.
Qed.

Lemma map_result_numeric (rows : list row) :
  Forall numeric_row rows ->
  map_result to_product rows = Ok (map (product_of str_of_dbval) rows).
Proof.
  induction 1 as [|r rows Hr Hrows IH]; [reflexivity|].
  cbn [map_result map]. rewrite (to_product_numeric r Hr). cbn [bind].
  now rewrite IH.
Qed.

Lemma map_result_null (rows : list row) :
  Exists null_row rows -> exists e, map_result to_product rows = Raise e.
Proof.
  induction 1 as [r rows Hr | r rows Hex [e IH]]; cbn [map_result].
  - destruct (to_product_null r Hr) as [e ->]. cbn. eauto.
  - destruct (to_product r); cbn [bind]; [rewrite IH|]; cbn; eauto.
Qed.

(** X9. The rows fetched are converted all or none: when every row has a
    numeric price and similarity the result has one product per row, in
    the order of the rows; when a single row has a NULL price or
    similarity the whole result is the empty list. *)
Theorem search_similar_rows_all_or_none
        (request : SimilaritySearchRequest) (emb : list pyfloat)
        (rows : list row) :
  resolve_embedding request = Ok emb ->
  connect = Ok tt ->
  (forall q ps, execute_fetchall q ps = Ok rows) ->
  (Forall numeric_row rows ->
   search_similar request = Ok (map (product_of str_of_dbval) rows)) /\
  (Exists null_row rows -> search_similar request = Ok []).
Proof.
  intros Hr Hc Hx. unfold SimilaritySearch.search_similar.
  rewrite Hr, Hc. cbn [bind]. rewrite run_query_shape, Hx. cbn [bind].
  split; intros H.
  - now rewrite map_result_numeric.
  - destruct (map_result_null H) as [e ->]. reflexivity.
Qed.

End SearchExtras.

Section SearchPrecedence.

Import Py PyFloat PyStr SimilaritySearch SearchQuery.
Local Open Scope string_scope.

Variable connect : result unit.
Variable execute_fetchall : string -> list param -> result (list row).
Variable str_of_floats : list pyfloat -> string.
Variable str_of_dbval : dbval -> string.

(** X10. The criteria are used in a fixed order of precedence.  A
    non-empty embedding in the request is used as it is and no encoder is
    called; failing that, a non-empty image URL is encoded and the text
    encoder is not called, even when a text is given too. *)
Theorem search_similar_criteria_precedence
        (request : SimilaritySearchRequest)
        (encode_image encode_image' encode_text encode_text'
           : string -> result (list pyfloat)) :
  (truthy_list (embedding request) = true ->
   search_similar encode_image encode_text connect execute_fetchall
                  str_of_floats str_of_dbval request
   = search_similar encode_image' encode_text' connect execute_fetchall
                    str_of_floats str_of_dbval request) /\
  (truthy_list (embedding request) = false ->
   truthy_str (image_url request) = true ->
   search_similar encode_image encode_text connect execute_fetchall
                  str_of_floats str_of_dbval request
   = search_similar encode_image encode_text' connect execute_fetchall
                    str_of_floats str_of_dbval request).
Proof.
  split.
  - intros He. unfold search_similar, resolve_embedding. now rewrite He.
  - intros He Hi. unfold search_similar, resolve_embedding.
    now rewrite He, Hi.
Qed.

End SearchPrecedence.

Section SearchExtraWitnesses.

Import Py PyFloat PyStr SimilaritySearch SearchQuery.
Local Open Scope string_scope.

Lemma search_similar_requires_criterion_witness :
  search_similar failing_encoder failing_encoder
                 (Raise (UpstreamError "connection refused")) failing_query
                 (fun _ => "[]") (fun _ => "") empty_request
  = Raise (ValueError "Must provide either text, image_url, or embedding").
Proof.
  apply search_similar_requires_criterion; reflexivity.
Defined.

(** Two rows, the second with a NULL price: nothing is returned. *)
Lemma search_similar_rows_all_or_none_witness :
  search_similar working_encoder working_encoder (Ok tt)
                 (fun _ _ => Ok [good_row; null_price_row])
                 (fun _ => "[1.0, 0.0]") (fun _ => "id")
                 request_with_embedding
  = Ok [].
Proof.
  refine (proj2 (@search_similar_rows_all_or_none
                   working_encoder working_encoder (Ok tt)
                   (fun _ _ => Ok [good_row; null_price_row])
                   (fun _ => "[1.0, 0.0]") (fun _ => "id")
                   request_with_embedding [Fin 1; Fin 0]
                   [good_row; null_price_row] _ _ _) _);
    try reflexivity.
  apply Exists_cons_tl, Exists_cons_hd. left. reflexivity.
Defined.

(** A request with an embedding, an image URL and a text: the encoders do
    not matter. *)
Lemma search_similar_criteria_precedence_witness :
  search_similar working_encoder working_encoder (Ok tt) no_rows
                 (fun _ => "[1.0, 0.0]") (fun _ => "id") filtered_request
  = search_similar failing_encoder failing_encoder (Ok tt) no_rows
                   (fun _ => "[1.0, 0.0]") (fun _ => "id") filtered_request.
Proof.
  apply (proj1 (search_similar_criteria_precedence (Ok tt) no_rows
                  (fun _ => "[1.0, 0.0]") (fun _ => "id") filtered_request
                  working_encoder failing_encoder
                  working_encoder failing_encoder)).
  reflexivity.
Defined.

End SearchExtraWitnesses.

(** ** Outfit scoring: the answer of the API *)

Section ScoreExtras.

Import Py PyFloat Json ScoreService ScoreSamples.
Local Open Scope string_scope.
Local Open Scope R_scope.

Variable json_loads : string -> result json.
Variable create_completion : string -> result string.
Variable render_prompt : string -> json -> string.
Variable describe_item : OutfitItem -> string.
Variable float_of_string : string -> result pyfloat.

Notation score_outfits :=
  (score_outfits json_loads create_completion render_prompt describe_item
                 float_of_string).
Notation bound_score := (bound_score float_of_string).
Notation prompt_of request :=
  (render_prompt (aesthetic request)
                 (JArr (outfits_data_from describe_item 0 (outfits request)))).

Lemma bound_in_range (x : pyfloat) : in_range x -> bound x = x.
Proof.
  intros [r [-> [H1 H10]]]. unfold bound, py_min, py_max. cbn [flt].
  unfold Rltb. destruct (Rlt_dec r 10); cbn [flt]; unfold Rltb.
  - destruct (Rlt_dec 1 r); [reflexivity | f_equal; lra].
  - destruct (Rlt_dec 1 10); [f_equal; lra | lra].
Qed.

Lemma map_bound_in_range (xs : list pyfloat) :
  Forall in_range xs -> map bound xs = xs.
Proof.
  induction 1 as [|x xs Hx Hxs IH]; [reflexivity|].
  cbn [map]. now rewrite (bound_in_range Hx), IH.
Qed.

Lemma map_result_numbers (xs : list pyfloat) :
  map_result bound_score (map JNum xs) = Ok (map bound xs).
Proof.
  induction xs as [|x xs IH]; [reflexivity|].
  cbn [map map_result]. unfold ScoreService.bound_score at 1.
  cbn [py_float bind]. now rewrite IH.
Qed.

Lemma map_result_with_null (elems : list json) :
  In JNull elems -> exists e, map_result bound_score elems = Raise e.
Proof.
  induction elems as [|s elems IH]; [contradiction|].
  intros [-> | Hin]; cbn [map_result].
  - cbn. eauto.
  - destruct (bound_score s); cbn [bind]; [|eauto].
    destruct (IH Hin) as [e ->]. cbn. eauto.
Qed.


(** X12. One score that cannot be converted spoils the batch: when the
    API answers with one element per outfit and one of them is [null],
    every outfit gets the neutral 5.0, the valid scores included. *)
Theorem score_outfits_null_score_neutralizes
        (request : ScoreOutfitsRequest) (content : string) (result : json)
        (elems : list json) :
  create_completion (prompt_of request) = Ok content ->
  json_loads content = Ok result ->
  get result "scores" (JArr []) = Ok (JArr elems) ->
  length elems = length (outfits request) ->
  In JNull elems ->
  score_outfits request = Ok (neutral (length (outfits request))).
Proof.
  intros Hc Hj Hg Hl Hin.
  unfold ScoreService.score_outfits, ScoreService.score_body.
  rewrite Hc. cbn [bind]. rewrite Hj. cbn [bind]. rewrite Hg.
  cbn [bind py_len]. rewrite Hl, Nat.eqb_refl. cbn [negb elements bind].
  destruct (map_result_with_null elems Hin) as [e ->]. reflexivity.
Qed.

End ScoreExtras.

Section ScoreExtraWitnesses.

Import Py PyFloat Json ScoreService ScoreSamples.
Local Open Scope string_scope.
Local Open Scope R_scope.


Lemma score_outfits_null_score_neutralizes_witness :
  score_outfits (fun _ => Ok null_score) (fun _ => Ok "{}")
                (fun _ _ => "prompt") (fun item => title item)
                (fun _ => Raise (ValueError "could not convert string to float"))
                two_outfits
  = Ok [Fin 5; Fin 5].
Proof.
  refine (@score_outfits_null_score_neutralizes
            (fun _ => Ok null_score) (fun _ => Ok "{}")
            (fun _ _ => "prompt") (fun item => title item)
            (fun _ => Raise (ValueError "could not convert string to float"))
            two_outfits "{}" null_score [JNum (Fin 8); JNull] _ _ _ _ _);
    try reflexivity.
  right. left. reflexivity.
Defined.

End ScoreExtraWitnesses.

(** ** Outfit planning: cache and fallback *)

Section PlanExtras.

Import Py PyStr Models Json PlanService PlanSamples.
Local Open Scope string_scope.

Variable md5_hexdigest : string -> string.
Variable json_loads : string -> result json.
Variable json_dumps : json -> string.

Notation cache_key := (_generate_cache_key md5_hexdigest).
Notation plan_outfit_via completion :=
  (plan_outfit md5_hexdigest json_loads json_dumps completion).
Notation plan_from_api_via completion :=
  (plan_from_api json_loads json_dumps completion).

Lemma redis_get_head (k v : string) (r : redis) :
  redis_get k ((k, v) :: r) = Some v.
Proof. cbn. now rewrite String.eqb_refl. Qed.

Lemma get_cached_after_set (r : redis) (key : string) (items reasoning : json) :
  let data := JObj [("items", items); ("reasoning", reasoning)] in
  json_loads (json_dumps data) = Ok data ->
  json_dumps data <> "" ->
  _get_cached json_loads (_set_cache json_dumps (Some r) key items reasoning) key
  = Some (items, reasoning).
Proof.
  intros data Hrt Hne. unfold _get_cached, _set_cache. fold data.
  rewrite redis_get_head.
  apply String.eqb_neq in Hne. rewrite Hne, Hrt. reflexivity.
Qed.


Lemma fallback_plan_count (parsed_prompt : ParsedPrompt) :
  exists n, item_count (fallback_plan parsed_prompt) = Ok n /\ 2 <= n <= 4.
Proof.
  unfold item_count, fallback_plan.
  pose proof (fallback_plan_size parsed_prompt) as H.
  destruct (_create_fallback_plan parsed_prompt) as [[items reasoning] c].
  cbn [fst py_len] in *. exists (length items).
  now rewrite length_map.
Qed.


End PlanExtras.

Section FallbackPlanExtras.

Import Py PyStr Models Json PlanService PlanSamples.
Local Open Scope string_scope.

(** X15. When shoes are among the requested categories the fallback plan
    contains footwear, for every aesthetic. *)
Theorem fallback_plan_has_footwear (parsed_prompt : ParsedPrompt) :
  mem "shoes" (categories parsed_prompt) = true ->
  existsb is_footwear (fst (fst (_create_fallback_plan parsed_prompt))) = true.
Proof.
  intros H. unfold _create_fallback_plan. rewrite H.
  repeat match goal with
         | |- context [contains ?a ?b] => destruct (contains a b)
         end; reflexivity.
Qed.

(** X16. The items of the fallback plan depend on the aesthetic only up
    to the case of its letters. *)
Theorem fallback_plan_case_insensitive (p q : ParsedPrompt) :
  case_variant (aesthetic p) (aesthetic q) ->
  categories p = categories q ->
  fst (fst (_create_fallback_plan p)) = fst (fst (_create_fallback_plan q)).
Proof.
  intros Hcv Hc. unfold _create_fallback_plan.
  rewrite (case_variant_lower Hcv), Hc.
  repeat match goal with
         | |- context [if ?b then _ else _] => destruct b
         end; reflexivity.
Qed.

End FallbackPlanExtras.

Section PlanExtraWitnesses.

Import Py PyStr Models Json PlanService PlanSamples.
Local Open Scope string_scope.



Lemma fallback_plan_has_footwear_witness :
  existsb is_footwear (fst (fst (_create_fallback_plan vintage_prompt))) = true.
Proof. apply fallback_plan_has_footwear. reflexivity. Defined.

Lemma fallback_plan_case_insensitive_witness :
  fst (fst (_create_fallback_plan
              {| aesthetic := "Y2K"; budget := None; size := None;
                 gender := None; occasion := None;
                 categories := ["top"] |}))
  = fst (fst (_create_fallback_plan
                {| aesthetic := "y2k"; budget := Some 900%Z; size := None;
                   gender := Some "female"; occasion := None;
                   categories := ["top"] |})).
Proof.
  apply fallback_plan_case_insensitive; [|reflexivity].
  cbn [aesthetic].
  repeat (constructor;
          [ first [ left; reflexivity | right; right; reflexivity ] | ]).
  constructor.
Defined.

End PlanExtraWitnesses.

(** ** Prompt parsing: cache and fallback *)

Section ParsePromptExtras.

Import Py PyStr Models ParseService ParsePrompt.
Local Open Scope string_scope.

Variable md5_hexdigest : string -> string.
Variable parsed_of_json : string -> result ParsedPrompt.
Variable model_dump_json : ParsedPrompt -> string.
Variable redis_ttl : Z.

Notation cache_key := (_generate_cache_key md5_hexdigest).
Notation parse_prompt_via completion :=
  (parse_prompt md5_hexdigest parsed_of_json model_dump_json completion
                redis_ttl).
Notation get_cached := (_get_cached parsed_of_json).
Notation set_cache := (_set_cache model_dump_json redis_ttl).


Lemma parse_redis_get_head (k : string) (t : Z) (v : string) (r : redis) :
  redis_get k ((k, (t, v)) :: r) = Some v.
Proof. cbn. now rewrite String.eqb_refl. Qed.


End ParsePromptExtras.

Section ParsePromptWitnesses.

Import Py PyStr Models ParseService ParsePrompt.
Local Open Scope string_scope.


End ParsePromptWitnesses.

(** ** Aesthetic reference vectors: precomputation and listing *)

Section AestheticStoreFacts.

Import Py PyFloat PyStr AestheticStore.
Local Open Scope string_scope.

Variable encode_text : string -> result (list pyfloat).
Variable json_dumps : list pyfloat -> string.
Variable json_loads : string -> result (list pyfloat).
Variable initialize : option redis.

Notation precompute_loop := (precompute_loop encode_text json_dumps).
Notation precompute_aesthetics :=
  (precompute_aesthetics encode_text json_dumps initialize).
Notation get_all_aesthetics := (get_all_aesthetics json_loads initialize).
Notation collect := (collect json_loads).

Lemma precompute_loop_count (aesthetics : list string) :
  forall (count : nat) (r : redis),
    fst (precompute_loop aesthetics count r)
    = count + length (filter (encodable encode_text) aesthetics).
Proof.
  induction aesthetics as [|a rest IH]; intros count r; cbn [precompute_loop filter].
  - cbn. lia.
  - unfold encodable at 1. destruct (encode_text a); rewrite IH; cbn [length]; lia.
Qed.


Lemma redis_set_fresh (k v : string) (r : redis) :
  ~ In k (map fst r) -> redis_set k v r = (r ++ [(k, v)])%list.
Proof.
  induction r as [|[k' v'] r IH]; cbn; [reflexivity|].
  intros H. destruct (String.eqb_spec k k') as [->|Hne]; [tauto|].
  rewrite IH by tauto. reflexivity.
Qed.

Lemma dict_set_fresh (k : string) (v : list pyfloat) (d : dict) :
  ~ In k (map fst d) -> dict_set k v d = (d ++ [(k, v)])%list.
Proof.
  induction d as [|[k' v'] d IH]; cbn; [reflexivity|].
  intros H. destruct (String.eqb_spec k k') as [->|Hne]; [tauto|].
  rewrite IH by tauto. reflexivity.
Qed.

Lemma distinct_NoDup (l : list string) : distinct l = true -> NoDup l.
Proof.
  induction l as [|x l IH]; cbn [distinct]; intros H; constructor.
  - apply andb_true_iff in H as [H _]. apply negb_true_iff in H.
    intros Hin. assert (existsb (String.eqb x) l = true); [|congruence].
    apply existsb_exists. exists x. split; [exact Hin | apply String.eqb_refl].
  - apply andb_true_iff in H as [_ H]. now apply IH.
Qed.

Section RoundTrip.

(** The vector of each aesthetic, the names precomputed, and what is
    assumed of them. *)
Variable vector : string -> list pyfloat.
Variable names : list string.

Hypothesis encode_ok : forall a, In a names -> encode_text a = Ok (vector a).
Hypothesis keys_distinct : NoDup (map key_of names).
Hypothesis names_back : forall a, In a names -> name_of (key_of a) = a.
Hypothesis loads_dumps :
  forall a, In a names -> json_loads (json_dumps (vector a)) = Ok (vector a).
Hypothesis dumps_not_empty :
  forall a, In a names -> json_dumps (vector a) <> "".

Notation stored := (stored json_dumps vector).
Notation listed := (listed vector).

Lemma key_of_injective (a b : string) :
  In a names -> In b names -> key_of a = key_of b -> a = b.
Proof.
  intros Ha Hb H. rewrite <- (names_back a Ha), <- (names_back b Hb).
  now rewrite H.
Qed.

Lemma precompute_loop_fresh (todo : list string) :
  forall (done : list string) (count : nat),
    names = (done ++ todo)%list ->
    precompute_loop todo count (map stored done)
    = (count + length todo, map stored names).
Proof.
  induction todo as [|a todo IH]; intros done count E; cbn [precompute_loop].
  - rewrite E, app_nil_r. cbn. f_equal. lia.
  - rewrite encode_ok by (rewrite E; apply in_elt).
    rewrite redis_set_fresh.
    + change (map stored done ++ [(key_of a, json_dumps (vector a))])%list
        with (map stored done ++ map stored [a])%list.
      rewrite <- map_app.
      rewrite (IH (done ++ [a])%list (S count))
        by (rewrite <- app_assoc; exact E).
      f_equal. cbn [length]. lia.
    + rewrite map_map. cbn [fst AestheticStore.stored].
      pose proof keys_distinct as Hk. rewrite E, map_app in Hk. cbn [map] in Hk.
      apply NoDup_remove_2 in Hk. intros Hin. apply Hk.
      apply in_or_app. now left.
Qed.

Lemma redis_keys_stored (l : list string) :
  redis_keys (map stored l) = map key_of l.
Proof.
  unfold redis_keys. rewrite map_map. cbn [fst AestheticStore.stored].
  induction l as [|a l IH]; [reflexivity|].
  cbn [map filter]. unfold key_of at 1. rewrite prefix_app. now rewrite IH.
Qed.

Lemma redis_get_stored (l : list string) (a : string) :
  incl l names -> In a l ->
  redis_get (key_of a) (map stored l) = Some (json_dumps (vector a)).
Proof.
  induction l as [|b l IH]; intros Hincl Hin; [contradiction|].
  cbn [map redis_get]. unfold AestheticStore.stored at 1.
  destruct (String.eqb_spec (key_of a) (key_of b)) as [E|Hne].
  - assert (a = b) as ->; [|reflexivity].
    apply key_of_injective; [apply Hincl, Hin | apply Hincl; now left | exact E].
  - destruct Hin as [->|Hin]; [contradiction|].
    apply IH; [|exact Hin]. intros x Hx. apply Hincl. now right.
Qed.

Lemma collect_stored (todo : list string) :
  forall done : list string,
    names = (done ++ todo)%list ->
    collect (map stored names) (map key_of todo) (map listed done)
    = Ok (map listed names).
Proof.
  induction todo as [|a todo IH]; intros done E; cbn [map collect].
  - now rewrite E, app_nil_r.
  - assert (Ha : In a names) by (rewrite E; apply in_elt).
    rewrite (@redis_get_stored names a (incl_refl names) Ha).
    pose proof (@dumps_not_empty a Ha) as Hne.
    apply String.eqb_neq in Hne. rewrite Hne, (loads_dumps a Ha).
    rewrite (names_back a Ha), dict_set_fresh.
    + change (map listed done ++ [(a, vector a)])%list
        with (map listed done ++ map listed [a])%list.
      rewrite <- map_app. apply IH. now rewrite <- app_assoc.
    + rewrite map_map. cbn [fst AestheticStore.listed]. rewrite map_id.
      pose proof (NoDup_map_inv _ _ keys_distinct) as Hn.
      rewrite E in Hn. apply NoDup_remove_2 in Hn.
      intros Hin. apply Hn. apply in_or_app. now left.
Qed.

Lemma precompute_then_list :
  precompute_loop names 0 [] = (length names, map stored names) /\
  collect (map stored names) (redis_keys (map stored names)) []
  = Ok (map listed names).
Proof.
  split.
  - exact (precompute_loop_fresh names [] 0 eq_refl).
  - rewrite redis_keys_stored. exact (collect_stored names [] eq_refl).
Qed.

End RoundTrip.

Lemma common_keys_distinct : NoDup (map key_of COMMON_AESTHETICS).
Proof. apply distinct_NoDup. vm_compute. reflexivity. Qed.

Lemma common_names_back (a : string) :
  In a COMMON_AESTHETICS -> name_of (key_of a) = a.
Proof.
  intros H.
  assert (F : forallb (fun a => String.eqb (name_of (key_of a)) a)
                      COMMON_AESTHETICS = true) by (vm_compute; reflexivity).
  rewrite forallb_forall in F. now apply String.eqb_eq, F.
Qed.


Lemma collect_corrupted (r : redis) (key v : string) (e : exn) (keys : list string) :
  redis_get key r = Some v -> v <> "" -> json_loads v = Raise e ->
  In key keys ->
  forall results, exists e', collect r keys results = Raise e'.
Proof.
  intros Hg Hne Hl. apply String.eqb_neq in Hne.
  induction keys as [|k keys IH]; intros Hin results; [contradiction|].
  cbn [AestheticStore.collect].
  destruct (String.eqb_spec k key) as [->|Hk].
  - rewrite Hg, Hne, Hl. eauto.
  - assert (Hin' : In key keys) by (destruct Hin; [congruence | assumption]).
    destruct (redis_get k r) as [vj|]; [|now apply IH].
    destruct (String.eqb vj ""); [now apply IH|].
    destruct (json_loads vj); [now apply IH | eauto].
Qed.

(** X21. One stored vector that cannot be decoded hides all of them:
    [get_all_aesthetics] then returns the empty dictionary. *)
Theorem get_all_aesthetics_corrupted_entry
        (r : redis) (key v : string) (e : exn) :
  In key (redis_keys r) ->
  redis_get key r = Some v -> v <> "" -> json_loads v = Raise e ->
  get_all_aesthetics (Some r) = [].
Proof.
  intros Hin Hg Hne Hl. unfold AestheticStore.get_all_aesthetics.
  cbn [ensure_client].
  destruct (@collect_corrupted r key v e (redis_keys r) Hg Hne Hl Hin [])
    as [e' ->].
  reflexivity.
Qed.

End AestheticStoreFacts.

Section AestheticStoreWitnesses.

Import Py PyFloat PyStr AestheticStore.
Local Open Scope string_scope.



End AestheticStoreWitnesses.

Section AestheticStoreWitnesses2.

Import Py PyFloat PyStr AestheticStore.
Local Open Scope string_scope.

(** Two stored vectors, the second one cut short. *)
Lemma get_all_aesthetics_corrupted_entry_witness :
  get_all_aesthetics sample_loads None (Some corrupted_store) = [].
Proof.
  apply (@get_all_aesthetics_corrupted_entry sample_loads None
           corrupted_store (key_of "Punk") "[1.0, " JSONDecodeError).
  - right. left. reflexivity.
  - reflexivity.
  - discriminate.
  - reflexivity.
Defined.

End AestheticStoreWitnesses2.

(** ** Route handlers *)

Section RouteFacts.

Import Py PyFloat PyStr Routes.
Local Open Scope string_scope.
Local Open Scope R_scope.

Variable text_of_decode_error : string.

Lemma calculate_coherence_total (embeddings : list (list pyfloat)) :
  exists x, Similarity.calculate_coherence embeddings = Ok (Fin x)
            /\ 0 <= x <= 1.
Proof.
  unfold Similarity.calculate_coherence.
  destruct (Nat.ltb (length embeddings) 2).
  - exists 1. split; [reflexivity | lra].
  - unfold Similarity.coherence_body.
    destruct (Similarity.pairwise_similarities _) as [sims|e];
      cbn [bind try_except].
    + destruct (@py_clamp_finite 0 1
                  (if flt (Similarity.np_mean sims) (Fin (6/10))
                   then fmul (Similarity.np_mean sims)
                             (fdiv (Similarity.np_mean sims) (Fin (6/10)))
                   else Similarity.np_mean sims) ltac:(lra)) as [x [E B]].
      exists x. now rewrite E.
    + exists (5/10). split; [reflexivity | lra].
Qed.

(** X22. [POST /similarity/coherence] never answers with an error: for
    every list of vectors the response carries a finite score between 0
    and 1. *)
Theorem coherence_route_always_responds (embeddings : list (list pyfloat)) :
  exists x, Routes.calculate_coherence embeddings = Response (Fin x)
            /\ 0 <= x <= 1.
Proof.
  destruct (calculate_coherence_total embeddings) as [x [E B]].
  exists x. unfold Routes.calculate_coherence. now rewrite E.
Qed.

(** X23. [GET /aesthetics/identify] answers 404 for every prompt, every
    encoder and every set of stored vectors, because
    [find_nearest_aesthetic] never finds a style. *)
Theorem identify_route_always_404
        (encode_text : string -> result (list pyfloat))
        (aesthetics : list (string * list pyfloat)) (prompt : string) :
  identify_style (Aesthetic.find_nearest_aesthetic encode_text aesthetics)
                 prompt
  = HTTPException 404 "No aesthetic matches found".
Proof.
  unfold identify_style, Aesthetic.find_nearest_aesthetic.
  destruct (find_nearest_body_raises encode_text aesthetics prompt) as [e ->].
  reflexivity.
Qed.

End RouteFacts.

Section ScoreRoute.

Import Py PyFloat Json ScoreService Routes.
Local Open Scope string_scope.

Variable json_loads : string -> result json.
Variable create_completion : string -> result string.
Variable render_prompt : string -> json -> string.
Variable describe_item : OutfitItem -> string.
Variable float_of_string : string -> result pyfloat.
Variable text_of_decode_error : string.

(** [POST /score-outfits] never answers with an error: whatever the
    completion API does, the response carries one score per outfit, each
    between 1.0 and 10.0. *)
Theorem score_route_always_responds (request : ScoreOutfitsRequest) :
  exists scores,
    Routes.score_outfits text_of_decode_error
      (ScoreService.score_outfits json_loads create_completion render_prompt
                                  describe_item float_of_string request)
    = Response scores /\
    length scores = length (outfits request) /\
    Forall in_range scores.
Proof.
  unfold Routes.score_outfits, ScoreService.score_outfits.
  destruct (score_body json_loads create_completion render_prompt
                       describe_item float_of_string request)
    as [scores|e] eqn:E; cbn [try_except].
  - exists scores. split; [reflexivity|]. exact (score_body_ok _ _ _ _ _ _ E).
  - eexists. split; [reflexivity | apply neutral_in_range].
Qed.

End ScoreRoute.

Section SearchRoute.

Import Py PyFloat PyStr SimilaritySearch Routes.
Local Open Scope string_scope.

Variable encode_image : string -> result (list pyfloat).
Variable encode_text : string -> result (list pyfloat).
Variable connect : result unit.
Variable execute_fetchall : string -> list param -> result (list row).
Variable str_of_floats : list pyfloat -> string.
Variable str_of_dbval : dbval -> string.
Variable text_of_decode_error : string.

Notation search_route request :=
  (search_similar_products text_of_decode_error
     (search_similar encode_image encode_text connect execute_fetchall
                     str_of_floats str_of_dbval request)).
Notation resolve_embedding := (resolve_embedding encode_image encode_text).
Notation run_query := (run_query execute_fetchall str_of_dbval).

(** X24. The statuses of [POST /similarity/search]: a request without a
    usable criterion is answered 400 with the message of the
    [ValueError]; a failure to open the store connection that is not a
    [ValueError] is answered 500 [Search failed]; a failure of the query
    itself is answered as a success with an empty list. *)
Theorem search_route_statuses (request : SimilaritySearchRequest) :
  (truthy_list (embedding request) = false ->
   truthy_str (image_url request) = false ->
   truthy_str (text request) = false ->
   search_route request
   = HTTPException 400 "Must provide either text, image_url, or embedding") /\
  (forall emb e,
      resolve_embedding request = Ok emb ->
      connect = Raise e -> is_ValueError e = false ->
      search_route request = HTTPException 500 "Search failed") /\
  (forall emb e,
      resolve_embedding request = Ok emb ->
      connect = Ok tt ->
      run_query request (str_of_floats emb) = Raise e ->
      search_route request = Response []).
Proof.
  split; [|split].
  - intros He Hi Ht. unfold search_similar, SimilaritySearch.resolve_embedding.
    rewrite He, Hi, Ht. reflexivity.
  - intros emb e Hr Hc Hv. unfold search_similar.
    rewrite Hr, Hc. cbn [bind search_similar_products]. now rewrite Hv.
  - intros emb e Hr Hc Hq. unfold search_similar.
    rewrite Hr, Hc. cbn [bind]. now rewrite Hq.
Qed.

End SearchRoute.

Section RouteWitnesses.

Import Py PyFloat PyStr SimilaritySearch SearchQuery Routes.
Local Open Scope string_scope.

(** The store's query fails: the client receives an empty list. *)
Lemma search_route_statuses_witness :
  search_similar_products "invalid json"
    (search_similar working_encoder working_encoder (Ok tt) failing_query
                    (fun _ => "[1.0, 0.0]") (fun _ => "id")
                    request_with_embedding)
  = Response [].
Proof.
  refine (proj2 (proj2 (@search_route_statuses
                   working_encoder working_encoder (Ok tt) failing_query
                   (fun _ => "[1.0, 0.0]") (fun _ => "id") "invalid json"
                   request_with_embedding))
                [Fin 1; Fin 0] store_down _ _ _);
    reflexivity.
Defined.

End RouteWitnesses.

(** ** The encoder *)

Section ClipFacts.

Import Py PyFloat Similarity ClipService Batches.
Local Open Scope string_scope.
Local Open Scope R_scope.

Variable Image : Type.
Variable ensure_model : result unit.
Variable model_text : string -> result (list pyfloat).
Variable model_image : Image -> result (list pyfloat).
Variable fetch_image : Z -> string -> result Image.

Notation encode_text := (encode_text ensure_model model_text).
Notation encode_image := (encode_image ensure_model model_image fetch_image).
Notation encode_batch :=
  (encode_batch ensure_model model_text model_image fetch_image).
Notation fetch_all := (fetch_all fetch_image).
Notation fetchable := (fetchable fetch_image).

Lemma normalize_unit (raw : list R) :
  dotR raw raw <> 0 ->
  normalize (map Fin raw) = map Fin (normalizeR raw) /\
  unit_norm (normalize (map Fin raw)).
Proof.
  intros H. unfold normalize. rewrite (@normalize_Fin raw H).
  split; [reflexivity|].
  unfold unit_norm. rewrite np_linalg_norm_Fin. f_equal.
  unfold normR at 1. rewrite (@dotR_normalize raw raw H H).
  replace (dotR raw raw / (normR raw * normR raw)) with 1; [apply sqrt_1|].
  unfold normR. rewrite sqrt_sqrt by apply dotR_self_nonneg.
  field. assumption.
Qed.


Lemma fetch_all_length (image_urls : list string) :
  length (fetch_all image_urls) = length (filter fetchable image_urls).
Proof.
  induction image_urls as [|url rest IH]; [reflexivity|].
  cbn [ClipService.fetch_all filter]. unfold ClipService.fetchable at 1.
  destruct (fetch_image 20 url); cbn [length]; now rewrite IH.
Qed.

Lemma map_result_total {A B} (f : A -> result B) (g : A -> B) (l : list A) :
  (forall x, f x = Ok (g x)) -> map_result f l = Ok (map g l).
Proof.
  intros H. induction l as [|x l IH]; [reflexivity|].
  cbn [map_result map]. rewrite H. cbn [bind]. now rewrite IH.
Qed.

Lemma encode_batch_value
      (text_tower : string -> list pyfloat)
      (image_tower : Image -> list pyfloat)
      (texts image_urls : list string) :
  ensure_model = Ok tt ->
  (forall t, model_text t = Ok (text_tower t)) ->
  (forall i, model_image i = Ok (image_tower i)) ->
  encode_batch (Some texts) (Some image_urls)
  = Ok (wrap (map (fun t => normalize (text_tower t)) texts),
        wrap (map (fun i => normalize (image_tower i)) (fetch_all image_urls))).
Proof.
  intros He Ht Hi. unfold ClipService.encode_batch. rewrite He. cbn [bind given].
  assert (R1 : forall ts, encode_rows model_text ts
                          = Ok (map (fun t => normalize (text_tower t)) ts)).
  { intros ts. unfold encode_rows.
    rewrite (@map_result_total _ _ model_text text_tower _ Ht).
    cbn [bind]. now rewrite map_map. }
  assert (R2 : forall imgs, encode_rows model_image imgs
                            = Ok (map (fun i => normalize (image_tower i)) imgs)).
  { intros imgs. unfold encode_rows.
    rewrite (@map_result_total _ _ model_image image_tower _ Hi).
    cbn [bind]. now rewrite map_map. }
  destruct texts as [|t ts]; [|rewrite R1]; cbn [bind map wrap];
    (destruct image_urls as [|u us]; [reflexivity|]);
    remember (fetch_all (u :: us)) as imgs eqn:F;
    (destruct imgs as [|img imgs]; [reflexivity|]);
    rewrite R2; reflexivity.
Qed.


End ClipFacts.

(** ** The embedding pipeline *)

Section PairUp.

Import Py PyFloat ClipService DBService EmbedService Batches.
Local Open Scope string_scope.

Lemma skipn_cons_nth {A} (a : nat) (l r : list A) (x d : A) :
  skipn a l = x :: r ->
  a < length l /\ nth a l d = x /\ skipn (S a) l = r.
Proof.
  revert l; induction a as [|a IH]; intros [|y l] H; cbn in *;
    try discriminate.
  - injection H as -> ->. repeat split. lia.
  - destruct (IH l H) as [H1 [H2 H3]]. repeat split; [lia | exact H2 | exact H3].
Qed.

Lemma skipn_nil_length {A} (a : nat) (l : list A) :
  skipn a l = [] -> length l <= a.
Proof.
  revert l; induction a as [|a IH]; intros [|y l] H; cbn in *;
    try discriminate; try lia.
  specialize (IH l H). lia.
Qed.

Lemma pair_at_beyond (images texts : list (list pyfloat)) (ids : list string) :
  forall a, length images <= a ->
    flat_map (pair_at images texts) (combine (seq a (length ids)) ids) = [].
Proof.
  induction ids as [|pid ids IH]; intros a Ha; [reflexivity|].
  cbn [length seq combine flat_map]. rewrite IH by lia.
  unfold pair_at. replace (Nat.ltb a (length images)) with false
    by (symmetry; apply Nat.ltb_ge; lia).
  now rewrite andb_false_r.
Qed.

Lemma pair_at_zip (images texts : list (list pyfloat)) (ids : list string) :
  forall (a : nat) (ims txs : list (list pyfloat)),
    skipn a images = ims -> skipn a texts = txs ->
    length txs = length ids ->
    flat_map (pair_at images texts) (combine (seq a (length ids)) ids)
    = zip3 ims txs ids.
Proof.
  unfold zip3.
  induction ids as [|pid ids IH]; intros a ims txs Hi Ht Hl.
  - cbn. now destruct (combine ims txs).
  - destruct txs as [|t txs]; [discriminate|]. injection Hl as Hl.
    destruct (skipn_cons_nth a texts [] Ht) as [Ta [Tn Ts]].
    cbn [length seq combine flat_map].
    destruct ims as [|im ims].
    + rewrite pair_at_beyond by (apply skipn_nil_length in Hi; lia).
      unfold pair_at.
      replace (Nat.ltb a (length images)) with false
        by (symmetry; apply Nat.ltb_ge; now apply skipn_nil_length).
      now rewrite andb_false_r.
    + destruct (skipn_cons_nth a images [] Hi) as [Ia [In' Is]].
      rewrite (IH (S a) ims txs Is Ts Hl).
      unfold pair_at.
      replace (Nat.ltb a (length texts)) with true
        by (symmetry; now apply Nat.ltb_lt).
      replace (Nat.ltb a (length images)) with true
        by (symmetry; now apply Nat.ltb_lt).
      cbn [andb app combine]. now rewrite In', Tn.
Qed.

Lemma pair_up_zip (images texts : list (list pyfloat)) (ids : list string) :
  length texts = length ids ->
  pair_up ids (wrap texts) (wrap images) = zip3 images texts ids.
Proof.
  intros Hl. unfold pair_up, enumerate.
  destruct texts as [|t texts].
  - destruct ids; [|discriminate]. cbn. unfold zip3.
    now destruct (combine images []).
  - destruct images as [|im images].
    + cbn [wrap truthy andb]. unfold zip3. cbn [combine].
      induction (combine (seq 0 (length ids)) ids) as [|[i pid] l IH];
        [reflexivity | exact IH].
    + rewrite <- (@pair_at_zip (im :: images) (t :: texts) ids 0
                    (im :: images) (t :: texts) eq_refl eq_refl Hl).
      apply flat_map_ext. intros [i pid]. reflexivity.
Qed.

End PairUp.

Section EmbedFacts.

Import Py PyFloat PyStr ClipService DBService EmbedService Batches Pipeline.
Local Open Scope string_scope.

Variable Image : Type.
Variable ensure_model : result unit.
Variable model_text : string -> result (list pyfloat).
Variable model_image : Image -> result (list pyfloat).
Variable fetch_image : Z -> string -> result Image.
Variable connect : result unit.
Variable run : statement -> result unit.
Variable fetch_pending : Z -> result (list pending_row).
Variable str_of_floats : list pyfloat -> string.
Variable text_tower : string -> list pyfloat.
Variable image_tower : Image -> list pyfloat.

Notation process_batch :=
  (process_batch ensure_model model_text model_image fetch_image
                 connect run fetch_pending str_of_floats).
Notation fetch_all := (fetch_all fetch_image).
Notation fetchable := (fetchable fetch_image).
Notation batch_data := (batch_data fetch_image text_tower image_tower).

Lemma batch_data_length (pending : list pending_row) :
  length (batch_data pending)
  = length (filter fetchable (urls_of pending)).
Proof.
  unfold Pipeline.batch_data, zip3, ids_of, titles_of.
  rewrite !length_combine, !length_map.
  rewrite (fetch_all_length fetch_image).
  pose proof (filter_length_le fetchable (urls_of pending)) as H.
  unfold urls_of in *. rewrite length_map in H. lia.
Qed.

Lemma process_batch_value
      (batch_size : Z) (pending : list pending_row) (db : applied) :
  ensure_model = Ok tt ->
  (forall t, model_text t = Ok (text_tower t)) ->
  (forall i, model_image i = Ok (image_tower i)) ->
  connect = Ok tt ->
  fetch_pending batch_size = Ok pending ->
  (forall s, run s = Ok tt) ->
  process_batch batch_size db
  = (Ok (length (batch_data pending)),
     match batch_data pending with
     | [] => db
     | data =>
         (db ++ [ExecuteValues batch_update_query
                               (map (formatted str_of_floats) data)])%list
     end).
Proof.
  intros He Ht Hi Hc Hp Hr.
  unfold EmbedService.process_batch, get_pending_products.
  rewrite Hc. cbn [bind]. rewrite Hp. cbn [try_except].
  destruct pending as [|p pending']; [reflexivity|].
  set (pending := p :: pending') in *.
  rewrite (@encode_batch_value Image ensure_model model_text model_image
             fetch_image text_tower image_tower _ _ He Ht Hi).
  rewrite pair_up_zip by now rewrite !length_map.
  fold (ids_of pending). fold (titles_of pending). fold (urls_of pending).
  fold (batch_data pending).
  destruct (batch_data pending) as [|d data] eqn:E; [reflexivity|].
  unfold batch_update_embeddings. rewrite Hr. reflexivity.
Qed.



End EmbedFacts.

(** ** Persisting embeddings *)

Section PersistFacts.

Import Py PyFloat PyStr SimilaritySearch ClipService DBService EmbedService.
Import Routes EmbedRoute.
Local Open Scope string_scope.

Variable Image : Type.
Variable ensure_model : result unit.
Variable model_text : string -> result (list pyfloat).
Variable model_image : Image -> result (list pyfloat).
Variable fetch_image : Z -> string -> result Image.
Variable connect : result unit.
Variable run : statement -> result unit.
Variable str_of_floats : list pyfloat -> string.
Variable text_of_decode_error : string.

Notation update_product_embeddings :=
  (update_product_embeddings connect run str_of_floats).
Notation process_product :=
  (process_product ensure_model model_text model_image fetch_image
                   connect run str_of_floats).
Notation generate_embedding :=
  (generate_embedding ensure_model model_text model_image fetch_image
                      text_of_decode_error).

(** X29. [update_product_embeddings] applies at most one statement; the
    statement has as many [%s] placeholders as parameters and the product
    id is its last parameter.  With no embedding to write (both missing
    or empty) it applies nothing and succeeds. *)
Theorem update_product_embeddings_statement
        (product_id : string)
        (image_embedding text_embedding : option (list pyfloat))
        (db : applied) :
  let out := update_product_embeddings product_id image_embedding
                                       text_embedding db in
  (snd out = db \/
   exists query params,
     snd out = (db ++ [Execute query params])%list /\
     SearchQuery.placeholders query = length params /\
     last params (PStr "") = PStr product_id) /\
  (connect = Ok tt ->
   truthy_list image_embedding = false ->
   truthy_list text_embedding = false ->
   out = (Ok tt, db)).
Proof.
  intros out. unfold out, DBService.update_product_embeddings.
  destruct connect as [[]|e]; [|split; [now left | discriminate]].
  destruct (truthy_list image_embedding), (truthy_list text_embedding);
    cbn [app];
    (split; [|intros _ Hi Ht; try discriminate; reflexivity]);
    try (now left);
    match goal with
    | |- context [run ?s] =>
        destruct (run s); [right | now left]
    end;
    eexists _, _; (split; [reflexivity|]); split; reflexivity.
Qed.


End PersistFacts.

Section EmbeddingWitnesses.

Import Py PyFloat PyStr Similarity SimilaritySearch ClipService DBService.
Import EmbedService Batches Pipeline Routes EmbedRoute.
Local Open Scope string_scope.





(** Nothing to write: no statement is applied. *)
Lemma update_product_embeddings_statement_witness :
  update_product_embeddings (Ok tt) (fun _ => Ok tt) (fun _ => "[...]")
                            "p1" None (Some []) []
  = (Ok tt, []).
Proof.
  exact (proj2 (@update_product_embeddings_statement (Ok tt)
                  (fun _ => Ok tt) (fun _ => "[...]") "p1" None (Some []) [])
               eq_refl eq_refl eq_refl).
Defined.


End EmbeddingWitnesses.
